(** * Immersive fullscreen: the reveal / auto-hide controller

    A shallow embedding of the C++ [ImmersiveFullscreenController] and of
    the JavaScript [ImmersiveFullscreenEventHandler] that sits in front of
    it, together with the properties the design document states about them.

    Sources:
    - docs/examples/immersive_fullscreen/immersive_fullscreen_controller.h
      (the class: its enums, fields and inline methods);
    - docs/examples/local_model_classifier.cc, from line 233 on (the text of
      immersive_fullscreen_controller.cc: the method bodies);
    - docs/examples/immersive_fullscreen/pref_names.h (the preference keys);
    - docs/examples/immersive_fullscreen/immersive_fullscreen_controller_unittest.cc
      (the unit tests and, from line 407 on, the JavaScript event handler);
    - docs/examples/local_model_classifier.cc, lines 1 to 232, with
      tab_classifier.h and local_model_classifier.h (the local tab
      classifier [tab_focus::LocalModelClassifier], embedded in [TabFocus]).

    The controller is a single-threaded object: every public method runs to
    completion before the next one starts.  A method is embedded as a
    function from the controller (with the collaborators it owns: the
    one-shot timer, the slide animation, the preference store, the browser
    view and the observer list) to the controller after the call.  Every
    call the controller makes on a collaborator is appended to [calls_], so
    that "this method did nothing" is the equation [m c = c]. *)

From Stdlib Require Import ZArith QArith Bool List Lia.
From Stdlib Require Import Ascii String DecimalString.
From stdpp Require Import gmap strings list.

Open Scope string_scope.
Open Scope Z_scope.

(** ** Collaborators *)

(** PrefService: a store of named values (components/prefs). *)
Inductive PrefValue : Type :=
| BooleanPref (b : bool)
| IntegerPref (n : Z).

Module prefs.
(* pref_names.h *)
Definition kImmersiveFullscreenEnabled : string := "brave.immersive_fullscreen.enabled".
Definition kAutoHideDelayMs : string := "brave.immersive_fullscreen.auto_hide_delay_ms".
Definition kTopEdgeSensitivityPx : string := "brave.immersive_fullscreen.top_edge_sensitivity_px".
Definition kAnimationDurationMs : string := "brave.immersive_fullscreen.animation_duration_ms".
Definition kShowOnAddressBarFocus : string := "brave.immersive_fullscreen.show_on_address_bar_focus".
Definition kShowOnKeyboardActivity : string := "brave.immersive_fullscreen.show_on_keyboard_activity".
Definition kHasSeenIntroduction : string := "brave.immersive_fullscreen.has_seen_introduction".
Definition kRespectLegacyFullscreenPref : string := "brave.immersive_fullscreen.respect_legacy_fullscreen_pref".

(** Modelled from the spec: the key of the legacy "Always Show Toolbar in
    Full Screen" preference ([::prefs::kShowFullscreenToolbar]) is declared
    in chrome/common/pref_names.h, which is not part of the repository; the
    key the unit test RespectLegacyFullscreenPreference registers is used. *)
Definition kShowFullscreenToolbar : string := "show_fullscreen_toolbar".
End prefs.

(** Reading a preference that is absent or of the other type yields the
    type's zero value. *)
Definition GetBoolean (p : gmap string PrefValue) (k : string) : bool :=
  match p !! k with
  | Some (BooleanPref b) => b
  | _ => false
  end.

Definition GetInteger (p : gmap string PrefValue) (k : string) : Z :=
  match p !! k with
  | Some (IntegerPref n) => n
  | _ => 0
  end.

Definition SetBoolean (k : string) (v : bool) (p : gmap string PrefValue)
  : gmap string PrefValue := <[k := BooleanPref v]> p.

Definition SetInteger (k : string) (v : Z) (p : gmap string PrefValue)
  : gmap string PrefValue := <[k := IntegerPref v]> p.

(** gfx::Point and gfx::Rect, in screen pixels. *)
Record Point : Type := { px : Z; py : Z }.
Record Rect : Type := { rx : Z; ry : Z; rwidth : Z; rheight : Z }.
Definition right (r : Rect) : Z := rx r + rwidth r.

(** UI elements that can be controlled in immersive mode. *)
Inductive UIElement : Type :=
| kToolbar | kTabStrip | kBookmarksBar | kDownloadShelf | kInfoBarContainer.

(** BrowserView: for each element the view's visibility, or [None] when the
    browser view has no such view (the accessor returns nullptr); and the
    window bounds of its widget. *)
Record BrowserView : Type := {
  toolbar : option bool;
  tabstrip : option bool;
  bookmark_bar : option bool;
  download_shelf : option bool;
  infobar_container : option bool;
  window_bounds : Rect
}.

(** base::OneShotTimer: [Some d] while running with delay [d] (ms). *)
Definition OneShotTimer : Type := option Z.

(** Modelled from the spec: the Animation Driver (gfx::SlideAnimation, a
    Chromium class that is not part of the repository).  It moves towards
    shown or hidden, reports progress and completion only while it is
    animating, and [End] force-completes it before returning, after which no
    callback of the ended run is delivered. *)
Record SlideAnimation : Type := {
  showing : bool;
  is_animating : bool
}.

Definition Animation_IsShowing (a : SlideAnimation) : bool := showing a.
Definition Animation_Show (a : SlideAnimation) : SlideAnimation :=
  {| showing := true; is_animating := true |}.
Definition Animation_Hide (a : SlideAnimation) : SlideAnimation :=
  {| showing := false; is_animating := true |}.
Definition Animation_End (a : SlideAnimation) : SlideAnimation :=
  {| showing := showing a; is_animating := false |}.

(** Observers are identified by their address. *)
Definition ObserverId : Type := nat.

Inductive Notification : Type :=
| OnImmersiveUIVisibilityChanged (visible : bool)
| OnImmersiveModeToggled (enabled : bool)
| OnMouseHoverStateChanged (hovering_top_edge : bool).

(** The calls the controller makes on its collaborators. *)
Inductive Call : Type :=
| TimerStart (delay : Z)
| TimerStop
| AnimationShow
| AnimationHide
| AnimationEnd
| SetVisible (element : UIElement) (visible : bool)
| PrefSetBoolean (key : string) (value : bool)
| UmaHistogramBoolean (name : string) (sample : bool)
| Notify (observer : ObserverId) (n : Notification).

(** ** The controller *)

Inductive State : Type :=
| kDisabled   (* Not in fullscreen or immersive mode disabled *)
| kEnabled    (* In immersive mode with UI hidden *)
| kRevealed   (* In immersive mode with UI temporarily shown *)
| kPinned.    (* In immersive mode with UI pinned visible *)

Inductive AnimationState : Type :=
| kNone | kShowingUI | kHidingUI.

Record Controller : Type := {
  browser_view_ : BrowserView;
  pref_service_ : gmap string PrefValue;
  state_ : State;
  animation_state_ : AnimationState;
  should_show_ui_ : bool;
  address_bar_focused_ : bool;
  mouse_in_top_edge_ : bool;
  auto_hide_timer_ : OneShotTimer;
  auto_hide_delay_ : Z;
  animation_duration_ : Z;
  top_edge_sensitivity_px_ : Z;
  show_on_address_bar_focus_ : bool;
  show_on_keyboard_activity_ : bool;
  observers_ : list ObserverId;
  animation_ : SlideAnimation;
  calls_ : list Call
}.

Definition State_eqb (a b : State) : bool :=
  match a, b with
  | kDisabled, kDisabled | kEnabled, kEnabled
  | kRevealed, kRevealed | kPinned, kPinned => true
  | _, _ => false
  end.

Definition AnimationState_eqb (a b : AnimationState) : bool :=
  match a, b with
  | kNone, kNone | kShowingUI, kShowingUI | kHidingUI, kHidingUI => true
  | _, _ => false
  end.

(** Field updates. *)
Definition set_browser_view (v : BrowserView) (c : Controller) : Controller :=
  {| browser_view_ := v; pref_service_ := pref_service_ c; state_ := state_ c;
     animation_state_ := animation_state_ c; should_show_ui_ := should_show_ui_ c;
     address_bar_focused_ := address_bar_focused_ c;
     mouse_in_top_edge_ := mouse_in_top_edge_ c;
     auto_hide_timer_ := auto_hide_timer_ c; auto_hide_delay_ := auto_hide_delay_ c;
     animation_duration_ := animation_duration_ c;
     top_edge_sensitivity_px_ := top_edge_sensitivity_px_ c;
     show_on_address_bar_focus_ := show_on_address_bar_focus_ c;
     show_on_keyboard_activity_ := show_on_keyboard_activity_ c;
     observers_ := observers_ c; animation_ := animation_ c; calls_ := calls_ c |}.

Definition set_pref_service (v : gmap string PrefValue) (c : Controller) : Controller :=
  {| browser_view_ := browser_view_ c; pref_service_ := v; state_ := state_ c;
     animation_state_ := animation_state_ c; should_show_ui_ := should_show_ui_ c;
     address_bar_focused_ := address_bar_focused_ c;
     mouse_in_top_edge_ := mouse_in_top_edge_ c;
     auto_hide_timer_ := auto_hide_timer_ c; auto_hide_delay_ := auto_hide_delay_ c;
     animation_duration_ := animation_duration_ c;
     top_edge_sensitivity_px_ := top_edge_sensitivity_px_ c;
     show_on_address_bar_focus_ := show_on_address_bar_focus_ c;
     show_on_keyboard_activity_ := show_on_keyboard_activity_ c;
     observers_ := observers_ c; animation_ := animation_ c; calls_ := calls_ c |}.

Definition set_state (v : State) (c : Controller) : Controller :=
  {| browser_view_ := browser_view_ c; pref_service_ := pref_service_ c; state_ := v;
     animation_state_ := animation_state_ c; should_show_ui_ := should_show_ui_ c;
     address_bar_focused_ := address_bar_focused_ c;
     mouse_in_top_edge_ := mouse_in_top_edge_ c;
     auto_hide_timer_ := auto_hide_timer_ c; auto_hide_delay_ := auto_hide_delay_ c;
     animation_duration_ := animation_duration_ c;
     top_edge_sensitivity_px_ := top_edge_sensitivity_px_ c;
     show_on_address_bar_focus_ := show_on_address_bar_focus_ c;
     show_on_keyboard_activity_ := show_on_keyboard_activity_ c;
     observers_ := observers_ c; animation_ := animation_ c; calls_ := calls_ c |}.

Definition set_animation_state (v : AnimationState) (c : Controller) : Controller :=
  {| browser_view_ := browser_view_ c; pref_service_ := pref_service_ c; state_ := state_ c;
     animation_state_ := v; should_show_ui_ := should_show_ui_ c;
     address_bar_focused_ := address_bar_focused_ c;
     mouse_in_top_edge_ := mouse_in_top_edge_ c;
     auto_hide_timer_ := auto_hide_timer_ c; auto_hide_delay_ := auto_hide_delay_ c;
     animation_duration_ := animation_duration_ c;
     top_edge_sensitivity_px_ := top_edge_sensitivity_px_ c;
     show_on_address_bar_focus_ := show_on_address_bar_focus_ c;
     show_on_keyboard_activity_ := show_on_keyboard_activity_ c;
     observers_ := observers_ c; animation_ := animation_ c; calls_ := calls_ c |}.

Definition set_should_show_ui (v : bool) (c : Controller) : Controller :=
  {| browser_view_ := browser_view_ c; pref_service_ := pref_service_ c; state_ := state_ c;
     animation_state_ := animation_state_ c; should_show_ui_ := v;
     address_bar_focused_ := address_bar_focused_ c;
     mouse_in_top_edge_ := mouse_in_top_edge_ c;
     auto_hide_timer_ := auto_hide_timer_ c; auto_hide_delay_ := auto_hide_delay_ c;
     animation_duration_ := animation_duration_ c;
     top_edge_sensitivity_px_ := top_edge_sensitivity_px_ c;
     show_on_address_bar_focus_ := show_on_address_bar_focus_ c;
     show_on_keyboard_activity_ := show_on_keyboard_activity_ c;
     observers_ := observers_ c; animation_ := animation_ c; calls_ := calls_ c |}.

Definition set_address_bar_focused (v : bool) (c : Controller) : Controller :=
  {| browser_view_ := browser_view_ c; pref_service_ := pref_service_ c; state_ := state_ c;
     animation_state_ := animation_state_ c; should_show_ui_ := should_show_ui_ c;
     address_bar_focused_ := v;
     mouse_in_top_edge_ := mouse_in_top_edge_ c;
     auto_hide_timer_ := auto_hide_timer_ c; auto_hide_delay_ := auto_hide_delay_ c;
     animation_duration_ := animation_duration_ c;
     top_edge_sensitivity_px_ := top_edge_sensitivity_px_ c;
     show_on_address_bar_focus_ := show_on_address_bar_focus_ c;
     show_on_keyboard_activity_ := show_on_keyboard_activity_ c;
     observers_ := observers_ c; animation_ := animation_ c; calls_ := calls_ c |}.

Definition set_mouse_in_top_edge (v : bool) (c : Controller) : Controller :=
  {| browser_view_ := browser_view_ c; pref_service_ := pref_service_ c; state_ := state_ c;
     animation_state_ := animation_state_ c; should_show_ui_ := should_show_ui_ c;
     address_bar_focused_ := address_bar_focused_ c;
     mouse_in_top_edge_ := v;
     auto_hide_timer_ := auto_hide_timer_ c; auto_hide_delay_ := auto_hide_delay_ c;
     animation_duration_ := animation_duration_ c;
     top_edge_sensitivity_px_ := top_edge_sensitivity_px_ c;
     show_on_address_bar_focus_ := show_on_address_bar_focus_ c;
     show_on_keyboard_activity_ := show_on_keyboard_activity_ c;
     observers_ := observers_ c; animation_ := animation_ c; calls_ := calls_ c |}.

Definition set_auto_hide_timer (v : OneShotTimer) (c : Controller) : Controller :=
  {| browser_view_ := browser_view_ c; pref_service_ := pref_service_ c; state_ := state_ c;
     animation_state_ := animation_state_ c; should_show_ui_ := should_show_ui_ c;
     address_bar_focused_ := address_bar_focused_ c;
     mouse_in_top_edge_ := mouse_in_top_edge_ c;
     auto_hide_timer_ := v; auto_hide_delay_ := auto_hide_delay_ c;
     animation_duration_ := animation_duration_ c;
     top_edge_sensitivity_px_ := top_edge_sensitivity_px_ c;
     show_on_address_bar_focus_ := show_on_address_bar_focus_ c;
     show_on_keyboard_activity_ := show_on_keyboard_activity_ c;
     observers_ := observers_ c; animation_ := animation_ c; calls_ := calls_ c |}.

Definition set_auto_hide_delay (v : Z) (c : Controller) : Controller :=
  {| browser_view_ := browser_view_ c; pref_service_ := pref_service_ c; state_ := state_ c;
     animation_state_ := animation_state_ c; should_show_ui_ := should_show_ui_ c;
     address_bar_focused_ := address_bar_focused_ c;
     mouse_in_top_edge_ := mouse_in_top_edge_ c;
     auto_hide_timer_ := auto_hide_timer_ c; auto_hide_delay_ := v;
     animation_duration_ := animation_duration_ c;
     top_edge_sensitivity_px_ := top_edge_sensitivity_px_ c;
     show_on_address_bar_focus_ := show_on_address_bar_focus_ c;
     show_on_keyboard_activity_ := show_on_keyboard_activity_ c;
     observers_ := observers_ c; animation_ := animation_ c; calls_ := calls_ c |}.

Definition set_animation_duration (v : Z) (c : Controller) : Controller :=
  {| browser_view_ := browser_view_ c; pref_service_ := pref_service_ c; state_ := state_ c;
     animation_state_ := animation_state_ c; should_show_ui_ := should_show_ui_ c;
     address_bar_focused_ := address_bar_focused_ c;
     mouse_in_top_edge_ := mouse_in_top_edge_ c;
     auto_hide_timer_ := auto_hide_timer_ c; auto_hide_delay_ := auto_hide_delay_ c;
     animation_duration_ := v;
     top_edge_sensitivity_px_ := top_edge_sensitivity_px_ c;
     show_on_address_bar_focus_ := show_on_address_bar_focus_ c;
     show_on_keyboard_activity_ := show_on_keyboard_activity_ c;
     observers_ := observers_ c; animation_ := animation_ c; calls_ := calls_ c |}.

Definition set_observers (v : list ObserverId) (c : Controller) : Controller :=
  {| browser_view_ := browser_view_ c; pref_service_ := pref_service_ c; state_ := state_ c;
     animation_state_ := animation_state_ c; should_show_ui_ := should_show_ui_ c;
     address_bar_focused_ := address_bar_focused_ c;
     mouse_in_top_edge_ := mouse_in_top_edge_ c;
     auto_hide_timer_ := auto_hide_timer_ c; auto_hide_delay_ := auto_hide_delay_ c;
     animation_duration_ := animation_duration_ c;
     top_edge_sensitivity_px_ := top_edge_sensitivity_px_ c;
     show_on_address_bar_focus_ := show_on_address_bar_focus_ c;
     show_on_keyboard_activity_ := show_on_keyboard_activity_ c;
     observers_ := v; animation_ := animation_ c; calls_ := calls_ c |}.

Definition set_animation (v : SlideAnimation) (c : Controller) : Controller :=
  {| browser_view_ := browser_view_ c; pref_service_ := pref_service_ c; state_ := state_ c;
     animation_state_ := animation_state_ c; should_show_ui_ := should_show_ui_ c;
     address_bar_focused_ := address_bar_focused_ c;
     mouse_in_top_edge_ := mouse_in_top_edge_ c;
     auto_hide_timer_ := auto_hide_timer_ c; auto_hide_delay_ := auto_hide_delay_ c;
     animation_duration_ := animation_duration_ c;
     top_edge_sensitivity_px_ := top_edge_sensitivity_px_ c;
     show_on_address_bar_focus_ := show_on_address_bar_focus_ c;
     show_on_keyboard_activity_ := show_on_keyboard_activity_ c;
     observers_ := observers_ c; animation_ := v; calls_ := calls_ c |}.

Definition set_calls (v : list Call) (c : Controller) : Controller :=
  {| browser_view_ := browser_view_ c; pref_service_ := pref_service_ c; state_ := state_ c;
     animation_state_ := animation_state_ c; should_show_ui_ := should_show_ui_ c;
     address_bar_focused_ := address_bar_focused_ c;
     mouse_in_top_edge_ := mouse_in_top_edge_ c;
     auto_hide_timer_ := auto_hide_timer_ c; auto_hide_delay_ := auto_hide_delay_ c;
     animation_duration_ := animation_duration_ c;
     top_edge_sensitivity_px_ := top_edge_sensitivity_px_ c;
     show_on_address_bar_focus_ := show_on_address_bar_focus_ c;
     show_on_keyboard_activity_ := show_on_keyboard_activity_ c;
     observers_ := observers_ c; animation_ := animation_ c; calls_ := v |}.

(** Sequencing of void methods. *)
Definition Method : Type := Controller -> Controller.
Definition skip : Method := fun c => c.
Definition seq (m1 m2 : Method) : Method := fun c => m2 (m1 c).
Notation "m1 >>> m2" := (seq m1 m2) (at level 62, right associativity).

(** Record a call on a collaborator. *)
Definition call (k : Call) : Method :=
  fun c => set_calls (calls_ c ++ [k]) c.

(** ** Methods of the controller *)

Definition IsEnabled (c : Controller) : bool :=
  negb (State_eqb (state_ c) kDisabled).

Definition IsUIVisible (c : Controller) : bool :=
  State_eqb (state_ c) kRevealed || State_eqb (state_ c) kPinned.

Definition GetState (c : Controller) : State := state_ c.

(** *** Observer notification *)

Definition notify_all (n : Notification) : Method :=
  fun c => set_calls (calls_ c ++ map (fun o => Notify o n) (observers_ c)) c.

Definition NotifyVisibilityChanged (visible : bool) : Method :=
  notify_all (OnImmersiveUIVisibilityChanged visible).

Definition NotifyModeToggled (enabled : bool) : Method :=
  notify_all (OnImmersiveModeToggled enabled).

Definition NotifyMouseHoverChanged (hovering : bool) : Method :=
  notify_all (OnMouseHoverStateChanged hovering).

(** *** UI elements *)

Definition GetUIElementView (element : UIElement) (v : BrowserView) : option bool :=
  match element with
  | kToolbar => toolbar v
  | kTabStrip => tabstrip v
  | kBookmarksBar => bookmark_bar v
  | kDownloadShelf => download_shelf v
  | kInfoBarContainer => infobar_container v
  end.

Definition View_SetVisible (element : UIElement) (visible : bool) (v : BrowserView)
  : BrowserView :=
  match element with
  | kToolbar =>
      {| toolbar := Some visible; tabstrip := tabstrip v; bookmark_bar := bookmark_bar v;
         download_shelf := download_shelf v; infobar_container := infobar_container v;
         window_bounds := window_bounds v |}
  | kTabStrip =>
      {| toolbar := toolbar v; tabstrip := Some visible; bookmark_bar := bookmark_bar v;
         download_shelf := download_shelf v; infobar_container := infobar_container v;
         window_bounds := window_bounds v |}
  | kBookmarksBar =>
      {| toolbar := toolbar v; tabstrip := tabstrip v; bookmark_bar := Some visible;
         download_shelf := download_shelf v; infobar_container := infobar_container v;
         window_bounds := window_bounds v |}
  | kDownloadShelf =>
      {| toolbar := toolbar v; tabstrip := tabstrip v; bookmark_bar := bookmark_bar v;
         download_shelf := Some visible; infobar_container := infobar_container v;
         window_bounds := window_bounds v |}
  | kInfoBarContainer =>
      {| toolbar := toolbar v; tabstrip := tabstrip v; bookmark_bar := bookmark_bar v;
         download_shelf := download_shelf v; infobar_container := Some visible;
         window_bounds := window_bounds v |}
  end.

Definition SetUIElementVisible (element : UIElement) (visible : bool) : Method :=
  fun c =>
    match GetUIElementView element (browser_view_ c) with
    | Some _ =>
        call (SetVisible element visible)
          (set_browser_view (View_SetVisible element visible (browser_view_ c)) c)
    | None => c
    end.

Definition SetAllUIElementsVisible (visible : bool) : Method :=
  SetUIElementVisible kToolbar visible >>>
  SetUIElementVisible kTabStrip visible >>>
  SetUIElementVisible kBookmarksBar visible.
  (* Don't control download shelf and infobar visibility *)

(** *** Timer *)

Definition ScheduleAutoHide : Method :=
  fun c => call (TimerStart (auto_hide_delay_ c))
             (set_auto_hide_timer (Some (auto_hide_delay_ c)) c).

Definition CancelAutoHide : Method :=
  fun c => call TimerStop (set_auto_hide_timer None c).

(** *** Animation *)

Definition AnimateShowUI : Method :=
  fun c =>
    if AnimationState_eqb (animation_state_ c) kShowingUI then c
    else
      let c := set_animation_state kShowingUI c in
      if Animation_IsShowing (animation_ c) then c  (* Already showing *)
      else call AnimationShow (set_animation (Animation_Show (animation_ c)) c).

Definition AnimateHideUI : Method :=
  fun c =>
    if AnimationState_eqb (animation_state_ c) kHidingUI then c
    else
      let c := set_animation_state kHidingUI c in
      if negb (Animation_IsShowing (animation_ c)) then c  (* Already hidden *)
      else call AnimationHide (set_animation (Animation_Hide (animation_ c)) c).

Definition CompleteAnimation : Method :=
  fun c =>
    if AnimationState_eqb (animation_state_ c) kNone then c
    else
      set_animation_state kNone
        (call AnimationEnd (set_animation (Animation_End (animation_ c)) c)).

(** [value] is the driver's current value, 0 fully hidden, 1 fully visible. *)
Definition OnAnimationProgressed (value : Q) : Method :=
  let should_be_visible := negb (Qle_bool value (1 # 2)) in
  SetUIElementVisible kToolbar should_be_visible >>>
  SetUIElementVisible kTabStrip should_be_visible >>>
  SetUIElementVisible kBookmarksBar should_be_visible.

Definition OnAnimationCompleted : Method :=
  fun c =>
    let c := set_animation_state kNone c in
    let should_be_visible :=
      State_eqb (state_ c) kRevealed || State_eqb (state_ c) kPinned in
    SetAllUIElementsVisible should_be_visible c.

(** *** Preferences *)

Definition ShouldDisableImmersiveMode (c : Controller) : bool :=
  if GetBoolean (pref_service_ c) prefs.kRespectLegacyFullscreenPref then
    if GetBoolean (pref_service_ c) prefs.kShowFullscreenToolbar then true
    else false
  else false.

Definition kDefaultAutoHideDelay : Z := 2000.
Definition kDefaultAnimationDuration : Z := 300.
Definition kDefaultTopEdgeSensitivity : Z := 5.

(** *** Top-edge detection

    The coordinates are the program's ints.  The two sums, [right] and the
    lower edge of the zone, are taken in Z: they are the program's sums as
    long as these fit an int, which a property that depends on them assumes
    ([int_max]). *)

Definition GetBrowserScreenBounds (c : Controller) : Rect :=
  window_bounds (browser_view_ c).

Definition IsMouseInTopEdge (c : Controller) (location_in_screen : Point) : bool :=
  let browser_bounds := GetBrowserScreenBounds c in
  (rx browser_bounds <=? px location_in_screen) &&
  (px location_in_screen <? right browser_bounds) &&
  (ry browser_bounds <=? py location_in_screen) &&
  (py location_in_screen <? ry browser_bounds + top_edge_sensitivity_px_ c).

(** *** Public operations *)

Definition RevealUI : Method :=
  fun c =>
    if State_eqb (state_ c) kDisabled then c
    else
      let was_visible := IsUIVisible c in
      let c := if State_eqb (state_ c) kEnabled then set_state kRevealed c else c in
      let c := CancelAutoHide c in
      let c := AnimateShowUI c in
      if negb was_visible then NotifyVisibilityChanged true c else c.

Definition HideUIAfterDelay : Method :=
  fun c =>
    if State_eqb (state_ c) kDisabled || State_eqb (state_ c) kPinned then c
    else if should_show_ui_ c || address_bar_focused_ c then c
         (* Don't hide if there's a reason to keep UI visible *)
    else ScheduleAutoHide c.

Definition HideUIImmediately : Method :=
  fun c =>
    if State_eqb (state_ c) kDisabled || State_eqb (state_ c) kPinned then c
    else
      let c := CancelAutoHide c in
      let was_visible := IsUIVisible c in
      let c := set_state kEnabled c in
      let c := AnimateHideUI c in
      if was_visible then NotifyVisibilityChanged false c else c.

Definition PinUI : Method :=
  fun c =>
    if State_eqb (state_ c) kDisabled then c
    else
      let c := CancelAutoHide c in
      let was_visible := IsUIVisible c in
      let c := set_state kPinned c in
      if negb was_visible then NotifyVisibilityChanged true (AnimateShowUI c)
      else c.

Definition UnpinUI : Method :=
  fun c =>
    if negb (State_eqb (state_ c) kPinned) then c
    else
      let c := set_state kRevealed c in
      (* Auto-hide after delay if no reason to keep visible *)
      if negb (should_show_ui_ c) && negb (address_bar_focused_ c)
      then HideUIAfterDelay c
      else c.

Definition SetEnabled (enabled : bool) : Method :=
  fun c =>
    if Bool.eqb enabled (IsEnabled c) then c
    else if enabled && ShouldDisableImmersiveMode c then c
         (* Don't enable if preferences indicate it should be disabled *)
    else
      let old_state := state_ c in
      let c :=
        if enabled then
          let c := set_state kEnabled c in
          (* Record that user has seen immersive mode *)
          let c :=
            if negb (GetBoolean (pref_service_ c) prefs.kHasSeenIntroduction)
            then call (PrefSetBoolean prefs.kHasSeenIntroduction true)
                   (set_pref_service
                      (SetBoolean prefs.kHasSeenIntroduction true (pref_service_ c)) c)
            else c in
          (* Start with UI hidden unless there's a reason to show it *)
          if should_show_ui_ c || address_bar_focused_ c
          then RevealUI c
          else AnimateHideUI c
        else
          let c := set_state kDisabled c in
          (* Cancel any pending animations or timers *)
          let c := CancelAutoHide c in
          let c := CompleteAnimation c in
          (* Make sure all UI is visible when disabling *)
          SetAllUIElementsVisible true c in
      if negb (State_eqb old_state (state_ c))
      then call (UmaHistogramBoolean "Brave.ImmersiveFullscreen.Enabled" enabled)
             (NotifyModeToggled enabled c)
      else c.

Definition OnMouseMoved (location_in_screen : Point) : Method :=
  fun c =>
    if State_eqb (state_ c) kDisabled then c
    else
      let was_in_top_edge := mouse_in_top_edge_ c in
      let c := set_mouse_in_top_edge (IsMouseInTopEdge c location_in_screen) c in
      let c :=
        if negb (Bool.eqb (mouse_in_top_edge_ c) was_in_top_edge)
        then NotifyMouseHoverChanged (mouse_in_top_edge_ c) c
        else c in
      let old_should_show := should_show_ui_ c in
      let c := set_should_show_ui (mouse_in_top_edge_ c) c in
      if should_show_ui_ c && negb old_should_show then
        (* Mouse entered top edge - reveal UI *)
        RevealUI c
      else if negb (should_show_ui_ c) && old_should_show
              && negb (address_bar_focused_ c) then
        (* Mouse left top edge and address bar not focused - hide after delay *)
        HideUIAfterDelay c
      else c.

Definition OnAddressBarFocused : Method :=
  fun c =>
    let c := set_address_bar_focused true c in
    if show_on_address_bar_focus_ c && negb (State_eqb (state_ c) kDisabled)
    then RevealUI c
    else c.

Definition OnAddressBarBlurred : Method :=
  fun c =>
    let c := set_address_bar_focused false c in
    if negb (State_eqb (state_ c) kDisabled) && negb (State_eqb (state_ c) kPinned)
       && negb (should_show_ui_ c)
    then HideUIAfterDelay c
    else c.

Definition OnKeyboardActivity : Method :=
  fun c =>
    if show_on_keyboard_activity_ c && negb (State_eqb (state_ c) kDisabled)
    then RevealUI c
    else c.

Definition OnFullscreenStateChanged (is_fullscreen : bool) : Method :=
  fun c =>
    if is_fullscreen then
      (* Enable immersive mode when entering fullscreen (if preference allows) *)
      if GetBoolean (pref_service_ c) prefs.kImmersiveFullscreenEnabled
      then SetEnabled true c
      else c
    else
      (* Disable immersive mode when exiting fullscreen *)
      SetEnabled false c.

Definition OnActiveTabChanged : Method :=
  fun c =>
    if negb (State_eqb (state_ c) kDisabled) then
      (* Briefly show UI when switching tabs *)
      let c := RevealUI c in
      if negb (State_eqb (state_ c) kPinned) then HideUIAfterDelay c else c
    else c.

(** Modelled from the spec: the observer set (base::ObserverList, a Chromium
    class that is not part of the repository), to which AddObserver and
    RemoveObserver forward.  Observers are notified in registration order,
    and one is held at most once, so that no notification is delivered
    twice. *)
Definition AddObserver (observer : ObserverId) : Method :=
  fun c =>
    if existsb (Nat.eqb observer) (observers_ c) then c
    else set_observers (observers_ c ++ [observer]) c.

Definition RemoveObserver (observer : ObserverId) : Method :=
  fun c =>
    set_observers (List.filter (fun o => negb (Nat.eqb observer o)) (observers_ c)) c.

Definition SetAnimationDurationForTesting (duration : Z) : Method :=
  set_animation_duration duration.

Definition SetAutoHideDelayForTesting (delay : Z) : Method :=
  set_auto_hide_delay delay.

(** The controller stops observing the widget; its own fields are untouched. *)
Definition OnWidgetDestroying : Method := skip.

Definition OnAutoHideTimer : Method := HideUIImmediately.

Definition TriggerAutoHideTimerForTesting : Method := OnAutoHideTimer.

(** *** Construction *)

Definition InitializeFromPrefs (p : gmap string PrefValue) : Z * Z * Z * bool * bool :=
  let auto_hide_delay := GetInteger p prefs.kAutoHideDelayMs in
  let auto_hide_delay :=
    if auto_hide_delay =? 0 then kDefaultAutoHideDelay else auto_hide_delay in
  let animation_duration := GetInteger p prefs.kAnimationDurationMs in
  let animation_duration :=
    if animation_duration =? 0 then kDefaultAnimationDuration else animation_duration in
  let top_edge_sensitivity_px := GetInteger p prefs.kTopEdgeSensitivityPx in
  let top_edge_sensitivity_px :=
    if top_edge_sensitivity_px <=? 0 then kDefaultTopEdgeSensitivity
    else top_edge_sensitivity_px in
  (auto_hide_delay, animation_duration, top_edge_sensitivity_px,
   GetBoolean p prefs.kShowOnAddressBarFocus,
   GetBoolean p prefs.kShowOnKeyboardActivity).

Definition ImmersiveFullscreenController
  (browser_view : BrowserView) (pref_service : gmap string PrefValue) : Controller :=
  let '(delay, duration, sensitivity, on_focus, on_key) :=
    InitializeFromPrefs pref_service in
  {| browser_view_ := browser_view;
     pref_service_ := pref_service;
     state_ := kDisabled;
     animation_state_ := kNone;
     should_show_ui_ := false;
     address_bar_focused_ := false;
     mouse_in_top_edge_ := false;
     auto_hide_timer_ := None;
     auto_hide_delay_ := delay;
     animation_duration_ := duration;
     top_edge_sensitivity_px_ := sensitivity;
     show_on_address_bar_focus_ := on_focus;
     show_on_keyboard_activity_ := on_key;
     observers_ := [];
     animation_ := {| showing := false; is_animating := false |};
     calls_ := [] |}.

(** *** The event loop

    Everything that can happen to a controller: a call of one of its public
    methods, an external change of a preference, or a callback of a
    collaborator it owns.  The one-shot timer fires only while it is running
    and is stopped when its callback starts; the animation reports progress
    and completion only while it is animating. *)

Inductive Event : Type :=
| EvSetEnabled (enabled : bool)
| EvRevealUI
| EvHideUIAfterDelay
| EvHideUIImmediately
| EvPinUI
| EvUnpinUI
| EvOnMouseMoved (location_in_screen : Point)
| EvOnAddressBarFocused
| EvOnAddressBarBlurred
| EvOnKeyboardActivity
| EvOnFullscreenStateChanged (is_fullscreen : bool)
| EvOnActiveTabChanged
| EvAddObserver (observer : ObserverId)
| EvRemoveObserver (observer : ObserverId)
| EvSetAnimationDurationForTesting (duration : Z)
| EvSetAutoHideDelayForTesting (delay : Z)
| EvTriggerAutoHideTimerForTesting
| EvOnWidgetDestroying
| EvPrefChanged (key : string) (value : PrefValue)
| EvTimerFired
| EvAnimationProgressed (value : Q)
| EvAnimationEnded.

Definition TimerFired : Method :=
  fun c =>
    match auto_hide_timer_ c with
    | Some _ => OnAutoHideTimer (set_auto_hide_timer None c)
    | None => c
    end.

Definition AnimationProgressed (value : Q) : Method :=
  fun c =>
    if is_animating (animation_ c) then OnAnimationProgressed value c else c.

Definition AnimationEnded : Method :=
  fun c =>
    if is_animating (animation_ c)
    then OnAnimationCompleted (set_animation (Animation_End (animation_ c)) c)
    else c.

Definition handle (e : Event) : Method :=
  match e with
  | EvSetEnabled enabled => SetEnabled enabled
  | EvRevealUI => RevealUI
  | EvHideUIAfterDelay => HideUIAfterDelay
  | EvHideUIImmediately => HideUIImmediately
  | EvPinUI => PinUI
  | EvUnpinUI => UnpinUI
  | EvOnMouseMoved p => OnMouseMoved p
  | EvOnAddressBarFocused => OnAddressBarFocused
  | EvOnAddressBarBlurred => OnAddressBarBlurred
  | EvOnKeyboardActivity => OnKeyboardActivity
  | EvOnFullscreenStateChanged is_fullscreen => OnFullscreenStateChanged is_fullscreen
  | EvOnActiveTabChanged => OnActiveTabChanged
  | EvAddObserver o => AddObserver o
  | EvRemoveObserver o => RemoveObserver o
  | EvSetAnimationDurationForTesting d => SetAnimationDurationForTesting d
  | EvSetAutoHideDelayForTesting d => SetAutoHideDelayForTesting d
  | EvTriggerAutoHideTimerForTesting => TriggerAutoHideTimerForTesting
  | EvOnWidgetDestroying => OnWidgetDestroying
  | EvPrefChanged k v => fun c => set_pref_service (<[k := v]> (pref_service_ c)) c
  | EvTimerFired => TimerFired
  | EvAnimationProgressed value => AnimationProgressed value
  | EvAnimationEnded => AnimationEnded
  end.

Definition run (es : list Event) : Method :=
  fun c => fold_left (fun c e => handle e c) es c.

(** The views the controller manages are shown when it is created: the
    browser is not in immersive mode yet. *)
Definition shown (v : option bool) : bool :=
  match v with
  | Some visible => visible
  | None => true
  end.

Definition all_surfaces_visible (v : BrowserView) : bool :=
  shown (toolbar v) && shown (tabstrip v) && shown (bookmark_bar v).

Inductive reachable (c : Controller) : Prop :=
| reachable_run (browser_view : BrowserView) (pref_service : gmap string PrefValue)
    (es : list Event) :
    all_surfaces_visible browser_view = true ->
    c = run es (ImmersiveFullscreenController browser_view pref_service) ->
    reachable c.

(** What one observer has been told, in order. *)
Definition received (o : ObserverId) (calls : list Call) : list Notification :=
  flat_map (fun k => match k with
                     | Notify o' n => if Nat.eqb o o' then [n] else []
                     | _ => []
                     end) calls.

(** The timer starts the controller has requested. *)
Definition timer_starts (calls : list Call) : list Call :=
  List.filter (fun k => match k with TimerStart _ => true | _ => false end) calls.

(** ** The JavaScript event handler (ImmersiveFullscreenEventHandler)

    The page-side handler keeps its own [isEnabled] / [isUIVisible] pair and
    its own timeout, and forwards each event to the controller when the
    [window.chrome.immersiveFullscreen] bridge exists. *)

Module EventHandler.

Record MouseEvent : Type := {
  clientX : Z; clientY : Z; screenX : Z; screenY : Z
}.

Record KeyboardEvent : Type := {
  key : string; ctrlKey : bool; metaKey : bool; altKey : bool; shiftKey : bool
}.

(** The detail of a dispatched CustomEvent (its timestamp is left out). *)
Inductive CustomEvent : Type :=
| immersive_ui_visibility_changed (visible : bool) (reason : string)
| immersive_mode_toggled (enabled : bool).

(** The fields of the handler object. *)
Record Handler : Type := {
  isEnabled : bool;
  isUIVisible : bool;
  mouseTrackingActive : bool;
  lastMousePosition : Z * Z;
  topEdgeSensitivity : Z;
  autoHideTimer : option positive; (* null, or the id setTimeout returned *)
  autoHideDelay : Z
}.

(** The part of the page the handler reads and writes. *)
Record Page : Type := {
  classList : list string;        (* document.body.classList *)
  hasAddressBar : bool;           (* querySelector finds the address bar *)
  addressBarIsActive : bool;      (* it is document.activeElement *)
  timeouts : list (positive * Z); (* pending setTimeout callbacks: id, delay *)
  nextTimeoutId : positive;       (* timeout ids are positive integers *)
  dispatched : list CustomEvent;  (* document.dispatchEvent *)
  console : list string           (* console.debug *)
}.

(** The handler, its page, and the controller behind the bridge, if any. *)
Record Browser : Type := {
  handler : Handler;
  page : Page;
  bridge : option Controller      (* window.chrome.immersiveFullscreen *)
}.

Definition with_handler (h : Handler) (b : Browser) : Browser :=
  {| handler := h; page := page b; bridge := bridge b |}.
Definition with_page (p : Page) (b : Browser) : Browser :=
  {| handler := handler b; page := p; bridge := bridge b |}.
Definition with_bridge (m : Method) (b : Browser) : Browser :=
  {| handler := handler b; page := page b;
     bridge := match bridge b with Some c => Some (m c) | None => None end |}.

Definition set_isEnabled (v : bool) (h : Handler) : Handler :=
  {| isEnabled := v; isUIVisible := isUIVisible h;
     mouseTrackingActive := mouseTrackingActive h;
     lastMousePosition := lastMousePosition h;
     topEdgeSensitivity := topEdgeSensitivity h;
     autoHideTimer := autoHideTimer h; autoHideDelay := autoHideDelay h |}.
Definition set_isUIVisible (v : bool) (h : Handler) : Handler :=
  {| isEnabled := isEnabled h; isUIVisible := v;
     mouseTrackingActive := mouseTrackingActive h;
     lastMousePosition := lastMousePosition h;
     topEdgeSensitivity := topEdgeSensitivity h;
     autoHideTimer := autoHideTimer h; autoHideDelay := autoHideDelay h |}.
Definition set_lastMousePosition (v : Z * Z) (h : Handler) : Handler :=
  {| isEnabled := isEnabled h; isUIVisible := isUIVisible h;
     mouseTrackingActive := mouseTrackingActive h;
     lastMousePosition := v;
     topEdgeSensitivity := topEdgeSensitivity h;
     autoHideTimer := autoHideTimer h; autoHideDelay := autoHideDelay h |}.
Definition set_autoHideTimer (v : option positive) (h : Handler) : Handler :=
  {| isEnabled := isEnabled h; isUIVisible := isUIVisible h;
     mouseTrackingActive := mouseTrackingActive h;
     lastMousePosition := lastMousePosition h;
     topEdgeSensitivity := topEdgeSensitivity h;
     autoHideTimer := v; autoHideDelay := autoHideDelay h |}.

Definition set_classList (v : list string) (p : Page) : Page :=
  {| classList := v; hasAddressBar := hasAddressBar p;
     addressBarIsActive := addressBarIsActive p; timeouts := timeouts p;
     nextTimeoutId := nextTimeoutId p; dispatched := dispatched p;
     console := console p |}.
Definition set_timeouts (v : list (positive * Z)) (n : positive) (p : Page) : Page :=
  {| classList := classList p; hasAddressBar := hasAddressBar p;
     addressBarIsActive := addressBarIsActive p; timeouts := v;
     nextTimeoutId := n; dispatched := dispatched p;
     console := console p |}.
Definition set_dispatched (v : list CustomEvent) (p : Page) : Page :=
  {| classList := classList p; hasAddressBar := hasAddressBar p;
     addressBarIsActive := addressBarIsActive p; timeouts := timeouts p;
     nextTimeoutId := nextTimeoutId p; dispatched := v;
     console := console p |}.
Definition set_console (v : list string) (p : Page) : Page :=
  {| classList := classList p; hasAddressBar := hasAddressBar p;
     addressBarIsActive := addressBarIsActive p; timeouts := timeouts p;
     nextTimeoutId := nextTimeoutId p; dispatched := dispatched p;
     console := v |}.

(** DOMTokenList: an ordered set of class names. *)
Definition classList_add (name : string) (l : list string) : list string :=
  if existsb (String.eqb name) l then l else l ++ [name].
Definition classList_remove (name : string) (l : list string) : list string :=
  List.filter (fun n => negb (String.eqb name n)) l.

(** [classList.forEach] walks the live list by index; the callback removes
    the names that start with "immersive-reveal-". *)
Fixpoint remove_reveal_classes (fuel : nat) (i : nat) (l : list string) : list string :=
  match fuel with
  | O => l
  | S fuel =>
      match nth_error l i with
      | None => l
      | Some className =>
          let l := if String.prefix "immersive-reveal-" className
                   then classList_remove className l else l in
          remove_reveal_classes fuel (S i) l
      end
  end.

Definition body_add (name : string) (b : Browser) : Browser :=
  with_page (set_classList (classList_add name (classList (page b))) (page b)) b.
Definition body_remove (name : string) (b : Browser) : Browser :=
  with_page (set_classList (classList_remove name (classList (page b))) (page b)) b.
Definition console_debug (msg : string) (b : Browser) : Browser :=
  with_page (set_console (console (page b) ++ [msg]) (page b)) b.
Definition dispatchEvent (e : CustomEvent) (b : Browser) : Browser :=
  with_page (set_dispatched (dispatched (page b) ++ [e]) (page b)) b.

Definition dispatchUIVisibilityEvent (visible : bool) (reason : string)
  : Browser -> Browser :=
  dispatchEvent (immersive_ui_visibility_changed visible reason).

Definition dispatchModeToggleEvent (enabled : bool) : Browser -> Browser :=
  dispatchEvent (immersive_mode_toggled enabled).

Definition isMouseInTopEdge (b : Browser) (mouseY : Z) : bool :=
  mouseY <=? topEdgeSensitivity (handler b).

Definition isAddressBarFocused (b : Browser) : bool :=
  hasAddressBar (page b) && addressBarIsActive (page b).

Definition cancelAutoHide (b : Browser) : Browser :=
  match autoHideTimer (handler b) with
  | Some id =>
      (* clearTimeout(this.autoHideTimer); this.autoHideTimer = null *)
      let p := set_timeouts
                 (List.filter (fun t => negb (Pos.eqb (fst t) id)) (timeouts (page b)))
                 (nextTimeoutId (page b)) (page b) in
      with_handler (set_autoHideTimer None (handler b)) (with_page p b)
  | None => b
  end.

Definition scheduleAutoHide (b : Browser) : Browser :=
  let b := cancelAutoHide b in
  let id := nextTimeoutId (page b) in
  let p := set_timeouts (timeouts (page b) ++ [(id, autoHideDelay (handler b))])
             (Pos.succ id) (page b) in
  with_handler (set_autoHideTimer (Some id) (handler b)) (with_page p b).

Definition revealUI (reason : string) (b : Browser) : Browser :=
  if negb (isEnabled (handler b)) || isUIVisible (handler b) then b
  else
    let b := with_handler (set_isUIVisible true (handler b)) b in
    let b := cancelAutoHide b in
    let b := body_add "immersive-ui-revealed" b in
    let b := body_remove "immersive-ui-hidden" b in
    let b := body_add ("immersive-reveal-" ++ reason) b in
    let b := console_debug ("Immersive UI revealed: " ++ reason) b in
    dispatchUIVisibilityEvent true reason b.

Definition hideUI (reason : string) (b : Browser) : Browser :=
  if negb (isEnabled (handler b)) || negb (isUIVisible (handler b)) then b
  else if isAddressBarFocused b then b  (* Don't hide if address bar is focused *)
  else
    let b := with_handler (set_isUIVisible false (handler b)) b in
    let b := body_add "immersive-ui-hidden" b in
    let b := body_remove "immersive-ui-revealed" b in
    let l := classList (page b) in
    let b := with_page
               (set_classList (remove_reveal_classes (length l) 0 l) (page b)) b in
    let b := console_debug ("Immersive UI hidden: " ++ reason) b in
    dispatchUIVisibilityEvent false reason b.

Definition updateTopEdgeBounds (b : Browser) : Browser := b.

Definition enableImmersiveMode (b : Browser) : Browser :=
  if isEnabled (handler b) then b
  else
    let b := with_handler
               (set_isUIVisible false (set_isEnabled true (handler b))) b in
    let b := body_add "immersive-fullscreen-enabled" b in
    let b := body_add "immersive-ui-hidden" b in
    (* Start with UI hidden unless there's a reason to show it *)
    let b := if isAddressBarFocused b
                || isMouseInTopEdge b (snd (lastMousePosition (handler b)))
             then revealUI "initial_state" b else b in
    let b := console_debug "Immersive fullscreen mode enabled" b in
    dispatchModeToggleEvent true b.

Definition disableImmersiveMode (b : Browser) : Browser :=
  if negb (isEnabled (handler b)) then b
  else
    let b := with_handler
               (set_isUIVisible true (set_isEnabled false (handler b))) b in
    let b := body_remove "immersive-fullscreen-enabled" b in
    let b := body_remove "immersive-ui-hidden" b in
    let b := body_remove "immersive-ui-revealed" b in
    (* Cancel any pending timers *)
    let b := cancelAutoHide b in
    let b := console_debug "Immersive fullscreen mode disabled" b in
    dispatchModeToggleEvent false b.

Definition handleMouseMove (event : MouseEvent) (b : Browser) : Browser :=
  if negb (isEnabled (handler b)) then b
  else
    let b := with_handler
               (set_lastMousePosition (clientX event, clientY event) (handler b)) b in
    let isInTopEdge := isMouseInTopEdge b (clientY event) in
    let b :=
      if isInTopEdge && negb (isUIVisible (handler b)) then revealUI "mouse_hover" b
      else if negb isInTopEdge && isUIVisible (handler b)
              && negb (isAddressBarFocused b)
      then scheduleAutoHide b
      else b in
    (* Notify C++ controller about mouse position *)
    with_bridge (OnMouseMoved {| px := screenX event; py := screenY event |}) b.

(** The key combinations for which handleKeyDown always reveals the UI. *)
Definition shouldReveal (event : KeyboardEvent) : bool :=
  ctrlKey event || metaKey event || altKey event
  || String.eqb (key event) "F11"
  || String.eqb (key event) "Escape"
  || String.eqb (key event) "Tab".

Definition handleKeyDown (event : KeyboardEvent) (b : Browser) : Browser :=
  if negb (isEnabled (handler b)) then b
  else
    let b := if shouldReveal event then revealUI "keyboard_shortcut" b else b in
    (* Notify C++ controller about keyboard activity *)
    with_bridge OnKeyboardActivity b.

Definition handleAddressBarFocus (b : Browser) : Browser :=
  if negb (isEnabled (handler b)) then b
  else
    let b := revealUI "address_bar_focus" b in
    (* Keep UI visible while address bar is focused *)
    let b := cancelAutoHide b in
    with_bridge OnAddressBarFocused b.

Definition handleAddressBarBlur (b : Browser) : Browser :=
  if negb (isEnabled (handler b)) then b
  else
    (* Schedule auto-hide after address bar loses focus *)
    let b := if negb (isMouseInTopEdge b (snd (lastMousePosition (handler b))))
             then scheduleAutoHide b else b in
    with_bridge OnAddressBarBlurred b.

Definition handleFullscreenChange (isFullscreen : bool) (b : Browser) : Browser :=
  let b := if isFullscreen then enableImmersiveMode b else disableImmersiveMode b in
  with_bridge (OnFullscreenStateChanged isFullscreen) b.

Definition handleWindowResize (b : Browser) : Browser :=
  if negb (isEnabled (handler b)) then b
  else
    (* Update top edge sensitivity based on new window size *)
    let b := updateTopEdgeBounds b in
    (* Briefly show UI when window is resized *)
    let b := revealUI "window_resize" b in
    scheduleAutoHide b.

(** The chrome.tabs.onActivated listener installed by observeTabChanges. *)
Definition tabActivated (b : Browser) : Browser :=
  if isEnabled (handler b) then
    scheduleAutoHide (revealUI "tab_change" b)
  else b.

(** updateConfig(config): a field that is undefined is left as it is. *)
Definition updateConfig (config_topEdgeSensitivity config_autoHideDelay : option Z)
    (b : Browser) : Browser :=
  let h := handler b in
  let h := {| isEnabled := isEnabled h; isUIVisible := isUIVisible h;
              mouseTrackingActive := mouseTrackingActive h;
              lastMousePosition := lastMousePosition h;
              topEdgeSensitivity :=
                match config_topEdgeSensitivity with
                | Some v => v
                | None => topEdgeSensitivity h
                end;
              autoHideTimer := autoHideTimer h;
              autoHideDelay :=
                match config_autoHideDelay with
                | Some v => v
                | None => autoHideDelay h
                end |} in
  console_debug "Immersive fullscreen config updated:" (with_handler h b).

(** destroy(), after the listeners are removed. *)
Definition destroy (b : Browser) : Browser :=
  disableImmersiveMode (cancelAutoHide b).

(** The timeout with id [id] expires: it leaves the pending list and its
    callback, [hideUI('auto_hide_timer')], runs. *)
Definition timeoutFired (id : positive) (b : Browser) : Browser :=
  if existsb (fun t => Pos.eqb (fst t) id) (timeouts (page b)) then
    let p := set_timeouts
               (List.filter (fun t => negb (Pos.eqb (fst t) id)) (timeouts (page b)))
               (nextTimeoutId (page b)) (page b) in
    hideUI "auto_hide_timer" (with_page p b)
  else b.

(** [new ImmersiveFullscreenEventHandler()] on a page. *)
Definition constructor (p : Page) (native : option Controller) : Browser :=
  {| handler := {| isEnabled := false; isUIVisible := true;
                   mouseTrackingActive := false; lastMousePosition := (0, 0);
                   topEdgeSensitivity := 5; autoHideTimer := None;
                   autoHideDelay := 2000 |};
     page := p; bridge := native |}.

(** Whether the handler's own timeout is pending. *)
Definition autoHidePending (b : Browser) : bool :=
  match autoHideTimer (handler b) with
  | Some id => existsb (fun t => Pos.eqb (fst t) id) (timeouts (page b))
  | None => false
  end.

End EventHandler.

(** ** The set-up of the unit tests (ImmersiveFullscreenControllerTest::SetUp) *)

Definition test_prefs : gmap string PrefValue :=
  <[prefs.kImmersiveFullscreenEnabled := BooleanPref true]>
  (<[prefs.kAutoHideDelayMs := IntegerPref 2000]>
  (<[prefs.kTopEdgeSensitivityPx := IntegerPref 5]>
  (<[prefs.kAnimationDurationMs := IntegerPref 300]>
  (<[prefs.kShowOnAddressBarFocus := BooleanPref true]>
  (<[prefs.kShowOnKeyboardActivity := BooleanPref false]>
  (<[prefs.kHasSeenIntroduction := BooleanPref false]>
  (<[prefs.kRespectLegacyFullscreenPref := BooleanPref true]> ∅))))))).

Definition test_browser_view : BrowserView :=
  {| toolbar := Some true; tabstrip := Some true; bookmark_bar := Some true;
     download_shelf := None; infobar_container := None;
     window_bounds := {| rx := 0; ry := 0; rwidth := 1200; rheight := 800 |} |}.

Definition test_controller : Controller :=
  SetAutoHideDelayForTesting 10
    (SetAnimationDurationForTesting 1
       (ImmersiveFullscreenController test_browser_view test_prefs)).

(** ** Vocabulary of the properties *)

(** The effect of SetAllUIElementsVisible on the browser view, and the calls
    it makes: one SetVisible for each managed view that exists. *)
Definition views_set (visible : bool) (v : BrowserView) : BrowserView :=
  {| toolbar := (fun _ => visible) <$> toolbar v;
     tabstrip := (fun _ => visible) <$> tabstrip v;
     bookmark_bar := (fun _ => visible) <$> bookmark_bar v;
     download_shelf := download_shelf v;
     infobar_container := infobar_container v;
     window_bounds := window_bounds v |}.

Definition view_call (element : UIElement) (visible : bool) (v : BrowserView)
  : list Call :=
  match GetUIElementView element v with
  | Some _ => [SetVisible element visible]
  | None => []
  end.

Definition views_calls (visible : bool) (v : BrowserView) : list Call :=
  view_call kToolbar visible v ++ view_call kTabStrip visible v
  ++ view_call kBookmarksBar visible v.

(** The relations between the fields that every reachable controller
    satisfies. *)
Record consistent (c : Controller) : Prop := {
  pinned_timer : state_ c = kPinned -> auto_hide_timer_ c = None;
  disabled_timer : state_ c = kDisabled -> auto_hide_timer_ c = None;
  disabled_animation : state_ c = kDisabled -> animation_state_ c = kNone;
  disabled_surfaces :
    state_ c = kDisabled -> all_surfaces_visible (browser_view_ c) = true;
  idle_animation : animation_state_ c = kNone -> is_animating (animation_ c) = false;
  showing_direction : animation_state_ c = kShowingUI -> showing (animation_ c) = true;
  hiding_direction : animation_state_ c = kHidingUI -> showing (animation_ c) = false;
  hover_signal : should_show_ui_ c = mouse_in_top_edge_ c;
  hidden_direction : state_ c = kEnabled -> showing (animation_ c) = false;
  revealed_direction : state_ c = kRevealed -> showing (animation_ c) = true;
  pinned_direction : state_ c = kPinned -> showing (animation_ c) = true;
  observers_once : List.NoDup (observers_ c)
}.

(** The OnImmersiveModeToggled(true) notifications among a list. *)
Definition mode_toggled_on (l : list Notification) : list Notification :=
  List.filter (fun n => match n with
                        | OnImmersiveModeToggled true => true
                        | _ => false
                        end) l.

(** Controllers of the unit tests: after SetEnabled(true); with an observer
    added after that; revealed by address-bar focus; pinned with the show
    animation finished. *)
Definition enabled_controller : Controller := SetEnabled true test_controller.

Definition observed_controller : Controller := AddObserver 1%nat enabled_controller.

Definition focused_controller : Controller := OnAddressBarFocused enabled_controller.

Definition pinned_events : list Event := [EvSetEnabled true; EvPinUI; EvAnimationEnded].

Definition pinned_controller : Controller :=
  run pinned_events (ImmersiveFullscreenController test_browser_view test_prefs).

(** The legacy "always show toolbar" preference switched on, as in the test
    RespectLegacyFullscreenPreference. *)
Definition legacy_controller : Controller :=
  handle (EvPrefChanged prefs.kShowFullscreenToolbar (BooleanPref true)) test_controller.

(** A page with an address bar that does not have the focus, and on it an
    enabled handler whose UI is hidden. *)
Definition test_page : EventHandler.Page :=
  {| EventHandler.classList := [];
     EventHandler.hasAddressBar := true;
     EventHandler.addressBarIsActive := false;
     EventHandler.timeouts := [];
     EventHandler.nextTimeoutId := 1%positive;
     EventHandler.dispatched := [];
     EventHandler.console := [] |}.

Definition mouse_at (x y : Z) : EventHandler.MouseEvent :=
  {| EventHandler.clientX := x; EventHandler.clientY := y;
     EventHandler.screenX := x; EventHandler.screenY := y |}.

Definition hidden_browser : EventHandler.Browser :=
  EventHandler.timeoutFired 1%positive
    (EventHandler.handleMouseMove (mouse_at 600 100)
       (EventHandler.handleFullscreenChange true
          (EventHandler.constructor test_page (Some test_controller)))).


(** *** The command log

    What the controller has told the UI-surface binding: the [SetVisible]
    calls in [calls_]. *)

Definition UIElement_eqb (a b : UIElement) : bool :=
  match a, b with
  | kToolbar, kToolbar | kTabStrip, kTabStrip | kBookmarksBar, kBookmarksBar
  | kDownloadShelf, kDownloadShelf | kInfoBarContainer, kInfoBarContainer => true
  | _, _ => false
  end.

(** The managed surfaces: the views SetAllUIElementsVisible commands. *)
Definition managed : list UIElement := [kToolbar; kTabStrip; kBookmarksBar].

(** The last visibility command among [calls] for an element, or [last] when
    there is none. *)
Definition last_command_from (element : UIElement) (last : option bool)
    (calls : list Call) : option bool :=
  fold_left (fun last k =>
               match k with
               | SetVisible e visible =>
                   if UIElement_eqb e element then Some visible else last
               | _ => last
               end) calls last.

(** The last visibility command the controller has given for an element, if
    it has given one. *)
Definition last_command (element : UIElement) (calls : list Call) : option bool :=
  last_command_from element None calls.

(** An element is released when its view does not exist, or no command has
    been given for it, or the last command was "visible" and the view is
    visible. *)
Definition element_released (element : UIElement) (v : BrowserView)
    (calls : list Call) : bool :=
  match GetUIElementView element v, last_command element calls with
  | Some visible, Some command => command && visible
  | _, _ => true
  end.

(** No managed surface is held hidden. *)
Definition released (v : BrowserView) (calls : list Call) : bool :=
  forallb (fun element => element_released element v calls) managed.

(** The relations between the fields and the command log that hold of a
    controller constructed over any browser view, whatever its views show. *)
Record log_consistent (c : Controller) : Prop := {
  log_pinned_timer : state_ c = kPinned -> auto_hide_timer_ c = None;
  log_disabled_timer : state_ c = kDisabled -> auto_hide_timer_ c = None;
  log_disabled_animation : state_ c = kDisabled -> animation_state_ c = kNone;
  log_disabled_released :
    state_ c = kDisabled -> released (browser_view_ c) (calls_ c) = true;
  log_idle_animation : animation_state_ c = kNone -> is_animating (animation_ c) = false;
  log_showing_direction : animation_state_ c = kShowingUI -> showing (animation_ c) = true;
  log_hiding_direction : animation_state_ c = kHidingUI -> showing (animation_ c) = false;
  log_hover_signal : should_show_ui_ c = mouse_in_top_edge_ c;
  log_hidden_direction : state_ c = kEnabled -> showing (animation_ c) = false;
  log_revealed_direction : state_ c = kRevealed -> showing (animation_ c) = true;
  log_pinned_direction : state_ c = kPinned -> showing (animation_ c) = true;
  log_observers_once : List.NoDup (observers_ c)
}.

(** A browser view whose bookmarks bar is hidden, as a user setting leaves
    it. *)
Definition hidden_bar_view : BrowserView :=
  {| toolbar := Some true; tabstrip := Some true; bookmark_bar := Some false;
     download_shelf := None; infobar_container := None;
     window_bounds := {| rx := 0; ry := 0; rwidth := 1200; rheight := 800 |} |}.



(** An enabled controller whose hover signal is stale: the pointer entered
    the zone, the controller was disabled, the move out of the zone was
    dropped, and the controller was enabled and hidden again. *)
Definition stale_hover_events : list Event :=
  [EvAddObserver 1%nat; EvSetEnabled true;
   EvOnMouseMoved {| px := 600; py := 2 |}; EvSetEnabled false;
   EvOnMouseMoved {| px := 600; py := 100 |}; EvSetEnabled true;
   EvHideUIImmediately].

Definition stale_hover_controller : Controller :=
  run stale_hover_events
    (ImmersiveFullscreenController test_browser_view test_prefs).

(** The largest value of the program's int. *)
Definition int_max : Z := 2147483647.

(** ** The local tab classifier (tab_focus::LocalModelClassifier) *)

Module TabFocus.

(* tab_classifier.h *)
Record TabInfo : Type := {
  title : string;
  domain : string;
  url : string;   (* Only used for local processing, never sent to servers *)
  tab_id : Z
}.

Inductive Status : Type := kSuccess | kError | kModelNotReady.

Record TabGroup : Type := {
  name : string;
  tab_ids : list Z;
  description : string
}.

Record ClassificationResult : Type := {
  status : Status;
  groups : list TabGroup;
  error_message : string
}.

Definition CreateSuccess (groups : list TabGroup) : ClassificationResult :=
  {| status := kSuccess; groups := groups; error_message := "" |}.

Definition CreateError (message : string) : ClassificationResult :=
  {| status := kError; groups := []; error_message := message |}.

Definition IsSuccess (r : ClassificationResult) : bool :=
  match status r with
  | kSuccess => true
  | _ => false
  end.

(** Maximum number of tabs to process in a single request. *)
Definition kMaxTabsPerRequest : nat := 20.

(** std::regex_replace(url, sensitive_params, "") for the pattern
    [?&](auth|token|key|password|session)[^&]*: every match, found from left
    to right, is deleted.  A match starts at a '?' or '&' that one of the five
    words follows, and runs up to the next '&' or the end of the string.
    [skipping] tells that the scan is inside a match. *)
Definition sensitive_words : list string :=
  ["auth"; "token"; "key"; "password"; "session"].

Definition starts_sensitive (s : string) : bool :=
  existsb (fun w => String.prefix w s) sensitive_words.

Definition is_separator (c : ascii) : bool :=
  Ascii.eqb c "?" || Ascii.eqb c "&".

Fixpoint delete_sensitive (skipping : bool) (s : string) : string :=
  match s with
  | EmptyString => EmptyString
  | String c rest =>
      if skipping && negb (Ascii.eqb c "&") then delete_sensitive true rest
      else if is_separator c && starts_sensitive rest
           then delete_sensitive true rest
           else String c (delete_sensitive false rest)
  end.

Definition SanitizeUrl (url : string) : string := delete_sensitive false url.

Definition SanitizeTabInfo (tab_info : TabInfo) : TabInfo :=
  let sanitized := tab_info in
  (* Remove auth parameters from URL if present *)
  let sanitized :=
    if negb (String.eqb (url sanitized) "")
    then {| title := title sanitized; domain := domain sanitized;
            url := SanitizeUrl (url sanitized); tab_id := tab_id sanitized |}
    else sanitized in
  (* Truncate very long titles to avoid overwhelming the model *)
  if (200 <? String.length (title sanitized))%nat
  then {| title := String.substring 0 200 (title sanitized) ++ "...";
          domain := domain sanitized; url := url sanitized;
          tab_id := tab_id sanitized |}
  else sanitized.

Definition nl : string := String "010"%char EmptyString.
Definition dq : string := String "034"%char EmptyString.

(** operator<< on a size_t. *)
Definition decimal (n : nat) : string := NilZero.string_of_uint (Nat.to_uint n).

(** The loop of BuildClassificationPrompt, from index [i] on. *)
Fixpoint tab_lines (i : nat) (tabs : list TabInfo) : string :=
  match tabs with
  | [] => ""
  | tab :: rest =>
      decimal (i + 1) ++ ". " ++ dq ++ title tab ++ dq ++ " - " ++ domain tab ++ nl
      ++ tab_lines (S i) rest
  end.

Definition BuildClassificationPrompt (tabs : list TabInfo) : string :=
  "You are a browser tab organizer. Your task is to group the "
  ++ "following browser tabs into logical categories based on their "
  ++ "titles and domains. Provide meaningful group names and organize "
  ++ "tabs that are related by topic, purpose, or domain." ++ nl ++ nl
  ++ "IMPORTANT: Process this data locally only. Do not send any "
  ++ "information to external services." ++ nl ++ nl
  ++ "Browser tabs to organize:" ++ nl
  ++ tab_lines 0 tabs
  ++ nl ++ "Please respond with a JSON object containing groups. "
  ++ "Each group should have a 'name', 'description', and 'tab_numbers' "
  ++ "array. Example format:" ++ nl
  ++ "{" ++ nl
  ++ "  " ++ dq ++ "groups" ++ dq ++ ": [" ++ nl
  ++ "    {" ++ nl
  ++ "      " ++ dq ++ "name" ++ dq ++ ": " ++ dq ++ "Work" ++ dq ++ "," ++ nl
  ++ "      " ++ dq ++ "description" ++ dq ++ ": " ++ dq ++ "Work-related tabs"
  ++ dq ++ "," ++ nl
  ++ "      " ++ dq ++ "tab_numbers" ++ dq ++ ": [1, 3, 5]" ++ nl
  ++ "    }" ++ nl
  ++ "  ]" ++ nl
  ++ "}" ++ nl ++ nl
  ++ "Respond with only the JSON, no additional text:".

(** ai_chat::ModelService, as far as the classifier asks it. *)
Record ModelService : Type := {
  HasLocalModel : bool;
  IsModelReady : bool
}.

(** [model_service_] may be null. *)
Definition IsReady (model_service : option ModelService) : bool :=
  match model_service with
  | Some m => HasLocalModel m && IsModelReady m
  | None => false
  end.

Definition GetDescription (model_service : option ModelService) : string :=
  if negb (IsReady model_service) then "Local model not available"
  else "Local AI model (privacy-preserving)".

Definition IsLocalProcessing : bool := true.

(** What a call of ClassifyTabs does: it runs the callback at once, or it
    sends one completion request to the model. *)
Inductive Outcome : Type :=
| RunCallback (result : ClassificationResult)
| RequestCompletion (prompt : string).

Definition ClassifyTabs (model_service : option ModelService) (tabs : list TabInfo)
  : Outcome :=
  if negb (IsReady model_service) then
    RunCallback (CreateError
      ("Local model not available. Please ensure a compatible model is "
       ++ "configured in Leo settings."))
  else if Nat.eqb (List.length tabs) 0 then
    RunCallback (CreateSuccess [])
  else
    (* Limit number of tabs to prevent overwhelming the model *)
    let tabs_to_process :=
      if (kMaxTabsPerRequest <? List.length tabs)%nat
      then firstn kMaxTabsPerRequest tabs else tabs in
    (* Sanitize tab data for local processing *)
    let sanitized_tabs := map SanitizeTabInfo tabs_to_process in
    RequestCompletion (BuildClassificationPrompt sanitized_tabs).

(** base::Value, as JSONReader produces it. *)
#[warnings="-register-all"]
Inductive Value : Type :=
| NoneValue
| BooleanValue (b : bool)
| IntegerValue (n : Z)
| DoubleValue (q : Q)
| StringValue (s : string)
| ListValue (l : list Value)
| DictValue (d : list (string * Value)).

Fixpoint Find (key : string) (d : list (string * Value)) : option Value :=
  match d with
  | [] => None
  | (k, v) :: rest => if String.eqb k key then Some v else Find key rest
  end.

Definition FindList (key : string) (d : list (string * Value)) : option (list Value) :=
  match Find key d with
  | Some (ListValue l) => Some l
  | _ => None
  end.

Definition FindString (key : string) (d : list (string * Value)) : option string :=
  match Find key d with
  | Some (StringValue s) => Some s
  | _ => None
  end.

(** Convert tab numbers to tab IDs. *)
Fixpoint tab_ids_of (tab_numbers : list Value) (original_tabs : list TabInfo)
  : list Z :=
  match tab_numbers with
  | [] => []
  | number_value :: rest =>
      match number_value with
      | IntegerValue tab_number =>
          if (0 <? tab_number) && (Z.to_nat tab_number <=? List.length original_tabs)%nat
          then
            let tab_index := (Z.to_nat tab_number - 1)%nat in
            match nth_error original_tabs tab_index with
            | Some tab => tab_id tab :: tab_ids_of rest original_tabs
            | None => tab_ids_of rest original_tabs
            end
          else tab_ids_of rest original_tabs
      | _ => tab_ids_of rest original_tabs
      end
  end.

Fixpoint groups_of (groups_list : list Value) (original_tabs : list TabInfo)
  : list TabGroup :=
  match groups_list with
  | [] => []
  | group_value :: rest =>
      match group_value with
      | DictValue group =>
          match FindString "name" group, FindList "tab_numbers" group with
          | Some name, Some tab_numbers =>
              let result_group :=
                {| name := name;
                   tab_ids := tab_ids_of tab_numbers original_tabs;
                   description :=
                     match FindString "description" group with
                     | Some description => description
                     | None => ""
                     end |} in
              if negb (Nat.eqb (List.length (tab_ids result_group)) 0)
              then result_group :: groups_of rest original_tabs
              else groups_of rest original_tabs
          | _, _ => groups_of rest original_tabs
          end
      | _ => groups_of rest original_tabs
      end
  end.

(** [JSONReader_Read] is base::JSONReader::Read. *)
Definition ParseClassificationResponse (JSONReader_Read : string -> option Value)
    (response : string) (original_tabs : list TabInfo) : ClassificationResult :=
  match JSONReader_Read response with
  | Some (DictValue root) =>
      match FindList "groups" root with
      | Some groups_list => CreateSuccess (groups_of groups_list original_tabs)
      | None => CreateError "No groups found in model response"
      end
  | _ => CreateError "Invalid response format from local model"
  end.

Definition OnModelResponse (JSONReader_Read : string -> option Value)
    (response : string) : ClassificationResult :=
  if String.eqb response "" then
    CreateError "Local model returned empty response"
  else
    (* Parse the response and create classification result *)
    ParseClassificationResponse JSONReader_Read response [].

End TabFocus.

(** ** Vocabulary of the further properties *)

(** How the animation phase and the timer relate to the mode and the input
    signals. *)
Record phase_consistent (c : Controller) : Prop := {
  showing_mode : animation_state_ c = kShowingUI -> IsUIVisible c = true;
  hiding_mode : animation_state_ c = kHidingUI -> state_ c = kEnabled;
  timer_hover : auto_hide_timer_ c <> None -> should_show_ui_ c = false;
  timer_focus :
    auto_hide_timer_ c <> None -> show_on_address_bar_focus_ c = true ->
    address_bar_focused_ c = false
}.

(** The notifications one event owes an observer: the hover change, then the
    visibility change (none when the controller ends up disabled), then the
    mode change. *)
Definition expected_notifications (before after : Controller) : list Notification :=
  (if Bool.eqb (mouse_in_top_edge_ before) (mouse_in_top_edge_ after) then []
   else [OnMouseHoverStateChanged (mouse_in_top_edge_ after)])
  ++ (if Bool.eqb (IsUIVisible before) (IsUIVisible after) then []
      else if IsEnabled after
           then [OnImmersiveUIVisibilityChanged (IsUIVisible after)] else [])
  ++ (if Bool.eqb (IsEnabled before) (IsEnabled after) then []
      else [OnImmersiveModeToggled (IsEnabled after)]).

(** The two setters the tests use to shorten the delay and the animation. *)
Definition is_testing_setter (e : Event) : bool :=
  match e with
  | EvSetAnimationDurationForTesting _ | EvSetAutoHideDelayForTesting _ => true
  | _ => false
  end.

(** A view exists on one side exactly when it exists on the other. *)
Definition same_view (a b : option bool) : Prop := a = None <-> b = None.

(** What no method of the controller touches: the configuration read at
    construction, the views it does not manage, the window bounds, and
    whether a managed view exists. *)
Record untouched (c c' : Controller) : Prop := {
  same_sensitivity : top_edge_sensitivity_px_ c' = top_edge_sensitivity_px_ c;
  same_on_focus : show_on_address_bar_focus_ c' = show_on_address_bar_focus_ c;
  same_on_key : show_on_keyboard_activity_ c' = show_on_keyboard_activity_ c;
  same_delay : auto_hide_delay_ c' = auto_hide_delay_ c;
  same_duration : animation_duration_ c' = animation_duration_ c;
  same_download_shelf :
    download_shelf (browser_view_ c') = download_shelf (browser_view_ c);
  same_infobar :
    infobar_container (browser_view_ c') = infobar_container (browser_view_ c);
  same_bounds : window_bounds (browser_view_ c') = window_bounds (browser_view_ c);
  same_toolbar : same_view (toolbar (browser_view_ c')) (toolbar (browser_view_ c));
  same_tabstrip : same_view (tabstrip (browser_view_ c')) (tabstrip (browser_view_ c));
  same_bookmark_bar :
    same_view (bookmark_bar (browser_view_ c')) (bookmark_bar (browser_view_ c))
}.

(** Whether the event registers the observer [o]. *)
Definition adds_observer (o : ObserverId) (e : Event) : bool :=
  match e with
  | EvAddObserver o' => Nat.eqb o o'
  | _ => false
  end.

(** A revealed controller whose pointer has left the top edge: its hide
    timer is running. *)
Definition leaving_events : list Event :=
  [EvSetEnabled true; EvOnMouseMoved {| px := 600; py := 2 |};
   EvOnMouseMoved {| px := 600; py := 100 |}].

Definition leaving_controller : Controller :=
  run leaving_events (ImmersiveFullscreenController test_browser_view test_prefs).

Section HandlerVocabulary.
Import EventHandler.

(** Everything that can happen to the page handler: the DOM events it listens
    to, a tab activation, the expiry of a timeout, its two other methods, and
    the focus moving to or from the address bar. *)
Inductive PageEvent : Type :=
| PeMouseMove (event : MouseEvent)
| PeKeyDown (event : KeyboardEvent)
| PeAddressBarFocus
| PeAddressBarBlur
| PeFullscreenChange (isFullscreen : bool)
| PeWindowResize
| PeTabActivated
| PeTimeout (id : positive)
| PeUpdateConfig (config_topEdgeSensitivity config_autoHideDelay : option Z)
| PeDestroy
| PeActiveElement (isAddressBar : bool).

Definition setActiveElement (isAddressBar : bool) (b : Browser) : Browser :=
  with_page
    {| classList := classList (page b); hasAddressBar := hasAddressBar (page b);
       addressBarIsActive := isAddressBar; timeouts := timeouts (page b);
       nextTimeoutId := nextTimeoutId (page b); dispatched := dispatched (page b);
       console := console (page b) |} b.

Definition dispatch (e : PageEvent) (b : Browser) : Browser :=
  match e with
  | PeMouseMove event => handleMouseMove event b
  | PeKeyDown event => handleKeyDown event b
  | PeAddressBarFocus => handleAddressBarFocus b
  | PeAddressBarBlur => handleAddressBarBlur b
  | PeFullscreenChange isFullscreen => handleFullscreenChange isFullscreen b
  | PeWindowResize => handleWindowResize b
  | PeTabActivated => tabActivated b
  | PeTimeout id => timeoutFired id b
  | PeUpdateConfig s d => updateConfig s d b
  | PeDestroy => destroy b
  | PeActiveElement a => setActiveElement a b
  end.

Definition dispatch_all (es : list PageEvent) (b : Browser) : Browser :=
  fold_left (fun b e => dispatch e b) es b.

(** A page on which no timeout is pending and the body carries none of the
    handler's three state classes. *)
Definition clean_page (p : Page) : Prop :=
  timeouts p = [] /\
  ~ In "immersive-fullscreen-enabled" (classList p) /\
  ~ In "immersive-ui-hidden" (classList p) /\
  ~ In "immersive-ui-revealed" (classList p).

Record handler_consistent (b : Browser) : Prop := {
  disabled_visible : isEnabled (handler b) = false -> isUIVisible (handler b) = true;
  disabled_no_timer : isEnabled (handler b) = false -> autoHideTimer (handler b) = None;
  one_timeout :
    timeouts (page b) = [] \/
    exists id delay,
      timeouts (page b) = [(id, delay)] /\ autoHideTimer (handler b) = Some id;
  enabled_class :
    In "immersive-fullscreen-enabled" (classList (page b))
    <-> isEnabled (handler b) = true;
  hidden_class :
    In "immersive-ui-hidden" (classList (page b))
    <-> isEnabled (handler b) = true /\ isUIVisible (handler b) = false;
  revealed_class :
    In "immersive-ui-revealed" (classList (page b))
    <-> isEnabled (handler b) = true /\ isUIVisible (handler b) = true
}.

(** The events that cannot enable a handler, nor make its sensitivity
    negative. *)
Definition keeps_disabled (e : PageEvent) : bool :=
  match e with
  | PeFullscreenChange isFullscreen => negb isFullscreen
  | PeUpdateConfig (Some sensitivity) _ => 0 <=? sensitivity
  | _ => true
  end.

(** A handler that has never been enabled. *)
Definition never_enabled (b : Browser) : Prop :=
  isEnabled (handler b) = false /\ isUIVisible (handler b) = true /\
  lastMousePosition (handler b) = (0, 0) /\ autoHideTimer (handler b) = None /\
  0 <= topEdgeSensitivity (handler b).

(** A controller whose preference is off, behind the bridge of a new handler. *)
Definition pref_off_controller : Controller :=
  handle (EvPrefChanged prefs.kImmersiveFullscreenEnabled (BooleanPref false))
    test_controller.

(** An enabled handler with its UI visible, the pointer outside the top edge
    and the timeout it armed pending. *)
Definition armed_browser : Browser :=
  handleMouseMove (mouse_at 600 100)
    (handleFullscreenChange true (constructor test_page None)).

End HandlerVocabulary.

Section ClassifierVocabulary.
Import TabFocus.

(** Whether a string holds a sensitive parameter: a '?' or '&' that one of the
    five words follows. *)
Fixpoint has_sensitive_param (s : string) : bool :=
  match s with
  | EmptyString => false
  | String c rest =>
      (is_separator c && starts_sensitive rest) || has_sensitive_param rest
  end.

(** What of a tab reaches the prompt. *)
Definition prompt_view (tab : TabInfo) : string * string := (title tab, domain tab).

Definition tab_a : TabInfo :=
  {| title := "Inbox"; domain := "mail.example";
     url := "https://mail.example/?token=abc"; tab_id := 7 |}.

Definition tab_b : TabInfo :=
  {| title := "Inbox"; domain := "mail.example";
     url := "https://mail.example/u/1"; tab_id := 12 |}.

Definition ready_service : option ModelService :=
  Some {| HasLocalModel := true; IsModelReady := true |}.

End ClassifierVocabulary.

(** * Properties *)

Open Scope list_scope.

(** ** Proof support *)

Lemma app_not_self {A : Type} (l : list A) (x : A) (r : list A) :
  l ++ x :: r <> l.
Proof.
  intros H. apply (f_equal (@length A)) in H.
  rewrite length_app in H. cbn in H. lia.
Qed.

Lemma SetAllUIElementsVisible_eq (visible : bool) (c : Controller) :
  SetAllUIElementsVisible visible c =
  set_calls (calls_ c ++ views_calls visible (browser_view_ c))
    (set_browser_view (views_set visible (browser_view_ c)) c).
Proof.
  destruct c as [[tb ts bb ds ic wb] ps st an ssu abf mte tm dl du se sf sk ob am cl].
  unfold SetAllUIElementsVisible, seq, SetUIElementVisible, views_calls, view_call, call.
  destruct tb, ts, bb; cbn; rewrite <- ?app_assoc, ?app_nil_r; reflexivity.
Qed.

Lemma OnAnimationProgressed_eq (value : Q) (c : Controller) :
  OnAnimationProgressed value c =
  SetAllUIElementsVisible (negb (Qle_bool value (1 # 2))) c.
Proof. reflexivity. Qed.

Lemma views_set_visible (v : BrowserView) :
  all_surfaces_visible (views_set true v) = true.
Proof. destruct v as [[] [] [] ? ? ?]; reflexivity. Qed.

Lemma NoDup_AddObserver (o : ObserverId) (l : list ObserverId) :
  existsb (Nat.eqb o) l = false -> List.NoDup l -> List.NoDup (l ++ [o]).
Proof.
  intros He Hl. apply NoDup_ListNoDup. apply NoDup_ListNoDup in Hl.
  apply NoDup_app. split; [exact Hl|]. split.
  - intros x Hx Hin. apply list_elem_of_singleton in Hin. subst x.
    assert (existsb (Nat.eqb o) l = true); [|congruence].
    apply existsb_exists. exists o. split.
    + apply list_elem_of_In. exact Hx.
    + apply Nat.eqb_refl.
  - apply NoDup_singleton.
Qed.

(** *** Running the code on a controller whose control fields are known

    The methods branch on the mode, the animation state, the two input
    signals, the timer and the direction of the animation.  With these
    fixed, a method evaluates to a record; the few tests on other data
    (preferences, the pointer position, the observer list) are decided
    before the bodies of the callees are unfolded. *)

Ltac eval_fields :=
  cbv beta iota zeta delta
    [set_browser_view set_pref_service set_state set_animation_state
     set_should_show_ui set_address_bar_focused set_mouse_in_top_edge
     set_auto_hide_timer set_auto_hide_delay set_animation_duration
     set_observers set_animation set_calls
     browser_view_ pref_service_ state_ animation_state_ should_show_ui_
     address_bar_focused_ mouse_in_top_edge_ auto_hide_timer_ auto_hide_delay_
     animation_duration_ top_edge_sensitivity_px_ show_on_address_bar_focus_
     show_on_keyboard_activity_ observers_ animation_ calls_
     showing is_animating Animation_IsShowing IsUIVisible IsEnabled
     State_eqb AnimationState_eqb negb orb andb Bool.eqb].

Ltac eval_methods :=
  cbv beta iota zeta delta
    [handle TriggerAutoHideTimerForTesting OnAutoHideTimer OnWidgetDestroying TimerFired
     AnimationProgressed AnimationEnded
     OnActiveTabChanged OnFullscreenStateChanged OnKeyboardActivity
     OnAddressBarBlurred OnAddressBarFocused OnMouseMoved SetEnabled
     UnpinUI PinUI HideUIImmediately HideUIAfterDelay RevealUI
     OnAnimationCompleted CompleteAnimation
     AnimateHideUI AnimateShowUI CancelAutoHide ScheduleAutoHide
     NotifyMouseHoverChanged NotifyModeToggled NotifyVisibilityChanged
     notify_all AddObserver RemoveObserver SetAnimationDurationForTesting
     SetAutoHideDelayForTesting IsUIVisible IsEnabled call seq skip
     set_browser_view set_pref_service set_state set_animation_state
     set_should_show_ui set_address_bar_focused set_mouse_in_top_edge
     set_auto_hide_timer set_auto_hide_delay set_animation_duration
     set_observers set_animation set_calls
     browser_view_ pref_service_ state_ animation_state_ should_show_ui_
     address_bar_focused_ mouse_in_top_edge_ auto_hide_timer_ auto_hide_delay_
     animation_duration_ top_edge_sensitivity_px_ show_on_address_bar_focus_
     show_on_keyboard_activity_ observers_ animation_ calls_
     showing is_animating Animation_IsShowing Animation_Show Animation_Hide Animation_End
     State_eqb AnimationState_eqb negb orb andb Bool.eqb].

Ltac decide_tests :=
  repeat match goal with
         | |- context [ShouldDisableImmersiveMode ?c] =>
             destruct (ShouldDisableImmersiveMode c) eqn:?
         | |- context [GetBoolean ?p ?k] => destruct (GetBoolean p k) eqn:?
         | |- context [IsMouseInTopEdge ?c ?p] => destruct (IsMouseInTopEdge c p) eqn:?
         | |- context [existsb ?f ?l] => destruct (existsb f l) eqn:?
         | |- context [if ?b then _ else _] => is_var b; destruct b
         end.

Ltac symbolic_run :=
  cbv beta iota delta [handle];
  unfold OnFullscreenStateChanged, TriggerAutoHideTimerForTesting, OnAutoHideTimer,
    TimerFired, AnimationProgressed, AnimationEnded, OnAddressBarFocused,
    OnKeyboardActivity, AddObserver;
  eval_fields; decide_tests;
  unfold SetEnabled, OnMouseMoved;
  eval_fields; decide_tests;
  rewrite ?OnAnimationProgressed_eq;
  eval_methods;
  rewrite ?SetAllUIElementsVisible_eq; eval_fields.

(** Split a controller into its fields and fix the control fields, keeping
    only the combinations that [consistent] allows. *)
Ltac prune I1 I2 I3 I5 I6 I7 I9 I10 I11 :=
  cbn in I1, I2, I3, I5, I6, I7, I9, I10, I11;
  try (specialize (I1 eq_refl)); try (specialize (I2 eq_refl));
  try (specialize (I3 eq_refl)); try (specialize (I5 eq_refl));
  try (specialize (I6 eq_refl)); try (specialize (I7 eq_refl));
  try (specialize (I9 eq_refl)); try (specialize (I10 eq_refl));
  try (specialize (I11 eq_refl));
  try discriminate.

Ltac control_states c H :=
  let I1 := fresh "I1" in let I2 := fresh "I2" in let I3 := fresh "I3" in
  let I4 := fresh "I4" in let I5 := fresh "I5" in let I6 := fresh "I6" in
  let I7 := fresh "I7" in let I8 := fresh "I8" in let I9 := fresh "I9" in
  let I10 := fresh "I10" in let I11 := fresh "I11" in let I12 := fresh "I12" in
  destruct H as [I1 I2 I3 I4 I5 I6 I7 I8 I9 I10 I11 I12];
  destruct c as [bv ps st an ssu abf mte tm dl du se sf sk ob [sh ia] cl];
  cbn in I8, I12; subst ssu;
  destruct st, an, sh, ia, tm; prune I1 I2 I3 I5 I6 I7 I9 I10 I11;
  destruct abf, mte;
  try (cbn in I4; specialize (I4 eq_refl)).

Ltac consistent_fields :=
  split;
  cbv beta iota zeta delta
    [browser_view_ state_ animation_state_ should_show_ui_ mouse_in_top_edge_
     auto_hide_timer_ animation_ observers_ showing is_animating];
  intros;
  solve [ assumption | discriminate | reflexivity | apply views_set_visible
        | apply NoDup_AddObserver; assumption
        | apply List.NoDup_filter; assumption ].

(** ** Every reachable controller is consistent *)

Lemma consistent_initial (browser_view : BrowserView)
    (pref_service : gmap string PrefValue) :
  all_surfaces_visible browser_view = true ->
  consistent (ImmersiveFullscreenController browser_view pref_service).
Proof.
  intros Hv. unfold ImmersiveFullscreenController.
  destruct (InitializeFromPrefs pref_service) as [[[[d u] s] f] k].
  split; cbn; try congruence. constructor.
Qed.

Lemma consistent_handle (e : Event) (c : Controller) :
  consistent c -> consistent (handle e c).
Proof.
  intros H. control_states c H.
  all: destruct e as [[]| | | | | | | | | |[]| | | | | | | | | | |].
  all: symbolic_run.
  all: consistent_fields.
Qed.

Lemma consistent_run (es : list Event) (c : Controller) :
  consistent c -> consistent (run es c).
Proof.
  revert c. induction es as [|e es IH]; intros c H; [exact H|].
  apply IH. apply consistent_handle. exact H.
Qed.

Lemma reachable_consistent (c : Controller) : reachable c -> consistent c.
Proof.
  intros [bv ps es Hv ->]. apply consistent_run, consistent_initial, Hv.
Qed.

Lemma reachable_handle (e : Event) (c : Controller) :
  reachable c -> reachable (handle e c).
Proof.
  intros [bv ps es Hv ->]. apply (reachable_run _ bv ps (es ++ [e]) Hv).
  unfold run. rewrite fold_left_app. reflexivity.
Qed.

(** ** hideImmediately *)

Ltac control_fields c :=
  destruct c as [bv ps st an ssu abf mte tm dl du se sf sk ob [sh ia] cl].








(** The unit test KeepUIVisibleWhileAddressBarFocused expects the call to
    leave the UI visible while the address bar has the focus; the controller
    hides it. *)
Lemma HideUIImmediately_while_focused :
  address_bar_focused_ focused_controller = true /\
  IsUIVisible focused_controller = true /\
  IsUIVisible (HideUIImmediately focused_controller) = false.
Proof. vm_compute. auto. Qed.

(** The page handler's own hideUI, which its timeout runs, does decline while
    the address bar has the focus. *)
Lemma hideUI_while_focused (reason : string) (b : EventHandler.Browser) :
  EventHandler.isAddressBarFocused b = true ->
  EventHandler.hideUI reason b = b.
Proof.
  intros Hf. unfold EventHandler.hideUI. rewrite Hf.
  destruct (negb (EventHandler.isEnabled (EventHandler.handler b))
            || negb (EventHandler.isUIVisible (EventHandler.handler b)));
    reflexivity.
Qed.


(** ** The hover zone *)

Lemma IsMouseInTopEdge_iff (c : Controller) (p : Point) :
  IsMouseInTopEdge c p = true <->
  rx (window_bounds (browser_view_ c)) <= px p < right (window_bounds (browser_view_ c)) /\
  ry (window_bounds (browser_view_ c)) <= py p
    < ry (window_bounds (browser_view_ c)) + top_edge_sensitivity_px_ c.
Proof.
  unfold IsMouseInTopEdge, GetBrowserScreenBounds.
  rewrite !andb_true_iff, !Z.leb_le, !Z.ltb_lt. lia.
Qed.

(** The controller's zone is half-open: inside the window's horizontal
    extent, the row at the sensitivity is outside and the row before it is
    inside. *)
Lemma IsMouseInTopEdge_boundary (c : Controller) (x : Z) :
  let b := window_bounds (browser_view_ c) in
  rx b <= x < right b ->
  IsMouseInTopEdge c {| px := x; py := ry b + top_edge_sensitivity_px_ c |} = false /\
  (0 < top_edge_sensitivity_px_ c ->
   IsMouseInTopEdge c {| px := x; py := ry b + top_edge_sensitivity_px_ c - 1 |} = true).
Proof.
  intros b Hx. split.
  - apply not_true_is_false. rewrite IsMouseInTopEdge_iff. cbn. fold b. lia.
  - intros Hs. apply IsMouseInTopEdge_iff. cbn. fold b. lia.
Qed.

(** The sensitivity of a constructed controller is positive. *)
Lemma top_edge_sensitivity_positive (v : BrowserView) (p : gmap string PrefValue) :
  0 < top_edge_sensitivity_px_ (ImmersiveFullscreenController v p).
Proof.
  unfold ImmersiveFullscreenController, InitializeFromPrefs. cbn.
  destruct (GetInteger p prefs.kTopEdgeSensitivityPx <=? 0) eqn:E; cbn.
  - unfold kDefaultTopEdgeSensitivity. lia.
  - apply Z.leb_gt in E. exact E.
Qed.

(** The unit test MouseAtExactBoundary holds of the controller. *)
Lemma MouseAtExactBoundary :
  IsUIVisible (OnMouseMoved {| px := 600; py := 5 |} enabled_controller) = false /\
  IsUIVisible (OnMouseMoved {| px := 600; py := 4 |}
                 (OnMouseMoved {| px := 600; py := 5 |} enabled_controller)) = true.
Proof. vm_compute. auto. Qed.

(** The handler's zone is closed: it includes the row at the sensitivity. *)
Lemma isMouseInTopEdge_iff (b : EventHandler.Browser) (mouseY : Z) :
  EventHandler.isMouseInTopEdge b mouseY = true <->
  mouseY <= EventHandler.topEdgeSensitivity (EventHandler.handler b).
Proof. unfold EventHandler.isMouseInTopEdge. apply Z.leb_le. Qed.

(** C2. With a sensitivity of 5 the handler classifies a pointer at y = 5 as
    inside the top edge and reveals its UI, while the controller behind the
    bridge, told of the same position, stays hidden. *)
Theorem isMouseInTopEdge_at_sensitivity :
  EventHandler.topEdgeSensitivity (EventHandler.handler hidden_browser) = 5 /\
  EventHandler.isUIVisible (EventHandler.handler hidden_browser) = false /\
  EventHandler.isMouseInTopEdge hidden_browser 5 = true /\
  EventHandler.isUIVisible
    (EventHandler.handler
       (EventHandler.handleMouseMove (mouse_at 600 5) hidden_browser)) = true /\
  option_map IsUIVisible
    (EventHandler.bridge
       (EventHandler.handleMouseMove (mouse_at 600 5) hidden_browser)) = Some false.
Proof. vm_compute. auto 6. Qed.

(** ** Keyboard activity *)

Lemma RevealUI_calls (c : Controller) :
  state_ c <> kDisabled ->
  exists rest, calls_ (RevealUI c) = calls_ c ++ TimerStop :: rest.
Proof.
  intros Hd. control_fields c. cbn in Hd.
  destruct st; try congruence; destruct an, sh; eval_methods;
    rewrite <- ?app_assoc; eauto.
Qed.









(** ** Enabling and disabling *)

(** C4. When the legacy-suppression preference is true and the legacy
    "always show toolbar" preference holds, SetEnabled(true) changes nothing:
    a disabled controller stays Disabled and no observer is told anything. *)
Theorem SetEnabled_refused (c : Controller) :
  GetBoolean (pref_service_ c) prefs.kRespectLegacyFullscreenPref = true ->
  GetBoolean (pref_service_ c) prefs.kShowFullscreenToolbar = true ->
  SetEnabled true c = c /\
  (state_ c = kDisabled -> state_ (SetEnabled true c) = kDisabled) /\
  (forall o, received o (calls_ (SetEnabled true c)) = received o (calls_ c)).
Proof.
  intros Hr Hl.
  assert (Heq : SetEnabled true c = c).
  { unfold SetEnabled, ShouldDisableImmersiveMode. rewrite Hr, Hl.
    destruct (Bool.eqb true (IsEnabled c)); reflexivity. }
  rewrite Heq. auto.
Qed.

Lemma SetEnabled_refused_witness :
  SetEnabled true legacy_controller = legacy_controller /\
  state_ (SetEnabled true legacy_controller) = kDisabled.
Proof.
  destruct (SetEnabled_refused legacy_controller) as (H1 & H2 & _).
  - vm_compute. reflexivity.
  - vm_compute. reflexivity.
  - split; [exact H1 | apply H2; vm_compute; reflexivity].
Defined.

(** ** Call logs *)

Lemma timer_starts_app (a b : list Call) :
  timer_starts (a ++ b) = timer_starts a ++ timer_starts b.
Proof. apply List.filter_app. Qed.

Lemma timer_starts_notify (n : Notification) (l : list ObserverId) :
  timer_starts (map (fun o => Notify o n) l) = [].
Proof. induction l as [|o l IH]; [reflexivity | exact IH]. Qed.

Lemma timer_starts_views (visible : bool) (v : BrowserView) :
  timer_starts (views_calls visible v) = [].
Proof. destruct v as [[] [] [] ? ? ?]; reflexivity. Qed.

Lemma received_app (o : ObserverId) (a b : list Call) :
  received o (a ++ b) = received o a ++ received o b.
Proof. apply flat_map_app. Qed.

Lemma received_views (o : ObserverId) (visible : bool) (v : BrowserView) :
  received o (views_calls visible v) = [].
Proof. destruct v as [[] [] [] ? ? ?]; reflexivity. Qed.

Lemma received_cons_notify (o a : ObserverId) (n : Notification) (rest : list Call) :
  received o (Notify a n :: rest)
  = (if Nat.eqb o a then [n] else []) ++ received o rest.
Proof. reflexivity. Qed.

Lemma received_notify_other (o : ObserverId) (n : Notification) (l : list ObserverId) :
  ~ In o l -> received o (map (fun o' => Notify o' n) l) = [].
Proof.
  induction l as [|a l IH]; intros Hn; [reflexivity|].
  rewrite map_cons, received_cons_notify.
  destruct (Nat.eqb_spec o a) as [->|Hne].
  - exfalso. apply Hn. left. reflexivity.
  - apply IH. intros Hi. apply Hn. right. exact Hi.
Qed.

(** An observer that is registered once receives a notification once. *)
Lemma received_notify (o : ObserverId) (n : Notification) (l : list ObserverId) :
  List.NoDup l -> In o l -> received o (map (fun o' => Notify o' n) l) = [n].
Proof.
  induction 1 as [|a l Ha Hl IH]; intros Hi; [destruct Hi|].
  rewrite map_cons, received_cons_notify.
  destruct (Nat.eqb_spec o a) as [->|Hne].
  - rewrite received_notify_other; [reflexivity | exact Ha].
  - apply IH. destruct Hi as [->|Hi]; [congruence | exact Hi].
Qed.

Ltac timer_log :=
  rewrite ?timer_starts_app, ?timer_starts_notify, ?timer_starts_views;
  cbn [timer_starts List.filter]; rewrite ?app_nil_r; try reflexivity.

(** ** Pinned *)

Lemma PinUI_pins (c : Controller) :
  state_ c <> kDisabled ->
  state_ (PinUI c) = kPinned /\ auto_hide_timer_ (PinUI c) = None.
Proof.
  intros Hd. control_fields c. cbn in Hd.
  destruct st; try congruence; destruct an, sh; eval_methods; auto.
Qed.

(** While pinned, nothing but UnpinUI starts the timer. *)
Lemma pinned_step (e : Event) (c : Controller) :
  consistent c -> state_ c = kPinned -> e <> EvUnpinUI ->
  auto_hide_timer_ (handle e c) = None /\
  timer_starts (calls_ (handle e c)) = timer_starts (calls_ c).
Proof.
  intros H Hp He. control_states c H; cbn in Hp; try discriminate.
  all: destruct e as [[]| | | | | | | | | |[]| | | | | | | | | | |]; try congruence.
  all: symbolic_run.
  all: split; [reflexivity | timer_log].
Qed.

(** C5. In every reachable state a Pinned controller has no auto-hide timer
    pending; PinUI stops the timer; and while the controller is Pinned no
    event other than UnpinUI starts the timer or leaves it running. *)
Theorem pinned_no_timer :
  (forall c, reachable c -> state_ c = kPinned -> auto_hide_timer_ c = None) /\
  (forall c, state_ c <> kDisabled ->
     state_ (PinUI c) = kPinned /\ auto_hide_timer_ (PinUI c) = None) /\
  (forall c e, reachable c -> state_ c = kPinned -> e <> EvUnpinUI ->
     auto_hide_timer_ (handle e c) = None /\
     timer_starts (calls_ (handle e c)) = timer_starts (calls_ c)).
Proof.
  split; [|split].
  - intros c Hr. apply pinned_timer, reachable_consistent, Hr.
  - apply PinUI_pins.
  - intros c e Hr. apply pinned_step, reachable_consistent, Hr.
Qed.

Lemma pinned_controller_reachable : reachable pinned_controller.
Proof.
  apply (reachable_run _ test_browser_view test_prefs pinned_events); reflexivity.
Qed.

Lemma pinned_no_timer_witness :
  auto_hide_timer_ pinned_controller = None /\
  state_ (PinUI enabled_controller) = kPinned /\
  auto_hide_timer_ (handle EvOnActiveTabChanged pinned_controller) = None.
Proof.
  destruct pinned_no_timer as (H1 & H2 & H3). split; [|split].
  - apply H1; [exact pinned_controller_reachable | vm_compute; reflexivity].
  - apply H2. vm_compute. discriminate.
  - apply (H3 pinned_controller EvOnActiveTabChanged).
    + exact pinned_controller_reachable.
    + vm_compute. reflexivity.
    + discriminate.
Defined.

(** ** Disabled *)

Lemma last_command_from_app (element : UIElement) (last : option bool)
    (a b : list Call) :
  last_command_from element last (a ++ b)
  = last_command_from element (last_command_from element last a) b.
Proof. apply fold_left_app. Qed.

Lemma last_command_from_notify (element : UIElement) (last : option bool)
    (n : Notification) (l : list ObserverId) :
  last_command_from element last (map (fun o => Notify o n) l) = last.
Proof. revert last. induction l as [|o l IH]; intros last; [reflexivity|]. apply IH. Qed.

Lemma last_command_from_views (element : UIElement) (last : option bool)
    (visible : bool) (v : BrowserView) :
  In element managed ->
  last_command_from element last (views_calls visible v)
  = match GetUIElementView element v with
    | Some _ => Some visible
    | None => last
    end.
Proof.
  intros [<-|[<-|[<-|[]]]]; destruct v as [[] [] [] ? ? ?]; reflexivity.
Qed.

Lemma GetUIElementView_views_set (element : UIElement) (visible : bool)
    (v : BrowserView) :
  In element managed ->
  GetUIElementView element (views_set visible v)
  = (fun _ => visible) <$> GetUIElementView element v.
Proof. intros [<-|[<-|[<-|[]]]]; reflexivity. Qed.

(** After a command to all managed views, followed by calls that are not
    visibility commands, the last command for each existing one is that
    command. *)
Lemma released_views (v : BrowserView) (pre : list Call) :
  released (views_set true v) (pre ++ views_calls true v) = true.
Proof.
  unfold released, element_released, last_command. apply forallb_forall.
  intros element Hin. rewrite last_command_from_app, last_command_from_views by exact Hin.
  rewrite GetUIElementView_views_set by exact Hin.
  destruct (GetUIElementView element v); reflexivity.
Qed.

Lemma element_released_notify (element : UIElement) (v : BrowserView)
    (calls : list Call) (n : Notification) (l : list ObserverId) :
  element_released element v (calls ++ map (fun o => Notify o n) l)
  = element_released element v calls.
Proof.
  unfold element_released, last_command.
  rewrite last_command_from_app, last_command_from_notify. reflexivity.
Qed.

Lemma released_notify (v : BrowserView) (calls : list Call) (n : Notification)
    (l : list ObserverId) :
  released v (calls ++ map (fun o => Notify o n) l) = released v calls.
Proof.
  unfold released, managed. cbn [forallb]. rewrite !element_released_notify. reflexivity.
Qed.

Lemma released_uma (v : BrowserView) (calls : list Call) (name : string) (b : bool) :
  released v (calls ++ [UmaHistogramBoolean name b]) = released v calls.
Proof.
  unfold released, managed, element_released, last_command. cbn [forallb].
  rewrite !last_command_from_app. reflexivity.
Qed.

Ltac log_fields :=
  split;
  cbv beta iota zeta delta
    [browser_view_ state_ animation_state_ should_show_ui_ mouse_in_top_edge_
     auto_hide_timer_ animation_ observers_ calls_ showing is_animating];
  intros;
  solve [ assumption | discriminate | reflexivity
        | rewrite ?released_uma, ?released_notify; apply released_views
        | apply NoDup_AddObserver; assumption
        | apply List.NoDup_filter; assumption ].

Lemma log_consistent_initial (browser_view : BrowserView)
    (pref_service : gmap string PrefValue) :
  log_consistent (ImmersiveFullscreenController browser_view pref_service).
Proof.
  unfold ImmersiveFullscreenController.
  destruct (InitializeFromPrefs pref_service) as [[[[d u] s] f] k].
  split; cbn; try congruence; try constructor.
  intros _. destruct browser_view as [[] [] [] ? ? ?]; reflexivity.
Qed.

Lemma log_consistent_handle (e : Event) (c : Controller) :
  log_consistent c -> log_consistent (handle e c).
Proof.
  intros H. control_states c H.
  all: destruct e as [[]| | | | | | | | | |[]| | | | | | | | | | |].
  all: symbolic_run.
  all: log_fields.
Qed.

Lemma log_consistent_run (es : list Event) (c : Controller) :
  log_consistent c -> log_consistent (run es c).
Proof.
  revert c. induction es as [|e es IH]; intros c H; [exact H|].
  apply IH. apply log_consistent_handle. exact H.
Qed.

(** What SetEnabled(false) does to an enabled controller, call by call. *)
Lemma SetEnabled_false_commands (c : Controller) :
  state_ c <> kDisabled ->
  state_ (SetEnabled false c) = kDisabled /\
  auto_hide_timer_ (SetEnabled false c) = None /\
  animation_state_ (SetEnabled false c) = kNone /\
  animation_ (SetEnabled false c)
  = (if AnimationState_eqb (animation_state_ c) kNone then animation_ c
     else Animation_End (animation_ c)) /\
  browser_view_ (SetEnabled false c) = views_set true (browser_view_ c) /\
  calls_ (SetEnabled false c)
  = calls_ c ++ [TimerStop]
    ++ (if AnimationState_eqb (animation_state_ c) kNone then []
        else [AnimationEnd])
    ++ views_calls true (browser_view_ c)
    ++ map (fun o => Notify o (OnImmersiveModeToggled false)) (observers_ c)
    ++ [UmaHistogramBoolean "Brave.ImmersiveFullscreen.Enabled" false].
Proof.
  intros Hd. control_fields c. cbn in Hd.
  destruct st; try congruence; destruct an.
  all: unfold SetEnabled; eval_methods; rewrite SetAllUIElementsVisible_eq; eval_fields.
  all: rewrite <- ?app_assoc; repeat split.
Qed.

Lemma SetEnabled_false_commanded (c : Controller) (element : UIElement) :
  state_ c <> kDisabled -> In element managed ->
  GetUIElementView element (browser_view_ c) <> None ->
  last_command element (calls_ (SetEnabled false c)) = Some true /\
  GetUIElementView element (browser_view_ (SetEnabled false c)) = Some true.
Proof.
  intros Hd Hin Hv.
  destruct (SetEnabled_false_commands c Hd) as (_ & _ & _ & _ & -> & ->).
  unfold last_command. rewrite !last_command_from_app.
  rewrite last_command_from_views by exact Hin.
  rewrite GetUIElementView_views_set by exact Hin.
  destruct (GetUIElementView element (browser_view_ c)); [|contradiction].
  rewrite last_command_from_notify. split; reflexivity.
Qed.

Lemma released_sound (v : BrowserView) (calls : list Call) (element : UIElement)
    (visible command : bool) :
  released v calls = true -> In element managed ->
  GetUIElementView element v = Some visible ->
  last_command element calls = Some command ->
  command = true /\ visible = true.
Proof.
  intros Hr Hin Hv Hl. unfold released in Hr.
  rewrite forallb_forall in Hr. specialize (Hr element Hin).
  unfold element_released in Hr. rewrite Hv, Hl in Hr.
  apply andb_true_iff in Hr. exact Hr.
Qed.

(** C6, as stated, fails in both directions.  From right to left: a pinned
    controller whose show animation has ended has no timer pending, an idle
    animation and every managed surface commanded visible, and is not
    Disabled.  From left to right: a new controller is Disabled and has
    commanded nothing; a bookmarks bar that was hidden when it was
    constructed stays hidden. *)
Lemma pinned_idle_visible :
  (reachable pinned_controller /\
   auto_hide_timer_ pinned_controller = None /\
   animation_state_ pinned_controller = kNone /\
   is_animating (animation_ pinned_controller) = false /\
   last_command kToolbar (calls_ pinned_controller) = Some true /\
   last_command kTabStrip (calls_ pinned_controller) = Some true /\
   last_command kBookmarksBar (calls_ pinned_controller) = Some true /\
   state_ pinned_controller <> kDisabled) /\
  (state_ (ImmersiveFullscreenController hidden_bar_view test_prefs) = kDisabled /\
   calls_ (ImmersiveFullscreenController hidden_bar_view test_prefs) = [] /\
   bookmark_bar
     (browser_view_ (ImmersiveFullscreenController hidden_bar_view test_prefs))
   = Some false).
Proof.
  split.
  - split; [exact pinned_controller_reachable|].
    vm_compute. repeat split. discriminate.
  - vm_compute. repeat split.
Qed.

(** C6, amended.  In every state reached from the construction over any
    browser view, a Disabled controller has no timer pending, an idle
    animation, and holds no managed surface hidden: for each managed view
    that exists and has been given a visibility command, the last command
    was "visible" and the view is visible (a controller that has never been
    enabled has given none).  And SetEnabled(false) on an enabled controller
    stops the timer, ends the animation if one is in its phase, commands
    every managed view that exists visible, then tells the observers, in
    this order, before it returns. *)
Theorem disabled_invariant :
  (forall (browser_view : BrowserView) (pref_service : gmap string PrefValue)
          (es : list Event),
     let c := run es (ImmersiveFullscreenController browser_view pref_service) in
     state_ c = kDisabled ->
     auto_hide_timer_ c = None /\
     animation_state_ c = kNone /\
     is_animating (animation_ c) = false /\
     forall element visible command, In element managed ->
       GetUIElementView element (browser_view_ c) = Some visible ->
       last_command element (calls_ c) = Some command ->
       command = true /\ visible = true) /\
  (forall c, state_ c <> kDisabled ->
     state_ (SetEnabled false c) = kDisabled /\
     auto_hide_timer_ (SetEnabled false c) = None /\
     animation_state_ (SetEnabled false c) = kNone /\
     animation_ (SetEnabled false c)
     = (if AnimationState_eqb (animation_state_ c) kNone then animation_ c
        else Animation_End (animation_ c)) /\
     calls_ (SetEnabled false c)
     = calls_ c ++ [TimerStop]
       ++ (if AnimationState_eqb (animation_state_ c) kNone then []
           else [AnimationEnd])
       ++ views_calls true (browser_view_ c)
       ++ map (fun o => Notify o (OnImmersiveModeToggled false)) (observers_ c)
       ++ [UmaHistogramBoolean "Brave.ImmersiveFullscreen.Enabled" false] /\
     (forall element, In element managed ->
        GetUIElementView element (browser_view_ c) <> None ->
        last_command element (calls_ (SetEnabled false c)) = Some true /\
        GetUIElementView element (browser_view_ (SetEnabled false c)) = Some true) /\
     (consistent c -> is_animating (animation_ (SetEnabled false c)) = false)).
Proof.
  split.
  - intros bv ps es c Hd.
    assert (H : log_consistent c)
      by apply log_consistent_run, log_consistent_initial.
    clearbody c. split; [|split; [|split]].
    + apply (log_disabled_timer c H Hd).
    + apply (log_disabled_animation c H Hd).
    + apply (log_idle_animation c H), (log_disabled_animation c H Hd).
    + intros element visible command Hin Hv Hl.
      apply (released_sound (browser_view_ c) (calls_ c) element); try assumption.
      apply (log_disabled_released c H Hd).
  - intros c Hd.
    destruct (SetEnabled_false_commands c Hd) as (H1 & H2 & H3 & H4 & H5 & H6).
    do 5 (split; [assumption|]). split.
    + intros element Hin Hv. apply SetEnabled_false_commanded; assumption.
    + intros Hc. rewrite H4.
      destruct (animation_state_ c) eqn:Ha; cbn; try reflexivity.
      apply (idle_animation c Hc Ha).
Qed.

Lemma disabled_invariant_witness :
  bookmark_bar
    (browser_view_ (run [EvSetEnabled true; EvSetEnabled false]
                      (ImmersiveFullscreenController hidden_bar_view test_prefs)))
  = Some true /\
  state_ (SetEnabled false pinned_controller) = kDisabled.
Proof.
  destruct disabled_invariant as [H1 H2]. split.
  - destruct (H1 hidden_bar_view test_prefs [EvSetEnabled true; EvSetEnabled false])
      as (_ & _ & _ & H); [vm_compute; reflexivity|].
    assert (Hv : exists visible,
               GetUIElementView kBookmarksBar
                 (browser_view_
                    (run [EvSetEnabled true; EvSetEnabled false]
                       (ImmersiveFullscreenController hidden_bar_view test_prefs)))
               = Some visible) by (vm_compute; eauto).
    destruct Hv as [visible Hv].
    destruct (H kBookmarksBar visible true) as [_ ->]; try assumption.
    + right; right; left; reflexivity.
    + vm_compute. reflexivity.
  - apply H2. vm_compute. discriminate.
Defined.

(** ** Notifications *)

Ltac observer_log Hnd Hin :=
  rewrite ?received_app, ?received_views, ?(received_notify _ _ _ Hnd Hin);
  cbn [received flat_map app]; rewrite <- ?app_assoc, ?app_nil_r;
  cbn [app]; try reflexivity.

(** C7, as stated, fails in an Enabled state whose hover signal is stale.
    The signal survives a disable, during which pointer moves are dropped,
    and HideUIImmediately: the pointer is then known to be inside the zone,
    and a move into the zone tells the observer nothing and leaves the UI
    hidden. *)
Lemma OnMouseMoved_stale_hover :
  reachable stale_hover_controller /\
  state_ stale_hover_controller = kEnabled /\
  mouse_in_top_edge_ stale_hover_controller = true /\
  In 1%nat (observers_ stale_hover_controller) /\
  IsMouseInTopEdge stale_hover_controller {| px := 600; py := 2 |} = true /\
  received 1%nat
    (calls_ (OnMouseMoved {| px := 600; py := 2 |} stale_hover_controller))
  = received 1%nat (calls_ stale_hover_controller) /\
  IsUIVisible (OnMouseMoved {| px := 600; py := 2 |} stale_hover_controller) = false.
Proof.
  split.
  - apply (reachable_run _ test_browser_view test_prefs stale_hover_events);
      reflexivity.
  - vm_compute. repeat split. left. reflexivity.
Qed.

(** C7, amended.  When the controller is Enabled and its hover signal is
    false (the pointer was last seen outside the hover zone), a move into
    the zone gives each registered observer exactly
    OnMouseHoverStateChanged(true) followed by
    OnImmersiveUIVisibilityChanged(true), once each and in that order; an
    observer that is not registered receives nothing. *)
Theorem OnMouseMoved_into_top_edge (c : Controller) (p : Point) (o : ObserverId) :
  reachable c ->
  state_ c = kEnabled ->
  mouse_in_top_edge_ c = false ->
  IsMouseInTopEdge c p = true ->
  (In o (observers_ c) ->
   received o (calls_ (OnMouseMoved p c))
   = received o (calls_ c)
     ++ [OnMouseHoverStateChanged true; OnImmersiveUIVisibilityChanged true]) /\
  (~ In o (observers_ c) ->
   received o (calls_ (OnMouseMoved p c)) = received o (calls_ c)) /\
  state_ (OnMouseMoved p c) = kRevealed.
Proof.
  intros Hr Hs Hm Hp. apply reachable_consistent in Hr.
  assert (Hnd : List.NoDup (observers_ c)) by apply (observers_once c Hr).
  control_states c Hr; cbn in Hs, Hm, Hnd; try discriminate.
  all: unfold OnMouseMoved; eval_fields; rewrite Hp; eval_methods.
  all: split; [intros Hin; observer_log Hnd Hin|].
  all: split; [|reflexivity].
  all: intros Hout; rewrite ?received_app, ?(received_notify_other _ _ _ Hout);
    cbn [received flat_map app]; rewrite ?app_nil_r; reflexivity.
Qed.

(** The two notifications belong to the edge: a position inside the zone
    while the pointer is already known to be inside changes nothing. *)
Lemma OnMouseMoved_within_top_edge (c : Controller) (p : Point) :
  should_show_ui_ c = mouse_in_top_edge_ c ->
  mouse_in_top_edge_ c = true ->
  IsMouseInTopEdge c p = true ->
  OnMouseMoved p c = c.
Proof.
  intros Hh Hm Hp. control_fields c. cbn in Hh, Hm. subst ssu mte.
  unfold OnMouseMoved; eval_fields; rewrite Hp.
  destruct st; reflexivity.
Qed.

Lemma observed_controller_reachable : reachable observed_controller.
Proof.
  apply (reachable_run _ test_browser_view test_prefs
           [EvSetAnimationDurationForTesting 1; EvSetAutoHideDelayForTesting 10;
            EvSetEnabled true; EvAddObserver 1%nat]); reflexivity.
Qed.

Lemma OnMouseMoved_into_top_edge_witness :
  received 1%nat (calls_ (OnMouseMoved {| px := 600; py := 2 |} observed_controller))
  = [OnMouseHoverStateChanged true; OnImmersiveUIVisibilityChanged true].
Proof.
  apply (OnMouseMoved_into_top_edge observed_controller {| px := 600; py := 2 |} 1%nat).
  - exact observed_controller_reachable.
  - vm_compute. reflexivity.
  - vm_compute. reflexivity.
  - vm_compute. reflexivity.
  - vm_compute. auto.
Defined.

(** ** Enabling twice *)

Lemma SetEnabled_same (enabled : bool) (c : Controller) :
  IsEnabled c = enabled -> SetEnabled enabled c = c.
Proof.
  intros <-. unfold SetEnabled. rewrite Bool.eqb_reflx. reflexivity.
Qed.

Lemma GetBoolean_SetBoolean (k : string) (v : bool) (p : gmap string PrefValue) :
  GetBoolean (SetBoolean k v p) k = v.
Proof. unfold GetBoolean, SetBoolean. rewrite lookup_insert_eq. reflexivity. Qed.

(** What a successful SetEnabled(true) does. *)
Lemma SetEnabled_true_succeeds (c : Controller) (o : ObserverId) :
  state_ c = kDisabled ->
  ShouldDisableImmersiveMode c = false ->
  IsEnabled (SetEnabled true c) = true /\
  GetBoolean (pref_service_ (SetEnabled true c)) prefs.kHasSeenIntroduction = true /\
  (List.NoDup (observers_ c) -> In o (observers_ c) ->
   mode_toggled_on (received o (calls_ (SetEnabled true c)))
   = mode_toggled_on (received o (calls_ c)) ++ [OnImmersiveModeToggled true]).
Proof.
  intros Hd Hs. control_fields c. cbn in Hd. subst st.
  destruct an, sh, ssu, abf.
  all: unfold SetEnabled; eval_fields; rewrite Hs; eval_fields.
  all: destruct (GetBoolean ps prefs.kHasSeenIntroduction) eqn:Hseen.
  all: eval_methods.
  all: split; [reflexivity|].
  all: split; [solve [exact Hseen | apply GetBoolean_SetBoolean]|].
  all: intros Hnd Hin; observer_log Hnd Hin.
  all: unfold mode_toggled_on; rewrite List.filter_app; reflexivity.
Qed.

(** C8, as stated, fails: from a state that is already enabled, two calls of
    SetEnabled(true) tell a registered observer nothing. *)
Lemma SetEnabled_twice_when_enabled :
  In 1%nat (observers_ observed_controller) /\
  mode_toggled_on
    (received 1%nat (calls_ (SetEnabled true (SetEnabled true observed_controller))))
  = [].
Proof. vm_compute. auto. Qed.

(** C8, amended.  From any state the second of two SetEnabled(true) calls
    does nothing: the state after both is the state after the first.  From a
    Disabled state in which enabling is not refused, the two calls together
    send each registered observer exactly one OnImmersiveModeToggled(true);
    from a state that is already enabled, or when enabling is refused, they
    send nothing. *)
Theorem SetEnabled_twice :
  (forall c, SetEnabled true (SetEnabled true c) = SetEnabled true c) /\
  (forall c o,
     state_ c = kDisabled -> ShouldDisableImmersiveMode c = false ->
     List.NoDup (observers_ c) -> In o (observers_ c) ->
     mode_toggled_on (received o (calls_ (SetEnabled true (SetEnabled true c))))
     = mode_toggled_on (received o (calls_ c)) ++ [OnImmersiveModeToggled true]) /\
  (forall c o,
     state_ c <> kDisabled \/ ShouldDisableImmersiveMode c = true ->
     received o (calls_ (SetEnabled true (SetEnabled true c))) = received o (calls_ c)).
Proof.
  assert (Hidle : forall c,
             state_ c <> kDisabled \/ ShouldDisableImmersiveMode c = true ->
             SetEnabled true c = c).
  { intros c [Hd | Hs].
    - apply SetEnabled_same. unfold IsEnabled.
      destruct (state_ c); [congruence | reflexivity ..].
    - unfold SetEnabled. rewrite Hs.
      destruct (Bool.eqb true (IsEnabled c)); reflexivity. }
  assert (Hidem : forall c, SetEnabled true (SetEnabled true c) = SetEnabled true c).
  { intros c. destruct (state_ c) eqn:Hd.
    - destruct (ShouldDisableImmersiveMode c) eqn:Hs.
      + rewrite !(Hidle c) by auto. reflexivity.
      + apply SetEnabled_same.
        apply (SetEnabled_true_succeeds c 0%nat Hd Hs).
    - rewrite !(Hidle c) by (left; congruence). reflexivity.
    - rewrite !(Hidle c) by (left; congruence). reflexivity.
    - rewrite !(Hidle c) by (left; congruence). reflexivity. }
  split; [exact Hidem|]. split.
  - intros c o Hd Hs Hnd Hin. rewrite Hidem.
    apply (SetEnabled_true_succeeds c o Hd Hs); assumption.
  - intros c o H. rewrite !(Hidle c) by exact H. reflexivity.
Qed.

Lemma SetEnabled_twice_witness :
  mode_toggled_on
    (received 1%nat
       (calls_ (SetEnabled true (SetEnabled true (AddObserver 1%nat test_controller)))))
  = [OnImmersiveModeToggled true] /\
  received 1%nat (calls_ (SetEnabled true (SetEnabled true observed_controller)))
  = received 1%nat (calls_ observed_controller).
Proof.
  destruct SetEnabled_twice as (_ & H2 & H3). split.
  - apply (H2 (AddObserver 1%nat test_controller) 1%nat).
    + vm_compute. reflexivity.
    + vm_compute. reflexivity.
    + vm_compute. repeat constructor. intros [].
    + vm_compute. auto.
  - apply H3. left. vm_compute. discriminate.
Defined.

(** ** The introduction preference *)

(** C9. Every SetEnabled(true) that takes effect (the controller was Disabled
    and enabling is not refused) leaves the preference
    brave.immersive_fullscreen.has_seen_introduction true in the preference
    store, writing it when it was not. *)
Theorem SetEnabled_records_introduction (c : Controller) :
  state_ c = kDisabled ->
  ShouldDisableImmersiveMode c = false ->
  IsEnabled (SetEnabled true c) = true /\
  GetBoolean (pref_service_ (SetEnabled true c)) prefs.kHasSeenIntroduction = true /\
  (GetBoolean (pref_service_ c) prefs.kHasSeenIntroduction = false ->
   In (PrefSetBoolean prefs.kHasSeenIntroduction true) (calls_ (SetEnabled true c))).
Proof.
  intros Hd Hs. split; [|split].
  - apply (SetEnabled_true_succeeds c 0%nat Hd Hs).
  - apply (SetEnabled_true_succeeds c 0%nat Hd Hs).
  - intros Hseen. control_fields c. cbn in Hd, Hseen. subst st.
    destruct an, sh, ssu, abf.
    all: unfold SetEnabled; eval_fields; rewrite Hs, Hseen; eval_methods.
    all: rewrite !in_app_iff; cbn; tauto.
Qed.

Lemma SetEnabled_records_introduction_witness :
  GetBoolean (pref_service_ test_controller) prefs.kHasSeenIntroduction = false /\
  GetBoolean (pref_service_ (SetEnabled true test_controller))
    prefs.kHasSeenIntroduction = true.
Proof.
  split; [vm_compute; reflexivity|].
  destruct (SetEnabled_records_introduction test_controller) as (_ & H & _).
  - vm_compute. reflexivity.
  - vm_compute. reflexivity.
  - exact H.
Defined.

(** ** Window resize *)

Lemma In_classList_add (x name : string) (l : list string) :
  In x (EventHandler.classList_add name l) <-> x = name \/ In x l.
Proof.
  unfold EventHandler.classList_add. destruct (existsb (String.eqb name) l) eqn:E.
  - split; [auto|]. intros [->|H]; [|exact H].
    apply existsb_exists in E. destruct E as (y & Hy & He).
    apply String.eqb_eq in He. subst y. exact Hy.
  - rewrite in_app_iff. cbn. intuition congruence.
Qed.

Lemma In_classList_remove (x name : string) (l : list string) :
  In x (EventHandler.classList_remove name l) <-> x <> name /\ In x l.
Proof.
  unfold EventHandler.classList_remove. rewrite filter_In.
  destruct (String.eqb_spec name x) as [->|Hne]; cbn; intuition congruence.
Qed.

Lemma In_remove_reveal_classes (x : string) (fuel i : nat) (l : list string) :
  String.prefix "immersive-reveal-" x = false ->
  In x (EventHandler.remove_reveal_classes fuel i l) <-> In x l.
Proof.
  intros Hx. revert i l. induction fuel as [|fuel IH]; intros i l; [reflexivity|].
  cbn [EventHandler.remove_reveal_classes].
  destruct (nth_error l i) as [cn|]; [|reflexivity].
  rewrite IH. destruct (String.prefix "immersive-reveal-" cn) eqn:Hp; [|reflexivity].
  rewrite In_classList_remove. split; [tauto|]. intros H. split; [|exact H].
  intros ->. congruence.
Qed.

Arguments EventHandler.classList_add : simpl never.
Arguments EventHandler.classList_remove : simpl never.
Arguments EventHandler.remove_reveal_classes : simpl never.
Arguments String.append : simpl never.

(** C10. While the handler is enabled, a window resize reveals the UI: a
    hidden UI becomes visible, the body gets the "revealed" class and the
    class of the reason and loses the "hidden" class, and one visibility
    event with the reason window_resize is dispatched; a UI that is visible
    stays as it is.  Then the auto-hide timeout is scheduled, replacing the
    pending one; when it expires the UI is hidden again (flag, classes and
    event), unless the address bar has the focus.  A handler that is not
    enabled ignores the resize. *)
Theorem handleWindowResize_spec (b : EventHandler.Browser) :
  let b' := EventHandler.handleWindowResize b in
  let id := EventHandler.nextTimeoutId (EventHandler.page b) in
  (EventHandler.isEnabled (EventHandler.handler b) = true ->
   (* the UI is revealed *)
   EventHandler.isUIVisible (EventHandler.handler b') = true /\
   (EventHandler.isUIVisible (EventHandler.handler b) = false ->
    EventHandler.classList (EventHandler.page b')
    = EventHandler.classList_add "immersive-reveal-window_resize"
        (EventHandler.classList_remove "immersive-ui-hidden"
           (EventHandler.classList_add "immersive-ui-revealed"
              (EventHandler.classList (EventHandler.page b)))) /\
    In "immersive-ui-revealed" (EventHandler.classList (EventHandler.page b')) /\
    ~ In "immersive-ui-hidden" (EventHandler.classList (EventHandler.page b')) /\
    EventHandler.dispatched (EventHandler.page b')
    = EventHandler.dispatched (EventHandler.page b)
      ++ [EventHandler.immersive_ui_visibility_changed true "window_resize"]) /\
   (EventHandler.isUIVisible (EventHandler.handler b) = true ->
    EventHandler.classList (EventHandler.page b')
    = EventHandler.classList (EventHandler.page b) /\
    EventHandler.dispatched (EventHandler.page b')
    = EventHandler.dispatched (EventHandler.page b)) /\
   (* then the auto-hide timer is scheduled *)
   EventHandler.autoHideTimer (EventHandler.handler b') = Some id /\
   EventHandler.timeouts (EventHandler.page b')
   = match EventHandler.autoHideTimer (EventHandler.handler b) with
     | Some old =>
         List.filter (fun t => negb (Pos.eqb (fst t) old))
           (EventHandler.timeouts (EventHandler.page b))
     | None => EventHandler.timeouts (EventHandler.page b)
     end
     ++ [(id, EventHandler.autoHideDelay (EventHandler.handler b))] /\
   EventHandler.autoHidePending b' = true /\
   (* and its expiry hides the UI again *)
   (EventHandler.isAddressBarFocused b = false ->
    let b'' := EventHandler.timeoutFired id b' in
    EventHandler.isUIVisible (EventHandler.handler b'') = false /\
    In "immersive-ui-hidden" (EventHandler.classList (EventHandler.page b'')) /\
    ~ In "immersive-ui-revealed" (EventHandler.classList (EventHandler.page b'')) /\
    EventHandler.dispatched (EventHandler.page b'')
    = EventHandler.dispatched (EventHandler.page b')
      ++ [EventHandler.immersive_ui_visibility_changed false "auto_hide_timer"])) /\
  (EventHandler.isEnabled (EventHandler.handler b) = false ->
   EventHandler.handleWindowResize b = b).
Proof.
  destruct b as [[en vis mt lp tes aht ahd] [cls hab aba tmo nid dsp con] br].
  cbn [EventHandler.isEnabled EventHandler.isUIVisible EventHandler.handler
       EventHandler.page EventHandler.nextTimeoutId EventHandler.classList
       EventHandler.dispatched EventHandler.autoHideTimer EventHandler.timeouts
       EventHandler.autoHideDelay].
  split; intros He; subst en; [|reflexivity].
  unfold EventHandler.isAddressBarFocused, EventHandler.handleWindowResize,
    EventHandler.updateTopEdgeBounds, EventHandler.autoHidePending,
    EventHandler.scheduleAutoHide, EventHandler.revealUI,
    EventHandler.cancelAutoHide.
  destruct vis, aht as [old|]; cbn.
  all: rewrite ?existsb_app; cbn; rewrite ?Pos.eqb_refl, ?orb_true_r.
  all: split; [reflexivity|].
  all: split;
    [intros Hv;
     first [ discriminate Hv
           | split; [reflexivity|];
             split; [rewrite In_classList_add, In_classList_remove,
                       In_classList_add; right; split;
                       [discriminate | left; reflexivity]|];
             split; [rewrite In_classList_add, In_classList_remove;
                     intros [H|[H _]]; [discriminate H | apply H; reflexivity]
                    | reflexivity] ]|].
  all: split; [intros Hv; first [discriminate Hv | split; reflexivity]|].
  all: do 3 (split; [reflexivity|]).
  all: intros Hf.
  all: unfold EventHandler.timeoutFired; cbn.
  all: rewrite ?existsb_app; cbn; rewrite ?Pos.eqb_refl, ?orb_true_r.
  all: unfold EventHandler.hideUI, EventHandler.isAddressBarFocused; cbn.
  all: rewrite Hf; cbn.
  all: split; [reflexivity|].
  all: split; [apply In_remove_reveal_classes; [reflexivity|];
               rewrite In_classList_remove, In_classList_add;
               split; [discriminate | left; reflexivity]|].
  all: split; [rewrite In_remove_reveal_classes by reflexivity;
               rewrite In_classList_remove; intros [H _]; apply H; reflexivity
              | reflexivity].
Qed.

Lemma handleWindowResize_spec_witness :
  EventHandler.isUIVisible (EventHandler.handler hidden_browser) = false /\
  EventHandler.isUIVisible
    (EventHandler.handler (EventHandler.handleWindowResize hidden_browser)) = true /\
  In "immersive-ui-revealed"
    (EventHandler.classList
       (EventHandler.page (EventHandler.handleWindowResize hidden_browser))) /\
  EventHandler.autoHidePending (EventHandler.handleWindowResize hidden_browser) = true.
Proof.
  assert (Hv : EventHandler.isUIVisible (EventHandler.handler hidden_browser) = false)
    by (vm_compute; reflexivity).
  split; [exact Hv|].
  destruct (handleWindowResize_spec hidden_browser) as [H _].
  destruct H as (H1 & H2 & _ & _ & _ & H6 & _); [vm_compute; reflexivity|].
  destruct (H2 Hv) as (_ & H3 & _).
  repeat split; assumption.
Defined.

(** * Further properties of the controller *)

(** ** reveal *)

(** X1. RevealUI does nothing, and calls no collaborator, exactly when the
    controller is disabled; otherwise it leaves the UI visible, the timer
    stopped and the phase Showing.  On an Enabled controller (in a
    consistent state) it stops the timer, starts the show animation (the
    driver's Show is called and the driver animates towards shown), sets
    the mode to Revealed and tells each observer once that the UI is
    visible.  On a controller whose UI is visible already it only stops the
    timer and marks the phase Showing: the mode is kept, nobody is told, and
    the driver is not called, so that an animation that has ended is not
    started again. *)
Theorem RevealUI_spec (c : Controller) :
  (state_ c = kDisabled -> RevealUI c = c) /\
  (calls_ (RevealUI c) = calls_ c <-> state_ c = kDisabled) /\
  (state_ c <> kDisabled ->
   IsUIVisible (RevealUI c) = true /\
   auto_hide_timer_ (RevealUI c) = None /\
   animation_state_ (RevealUI c) = kShowingUI) /\
  (consistent c -> state_ c = kEnabled ->
   RevealUI c
   = set_calls
       (calls_ c ++ [TimerStop; AnimationShow]
        ++ map (fun o => Notify o (OnImmersiveUIVisibilityChanged true))
             (observers_ c))
       (set_animation {| showing := true; is_animating := true |}
          (set_animation_state kShowingUI
             (set_state kRevealed (set_auto_hide_timer None c))))) /\
  (consistent c -> IsUIVisible c = true ->
   RevealUI c
   = set_calls (calls_ c ++ [TimerStop])
       (set_animation_state kShowingUI (set_auto_hide_timer None c)) /\
   (is_animating (animation_ c) = false ->
    is_animating (animation_ (RevealUI c)) = false)).
Proof.
  split; [|split; [|split; [|split]]].
  - intros Hs. unfold RevealUI. rewrite Hs. reflexivity.
  - split.
    + intros Heq. destruct (state_ c) eqn:Hs; [reflexivity|..].
      all: destruct (RevealUI_calls c) as [rest Hr]; try congruence.
      all: rewrite Heq in Hr; symmetry in Hr; apply app_not_self in Hr; destruct Hr.
    + intros Hs. unfold RevealUI. rewrite Hs. reflexivity.
  - intros Hd. control_fields c. cbn in Hd.
    destruct st; try congruence; destruct an, sh; eval_methods; repeat split.
  - intros Hc Hs. control_states c Hc; cbn in Hs; try discriminate Hs.
    all: eval_methods; rewrite <- ?app_assoc; reflexivity.
  - intros Hc Hv. control_states c Hc; cbn in Hv; try discriminate Hv.
    all: eval_methods; split; [reflexivity | intros H; exact H].
Qed.

(** X2. RevealUI tells a registered observer of the visibility change exactly
    when the UI was not visible before, and tells it nothing otherwise. *)
Theorem RevealUI_notifies (c : Controller) (o : ObserverId) :
  state_ c <> kDisabled -> List.NoDup (observers_ c) -> In o (observers_ c) ->
  received o (calls_ (RevealUI c))
  = received o (calls_ c)
    ++ (if IsUIVisible c then [] else [OnImmersiveUIVisibilityChanged true]).
Proof.
  intros Hd Hnd Hin. control_fields c. cbn in Hd, Hnd, Hin.
  destruct st; try congruence; destruct an, sh; eval_methods.
  all: observer_log Hnd Hin.
Qed.

Lemma RevealUI_notifies_witness :
  received 1%nat (calls_ (RevealUI observed_controller))
  = received 1%nat (calls_ observed_controller)
    ++ [OnImmersiveUIVisibilityChanged true].
Proof.
  assert (Hd : state_ observed_controller <> kDisabled)
    by (vm_compute; discriminate).
  assert (Hnd : List.NoDup (observers_ observed_controller))
    by (vm_compute; repeat constructor; tauto).
  assert (Hin : In 1%nat (observers_ observed_controller))
    by (vm_compute; tauto).
  exact (RevealUI_notifies observed_controller 1%nat Hd Hnd Hin).
Defined.

(** ** hideAfterDelay *)

(** X3. HideUIAfterDelay does nothing exactly when the controller is disabled or
    pinned, the pointer is in the top edge or the address bar has the focus.
    Otherwise it only (re)starts the timer with the auto-hide delay, and a
    second call leaves one timer pending. *)
Theorem HideUIAfterDelay_spec (c : Controller) :
  let blocked :=
    State_eqb (state_ c) kDisabled || State_eqb (state_ c) kPinned
    || should_show_ui_ c || address_bar_focused_ c in
  (HideUIAfterDelay c = c <-> blocked = true) /\
  (blocked = false ->
   HideUIAfterDelay c
   = call (TimerStart (auto_hide_delay_ c))
       (set_auto_hide_timer (Some (auto_hide_delay_ c)) c) /\
   auto_hide_timer_ (HideUIAfterDelay (HideUIAfterDelay c))
   = Some (auto_hide_delay_ c)).
Proof.
  control_fields c. cbn.
  destruct st, ssu, abf; cbn; eval_methods; (split; [split|]); intros H;
    try reflexivity; try discriminate; try (split; reflexivity).
  all: exfalso; apply (f_equal calls_) in H; cbn in H;
    apply app_not_self in H; exact H.
Qed.

(** ** pin and unpin *)

(** X4. UnpinUI does nothing unless the controller is pinned.  A pinned
    controller becomes revealed with the UI still visible, no observer is
    told, and the hide timer is started unless the pointer is in the top edge
    or the address bar has the focus. *)
Theorem UnpinUI_spec (c : Controller) (o : ObserverId) :
  (state_ c <> kPinned -> UnpinUI c = c) /\
  (state_ c = kPinned ->
   state_ (UnpinUI c) = kRevealed /\
   IsUIVisible (UnpinUI c) = true /\
   received o (calls_ (UnpinUI c)) = received o (calls_ c) /\
   auto_hide_timer_ (UnpinUI c)
   = if should_show_ui_ c || address_bar_focused_ c then auto_hide_timer_ c
     else Some (auto_hide_delay_ c)).
Proof.
  control_fields c. cbn.
  split; intros Hs.
  - destruct st; try congruence; reflexivity.
  - subst st. destruct ssu, abf; eval_methods; repeat split;
      rewrite ?received_app; cbn [received flat_map app];
      rewrite ?app_nil_r; reflexivity.
Qed.

(** X5. A pinned controller cannot be hidden: after PinUI the UI is visible, and
    neither HideUIImmediately nor HideUIAfterDelay nor the timer callback
    does anything; UnpinUI then arms the hide timer when nothing holds the
    UI open. *)
Theorem PinUI_blocks_hiding (c : Controller) :
  state_ c <> kDisabled ->
  IsUIVisible (PinUI c) = true /\
  HideUIImmediately (PinUI c) = PinUI c /\
  HideUIAfterDelay (PinUI c) = PinUI c /\
  TriggerAutoHideTimerForTesting (PinUI c) = PinUI c /\
  TimerFired (PinUI c) = PinUI c /\
  (should_show_ui_ c = false -> address_bar_focused_ c = false ->
   state_ (UnpinUI (PinUI c)) = kRevealed /\
   auto_hide_timer_ (UnpinUI (PinUI c)) = Some (auto_hide_delay_ c)).
Proof.
  intros Hd. control_fields c. cbn in Hd |- *.
  destruct st; try congruence; destruct an, sh, ssu, abf; eval_methods.
  all: do 5 (split; [reflexivity|]).
  all: intros Hs Hf; try discriminate Hs; try discriminate Hf.
  all: split; reflexivity.
Qed.

Lemma PinUI_blocks_hiding_witness :
  IsUIVisible (PinUI enabled_controller) = true /\
  TimerFired (PinUI enabled_controller) = PinUI enabled_controller.
Proof.
  assert (Hd : state_ enabled_controller <> kDisabled)
    by (vm_compute; discriminate).
  destruct (PinUI_blocks_hiding enabled_controller Hd) as (H1 & _ & _ & _ & H2 & _).
  split; [exact H1 | exact H2].
Defined.

(** ** Fullscreen changes *)

(** X6. Leaving fullscreen always disables the controller and stops its timer.
    Entering fullscreen enables a disabled controller exactly when the
    preference is on and the legacy toolbar preference does not forbid it;
    with the preference off the call changes nothing. *)
Theorem OnFullscreenStateChanged_spec (c : Controller) :
  state_ (OnFullscreenStateChanged false c) = kDisabled /\
  auto_hide_timer_ (OnFullscreenStateChanged false c)
  = (if IsEnabled c then None else auto_hide_timer_ c) /\
  IsEnabled (OnFullscreenStateChanged true c)
  = IsEnabled c
    || (GetBoolean (pref_service_ c) prefs.kImmersiveFullscreenEnabled
        && negb (ShouldDisableImmersiveMode c)) /\
  (GetBoolean (pref_service_ c) prefs.kImmersiveFullscreenEnabled = false ->
   OnFullscreenStateChanged true c = c).
Proof.
  control_fields c. cbn [pref_service_].
  split; [|split; [|split]].
  - destruct st, an; unfold OnFullscreenStateChanged, SetEnabled; eval_methods;
      rewrite ?SetAllUIElementsVisible_eq; reflexivity.
  - destruct st, an; unfold OnFullscreenStateChanged, SetEnabled; eval_methods;
      rewrite ?SetAllUIElementsVisible_eq; reflexivity.
  - destruct st, an, sh, ssu, abf; unfold OnFullscreenStateChanged; eval_fields;
      decide_tests; unfold SetEnabled; eval_fields; decide_tests; eval_methods;
      first [reflexivity | congruence].
  - intros Hp. unfold OnFullscreenStateChanged. cbn [pref_service_].
    rewrite Hp. reflexivity.
Qed.

(** ** Tab switches *)

(** X7. A tab switch does nothing while disabled.  Otherwise it leaves the UI
    visible, with the hide timer running exactly when the controller is not
    pinned, the pointer is outside the top edge and the address bar is not
    focused. *)
Theorem OnActiveTabChanged_spec (c : Controller) :
  (state_ c = kDisabled -> OnActiveTabChanged c = c) /\
  (state_ c <> kDisabled ->
   IsUIVisible (OnActiveTabChanged c) = true /\
   auto_hide_timer_ (OnActiveTabChanged c)
   = if State_eqb (state_ c) kPinned || should_show_ui_ c || address_bar_focused_ c
     then None else Some (auto_hide_delay_ c)).
Proof.
  control_fields c. cbn.
  split; intros Hs.
  - subst st. reflexivity.
  - destruct st; try congruence; destruct an, sh, ssu, abf; eval_methods;
      split; reflexivity.
Qed.

(** ** Animation callbacks *)

(** X8. The end of the animation settles the views on the current mode: they are
    shown exactly when the UI counts as visible, and the animation state is
    idle again.  So a hide interrupted by a reveal ends revealed with the
    views shown, and a reveal interrupted by a hide ends hidden with the
    views hidden. *)
Theorem AnimationEnded_spec (c : Controller) :
  (is_animating (animation_ c) = false -> AnimationEnded c = c) /\
  (is_animating (animation_ c) = true ->
   animation_state_ (AnimationEnded c) = kNone /\
   is_animating (animation_ (AnimationEnded c)) = false /\
   state_ (AnimationEnded c) = state_ c /\
   browser_view_ (AnimationEnded c) = views_set (IsUIVisible c) (browser_view_ c)) /\
  (consistent c -> state_ c = kEnabled \/ state_ c = kRevealed ->
   let c' := AnimationEnded (RevealUI (HideUIImmediately c)) in
   state_ c' = kRevealed /\ animation_state_ c' = kNone /\
   browser_view_ c' = views_set true (browser_view_ c)) /\
  (consistent c -> state_ c = kEnabled \/ state_ c = kRevealed ->
   let c' := AnimationEnded (HideUIImmediately (RevealUI c)) in
   state_ c' = kEnabled /\ animation_state_ c' = kNone /\
   browser_view_ c' = views_set false (browser_view_ c)).
Proof.
  split; [|split; [|split]].
  - intros Ha. unfold AnimationEnded. rewrite Ha. reflexivity.
  - intros Ha. control_fields c. cbn in Ha. subst ia.
    unfold AnimationEnded, OnAnimationCompleted. eval_fields.
    rewrite SetAllUIElementsVisible_eq. destruct st; repeat split.
  - intros H Hs. control_states c H; destruct Hs as [Hs|Hs]; try discriminate Hs.
    all: unfold AnimationEnded, OnAnimationCompleted; eval_methods;
      rewrite SetAllUIElementsVisible_eq; repeat split.
  - intros H Hs. control_states c H; destruct Hs as [Hs|Hs]; try discriminate Hs.
    all: unfold AnimationEnded, OnAnimationCompleted; eval_methods;
      rewrite SetAllUIElementsVisible_eq; repeat split.
Qed.

(** ** Observers *)

Lemma handle_observers (e : Event) (c : Controller) :
  consistent c ->
  match e with
  | EvAddObserver _ | EvRemoveObserver _ => True
  | _ => observers_ (handle e c) = observers_ c
  end.
Proof.
  intros H. control_states c H.
  all: destruct e as [[]| | | | | | | | | |[]| | | | | | | | | | |]; try exact I.
  all: symbolic_run; reflexivity.
Qed.

Ltac phase_fields :=
  split;
  cbv beta iota zeta delta
    [state_ animation_state_ should_show_ui_ address_bar_focused_
     auto_hide_timer_ show_on_address_bar_focus_ IsUIVisible State_eqb orb];
  intros;
  solve [ reflexivity | discriminate | congruence | assumption ].

Lemma phase_consistent_handle (e : Event) (c : Controller) :
  consistent c -> phase_consistent c -> phase_consistent (handle e c).
Proof.
  intros H [P1 P2 P3 P4]. control_states c H.
  all: cbn in P1, P2, P3, P4.
  all: try (specialize (P1 eq_refl)); try (specialize (P2 eq_refl));
    try discriminate.
  all: try (assert (Hx : false = true) by (apply eq_sym, P3; discriminate);
            discriminate Hx).
  all: destruct sf.
  all: try (assert (Hx : true = false) by (apply P4; [discriminate | reflexivity]);
            discriminate Hx).
  all: destruct e as [[]| | | | | | | | | |[]| | | | | | | | | | |].
  all: symbolic_run.
  all: phase_fields.
Qed.

Lemma handle_received (e : Event) (c : Controller) (o : ObserverId) :
  consistent c ->
  (In o (observers_ c) ->
   received o (calls_ (handle e c))
   = received o (calls_ c) ++ expected_notifications c (handle e c)) /\
  (~ In o (observers_ c) ->
   received o (calls_ (handle e c)) = received o (calls_ c)).
Proof.
  intros H.
  assert (Hnd : List.NoDup (observers_ c)) by apply (observers_once c H).
  control_states c H; cbn in Hnd.
  all: destruct e as [[]| | | | | | | | | |[]| | | | | | | | | | |].
  all: symbolic_run.
  all: unfold expected_notifications; eval_fields; cbn [app].
  all: split; [intros Hin; observer_log Hnd Hin|].
  all: intros Hout; rewrite ?received_app, ?received_views,
         ?(received_notify_other _ _ _ Hout);
       cbn [received flat_map app]; rewrite ?app_nil_r; reflexivity.
Qed.

Lemma phase_consistent_initial (browser_view : BrowserView)
    (pref_service : gmap string PrefValue) :
  phase_consistent (ImmersiveFullscreenController browser_view pref_service).
Proof.
  unfold ImmersiveFullscreenController.
  destruct (InitializeFromPrefs pref_service) as [[[[d u] s] f] k].
  split; cbn; congruence.
Qed.

Lemma phase_consistent_run (es : list Event) (c : Controller) :
  consistent c -> phase_consistent c -> phase_consistent (run es c).
Proof.
  revert c. induction es as [|e es IH]; intros c H P; [exact P|].
  apply IH; [apply consistent_handle | apply phase_consistent_handle]; assumption.
Qed.

Lemma leaving_controller_reachable : reachable leaving_controller.
Proof.
  apply (reachable_run _ test_browser_view test_prefs leaving_events); reflexivity.
Qed.

(** X11. In every reachable state: while the show animation runs the UI counts
    as visible, and the hide animation runs only in the hidden mode; and a
    hide timer is pending only in the hidden or the revealed mode, with the
    pointer outside the top edge and, when reveal-on-focus is configured,
    the address bar not focused. *)
Theorem reachable_phase (c : Controller) :
  reachable c ->
  (animation_state_ c = kShowingUI -> IsUIVisible c = true) /\
  (animation_state_ c = kHidingUI -> state_ c = kEnabled) /\
  (auto_hide_timer_ c <> None ->
   (state_ c = kEnabled \/ state_ c = kRevealed) /\
   mouse_in_top_edge_ c = false /\
   (show_on_address_bar_focus_ c = true -> address_bar_focused_ c = false)).
Proof.
  intros [bv ps es Hv ->].
  set (c := run es (ImmersiveFullscreenController bv ps)).
  assert (H : consistent c) by apply consistent_run, consistent_initial, Hv.
  assert (P : phase_consistent c).
  { apply phase_consistent_run;
      [apply consistent_initial, Hv | apply phase_consistent_initial]. }
  clearbody c. destruct P as [P1 P2 P3 P4].
  split; [exact P1|]. split; [exact P2|]. intros Ht.
  split; [|split; [rewrite <- (hover_signal c H); exact (P3 Ht) | exact (P4 Ht)]].
  destruct (state_ c) eqn:Hs; auto.
  - exfalso. apply Ht. apply (disabled_timer c H Hs).
  - exfalso. apply Ht. apply (pinned_timer c H Hs).
Qed.

Lemma reachable_phase_witness :
  (state_ leaving_controller = kEnabled \/ state_ leaving_controller = kRevealed) /\
  mouse_in_top_edge_ leaving_controller = false.
Proof.
  destruct (reachable_phase leaving_controller leaving_controller_reachable)
    as (_ & _ & H).
  assert (Ht : auto_hide_timer_ leaving_controller <> None)
    by (vm_compute; discriminate).
  destruct (H Ht) as (H1 & H2 & _). split; [exact H1 | exact H2].
Defined.

(** X12. An event tells every registered observer exactly of the changes it
    made: the hover change first, then the visibility change (none when the
    controller ends up disabled), then the mode change; nothing else, and
    nothing twice. *)
Theorem notifications_follow_changes (e : Event) (c : Controller) (o : ObserverId) :
  reachable c -> In o (observers_ c) ->
  received o (calls_ (handle e c))
  = received o (calls_ c) ++ expected_notifications c (handle e c).
Proof.
  intros Hr Hin. apply handle_received; [apply reachable_consistent, Hr | exact Hin].
Qed.

Lemma notifications_follow_changes_witness :
  received 1%nat (calls_ (handle EvRevealUI observed_controller))
  = received 1%nat (calls_ observed_controller)
    ++ expected_notifications observed_controller
         (handle EvRevealUI observed_controller).
Proof.
  assert (Hin : In 1%nat (observers_ observed_controller))
    by (vm_compute; tauto).
  exact (notifications_follow_changes EvRevealUI observed_controller 1%nat
           observed_controller_reachable Hin).
Defined.

Lemma untouched_refl (c : Controller) : untouched c c.
Proof. split; unfold same_view; tauto. Qed.

Lemma untouched_trans (a b c : Controller) :
  untouched a b -> untouched b c -> untouched a c.
Proof.
  intros [] []. split; unfold same_view in *; try congruence; tauto.
Qed.

Ltac untouched_setter := intros; split; unfold same_view; cbn; tauto.

Lemma untouched_set_state v c : untouched c (set_state v c).
Proof. untouched_setter. Qed.
Lemma untouched_set_animation_state v c : untouched c (set_animation_state v c).
Proof. untouched_setter. Qed.
Lemma untouched_set_should_show_ui v c : untouched c (set_should_show_ui v c).
Proof. untouched_setter. Qed.
Lemma untouched_set_address_bar_focused v c : untouched c (set_address_bar_focused v c).
Proof. untouched_setter. Qed.
Lemma untouched_set_mouse_in_top_edge v c : untouched c (set_mouse_in_top_edge v c).
Proof. untouched_setter. Qed.
Lemma untouched_set_auto_hide_timer v c : untouched c (set_auto_hide_timer v c).
Proof. untouched_setter. Qed.
Lemma untouched_set_observers v c : untouched c (set_observers v c).
Proof. untouched_setter. Qed.
Lemma untouched_set_animation v c : untouched c (set_animation v c).
Proof. untouched_setter. Qed.
Lemma untouched_set_calls v c : untouched c (set_calls v c).
Proof. untouched_setter. Qed.
Lemma untouched_set_pref_service v c : untouched c (set_pref_service v c).
Proof. untouched_setter. Qed.

Lemma untouched_SetAllUIElementsVisible v c :
  untouched c (SetAllUIElementsVisible v c).
Proof.
  rewrite SetAllUIElementsVisible_eq. split; unfold same_view; cbn; try tauto.
  all: match goal with |- context [_ <$> ?x] => destruct x end; cbn;
    split; intros; solve [reflexivity | discriminate].
Qed.

Create HintDb untouched.
#[local] Hint Resolve untouched_refl untouched_set_state untouched_set_animation_state
  untouched_set_should_show_ui untouched_set_address_bar_focused
  untouched_set_mouse_in_top_edge untouched_set_auto_hide_timer
  untouched_set_observers untouched_set_animation untouched_set_calls
  untouched_set_pref_service untouched_SetAllUIElementsVisible : untouched.

(** A method built from untouching steps is untouching: walk the body from the
    outside in, splitting on each test without deciding it. *)
Ltac untouched_walk :=
  cbv zeta;
  repeat first
    [ solve [auto with untouched]
    | match goal with
      | |- untouched _ (if ?b then _ else _) => destruct b
      | |- untouched _ (match ?x with _ => _ end) => destruct x
      | |- untouched ?c (?f ?x) =>
          apply (untouched_trans c x (f x)); [|solve [auto with untouched]]
      end ].

Lemma untouched_call k c : untouched c (call k c).
Proof. unfold call. untouched_walk. Qed.
Lemma untouched_notify_all n c : untouched c (notify_all n c).
Proof. unfold notify_all. untouched_walk. Qed.
#[local] Hint Resolve untouched_call untouched_notify_all : untouched.

Lemma untouched_CancelAutoHide c : untouched c (CancelAutoHide c).
Proof. unfold CancelAutoHide. untouched_walk. Qed.
Lemma untouched_ScheduleAutoHide c : untouched c (ScheduleAutoHide c).
Proof. unfold ScheduleAutoHide. untouched_walk. Qed.
Lemma untouched_AnimateShowUI c : untouched c (AnimateShowUI c).
Proof. unfold AnimateShowUI. untouched_walk. Qed.
Lemma untouched_AnimateHideUI c : untouched c (AnimateHideUI c).
Proof. unfold AnimateHideUI. untouched_walk. Qed.
Lemma untouched_CompleteAnimation c : untouched c (CompleteAnimation c).
Proof. unfold CompleteAnimation. untouched_walk. Qed.
#[local] Hint Resolve untouched_CancelAutoHide untouched_ScheduleAutoHide
  untouched_AnimateShowUI untouched_AnimateHideUI untouched_CompleteAnimation
  : untouched.

Lemma untouched_RevealUI c : untouched c (RevealUI c).
Proof.
  unfold RevealUI, NotifyVisibilityChanged. untouched_walk.
Qed.
Lemma untouched_HideUIAfterDelay c : untouched c (HideUIAfterDelay c).
Proof. unfold HideUIAfterDelay. untouched_walk. Qed.
Lemma untouched_HideUIImmediately c : untouched c (HideUIImmediately c).
Proof. unfold HideUIImmediately, NotifyVisibilityChanged. untouched_walk. Qed.
#[local] Hint Resolve untouched_RevealUI untouched_HideUIAfterDelay
  untouched_HideUIImmediately : untouched.

Lemma untouched_PinUI c : untouched c (PinUI c).
Proof. unfold PinUI, NotifyVisibilityChanged. untouched_walk. Qed.
Lemma untouched_UnpinUI c : untouched c (UnpinUI c).
Proof. unfold UnpinUI. untouched_walk. Qed.
Lemma untouched_SetEnabled b c : untouched c (SetEnabled b c).
Proof. unfold SetEnabled, NotifyModeToggled. untouched_walk. Qed.
#[local] Hint Resolve untouched_PinUI untouched_UnpinUI untouched_SetEnabled
  : untouched.

Lemma untouched_OnMouseMoved p c : untouched c (OnMouseMoved p c).
Proof. unfold OnMouseMoved, NotifyMouseHoverChanged. untouched_walk. Qed.
Lemma untouched_OnAddressBarFocused c : untouched c (OnAddressBarFocused c).
Proof. unfold OnAddressBarFocused. untouched_walk. Qed.
Lemma untouched_OnAddressBarBlurred c : untouched c (OnAddressBarBlurred c).
Proof. unfold OnAddressBarBlurred. untouched_walk. Qed.
Lemma untouched_OnKeyboardActivity c : untouched c (OnKeyboardActivity c).
Proof. unfold OnKeyboardActivity. untouched_walk. Qed.
Lemma untouched_OnFullscreenStateChanged b c :
  untouched c (OnFullscreenStateChanged b c).
Proof. unfold OnFullscreenStateChanged. untouched_walk. Qed.
Lemma untouched_OnActiveTabChanged c : untouched c (OnActiveTabChanged c).
Proof. unfold OnActiveTabChanged. untouched_walk. Qed.
Lemma untouched_AddObserver o c : untouched c (AddObserver o c).
Proof. unfold AddObserver. untouched_walk. Qed.
Lemma untouched_RemoveObserver o c : untouched c (RemoveObserver o c).
Proof. unfold RemoveObserver. untouched_walk. Qed.
Lemma untouched_TimerFired c : untouched c (TimerFired c).
Proof. unfold TimerFired, OnAutoHideTimer. untouched_walk. Qed.
Lemma untouched_AnimationProgressed v c : untouched c (AnimationProgressed v c).
Proof.
  unfold AnimationProgressed. rewrite OnAnimationProgressed_eq. untouched_walk.
Qed.
Lemma untouched_AnimationEnded c : untouched c (AnimationEnded c).
Proof. unfold AnimationEnded, OnAnimationCompleted. untouched_walk. Qed.

Lemma handle_untouched_events (e : Event) (c : Controller) :
  is_testing_setter e = false -> untouched c (handle e c).
Proof.
  intros Ht.
  destruct e; try discriminate Ht; cbn [handle];
    unfold TriggerAutoHideTimerForTesting, OnAutoHideTimer, OnWidgetDestroying, skip;
    auto using untouched_refl, untouched_SetEnabled, untouched_RevealUI,
      untouched_HideUIAfterDelay, untouched_HideUIImmediately, untouched_PinUI,
      untouched_UnpinUI, untouched_OnMouseMoved, untouched_OnAddressBarFocused,
      untouched_OnAddressBarBlurred, untouched_OnKeyboardActivity,
      untouched_OnFullscreenStateChanged, untouched_OnActiveTabChanged,
      untouched_AddObserver, untouched_RemoveObserver, untouched_TimerFired,
      untouched_AnimationProgressed, untouched_AnimationEnded,
      untouched_set_pref_service.
Qed.

(** X13. No event changes the top-edge sensitivity or the two reveal flags,
    touches the download shelf, the infobar container or the window bounds,
    or creates or drops a managed view; and only the two testing setters
    change the auto-hide delay and the animation duration.  In particular a
    change of a preference after construction has no effect on them. *)
Theorem handle_untouched (e : Event) (c : Controller) :
  top_edge_sensitivity_px_ (handle e c) = top_edge_sensitivity_px_ c /\
  show_on_address_bar_focus_ (handle e c) = show_on_address_bar_focus_ c /\
  show_on_keyboard_activity_ (handle e c) = show_on_keyboard_activity_ c /\
  download_shelf (browser_view_ (handle e c)) = download_shelf (browser_view_ c) /\
  infobar_container (browser_view_ (handle e c)) = infobar_container (browser_view_ c) /\
  window_bounds (browser_view_ (handle e c)) = window_bounds (browser_view_ c) /\
  same_view (toolbar (browser_view_ (handle e c))) (toolbar (browser_view_ c)) /\
  same_view (tabstrip (browser_view_ (handle e c))) (tabstrip (browser_view_ c)) /\
  same_view (bookmark_bar (browser_view_ (handle e c))) (bookmark_bar (browser_view_ c)) /\
  (is_testing_setter e = false ->
   auto_hide_delay_ (handle e c) = auto_hide_delay_ c /\
   animation_duration_ (handle e c) = animation_duration_ c).
Proof.
  destruct (is_testing_setter e) eqn:Ht.
  - destruct e; try discriminate Ht; cbn; unfold same_view;
      repeat split; intros; solve [reflexivity | discriminate | assumption].
  - destruct (handle_untouched_events e c Ht) as [H1 H2 H3 H4 H5 H6 H7 H8 H9 H10 H11].
    do 9 (split; [assumption|]). intros _. split; assumption.
Qed.

(** ** Construction from the preferences *)

(** X14. The constructor takes the delay, the duration and the sensitivity from
    the preferences, and falls back on 2000 ms, 300 ms and 5 px for a delay
    or duration of zero and a sensitivity that is not positive: a new
    controller never has a zero delay or duration, and its sensitivity is
    positive. *)
Theorem InitializeFromPrefs_spec (v : BrowserView) (p : gmap string PrefValue) :
  let c := ImmersiveFullscreenController v p in
  auto_hide_delay_ c <> 0 /\
  animation_duration_ c <> 0 /\
  0 < top_edge_sensitivity_px_ c /\
  (GetInteger p prefs.kAutoHideDelayMs <> 0 ->
   auto_hide_delay_ c = GetInteger p prefs.kAutoHideDelayMs) /\
  (GetInteger p prefs.kAnimationDurationMs <> 0 ->
   animation_duration_ c = GetInteger p prefs.kAnimationDurationMs) /\
  (0 < GetInteger p prefs.kTopEdgeSensitivityPx ->
   top_edge_sensitivity_px_ c = GetInteger p prefs.kTopEdgeSensitivityPx) /\
  (GetInteger p prefs.kAutoHideDelayMs = 0 -> auto_hide_delay_ c = 2000) /\
  (GetInteger p prefs.kAnimationDurationMs = 0 -> animation_duration_ c = 300) /\
  (GetInteger p prefs.kTopEdgeSensitivityPx <= 0 -> top_edge_sensitivity_px_ c = 5).
Proof.
  unfold ImmersiveFullscreenController, InitializeFromPrefs,
    kDefaultAutoHideDelay, kDefaultAnimationDuration, kDefaultTopEdgeSensitivity.
  cbn.
  destruct (Z.eqb_spec (GetInteger p prefs.kAutoHideDelayMs) 0);
    destruct (Z.eqb_spec (GetInteger p prefs.kAnimationDurationMs) 0);
    destruct (Z.leb_spec (GetInteger p prefs.kTopEdgeSensitivityPx) 0);
    repeat split; intros; lia.
Qed.

Lemma run_sensitivity (es : list Event) (c : Controller) :
  top_edge_sensitivity_px_ (run es c) = top_edge_sensitivity_px_ c /\
  window_bounds (browser_view_ (run es c)) = window_bounds (browser_view_ c).
Proof.
  revert c. induction es as [|e es IH]; intros c; [split; reflexivity|].
  change (run (e :: es) c) with (run es (handle e c)).
  destruct (IH (handle e c)) as [-> ->].
  destruct (is_testing_setter e) eqn:Ht.
  - destruct e; try discriminate Ht; split; reflexivity.
  - destruct (handle_untouched_events e c Ht) as [-> _ _ _ _ _ _ -> _ _ _].
    split; reflexivity.
Qed.

(** X15. In every reachable state the top-edge sensitivity is positive, so
    the hover zone of a window of positive width is not empty: as long as
    the right and the lower edge of the zone fit an int, so that the
    program's sums do not overflow, the zone contains the top-left corner
    of the window. *)
Theorem reachable_hover_zone (c : Controller) :
  reachable c ->
  0 < top_edge_sensitivity_px_ c /\
  (0 < rwidth (window_bounds (browser_view_ c)) ->
   right (window_bounds (browser_view_ c)) <= int_max ->
   ry (window_bounds (browser_view_ c)) + top_edge_sensitivity_px_ c <= int_max ->
   IsMouseInTopEdge c {| px := rx (window_bounds (browser_view_ c));
                         py := ry (window_bounds (browser_view_ c)) |} = true).
Proof.
  intros [bv ps es Hv ->].
  assert (Hs : 0 < top_edge_sensitivity_px_
                     (run es (ImmersiveFullscreenController bv ps))).
  { destruct (run_sensitivity es (ImmersiveFullscreenController bv ps)) as [-> _].
    apply top_edge_sensitivity_positive. }
  split; [exact Hs|]. intros Hw _ _. apply IsMouseInTopEdge_iff. cbn [px py].
  unfold right. lia.
Qed.

Lemma reachable_hover_zone_witness :
  IsMouseInTopEdge leaving_controller {| px := 0; py := 0 |} = true.
Proof.
  destruct (reachable_hover_zone leaving_controller leaving_controller_reachable)
    as [_ H].
  assert (Hw : 0 < rwidth (window_bounds (browser_view_ leaving_controller)))
    by (vm_compute; reflexivity).
  assert (Hr : right (window_bounds (browser_view_ leaving_controller)) <= int_max)
    by (vm_compute; discriminate).
  assert (Hl : ry (window_bounds (browser_view_ leaving_controller))
               + top_edge_sensitivity_px_ leaving_controller <= int_max)
    by (vm_compute; discriminate).
  exact (H Hw Hr Hl).
Defined.

Lemma unobserved_handle (e : Event) (c : Controller) (o : ObserverId) :
  consistent c -> adds_observer o e = false -> ~ In o (observers_ c) ->
  ~ In o (observers_ (handle e c)) /\
  received o (calls_ (handle e c)) = received o (calls_ c).
Proof.
  intros H Ha Hn. split; [|apply handle_received; assumption].
  assert (Ho := handle_observers e c H).
  destruct e; try (rewrite Ho; exact Hn).
  - (* AddObserver *)
    cbn in Ha |- *. unfold AddObserver.
    destruct (existsb (Nat.eqb observer) (observers_ c)); [exact Hn|].
    cbn. rewrite in_app_iff. intros [Hi|[->|[]]]; [exact (Hn Hi)|].
    rewrite Nat.eqb_refl in Ha. discriminate Ha.
  - (* RemoveObserver *)
    cbn. unfold RemoveObserver. cbn. intros Hi. apply filter_In in Hi.
    apply Hn, Hi.
Qed.

(** X10. An observer that is not registered is told nothing, however many events
    follow, as long as none of them registers it; this holds in particular
    from the moment RemoveObserver has removed it. *)
Theorem unobserved_receives_nothing (es : list Event) (c : Controller)
    (o : ObserverId) :
  reachable c -> ~ In o (observers_ c) ->
  forallb (fun e => negb (adds_observer o e)) es = true ->
  received o (calls_ (run es c)) = received o (calls_ c) /\
  ~ In o (observers_ (run es c)).
Proof.
  intros Hr. apply reachable_consistent in Hr. revert c Hr.
  induction es as [|e es IH]; intros c H Hn Hes; [split; [reflexivity | exact Hn]|].
  cbn [forallb] in Hes. apply andb_true_iff in Hes. destruct Hes as [He Hes].
  apply negb_true_iff in He.
  destruct (unobserved_handle e c o H He Hn) as [Hn' Hr'].
  change (run (e :: es) c) with (run es (handle e c)).
  destruct (IH (handle e c) (consistent_handle e c H) Hn' Hes) as [IH1 IH2].
  split; [rewrite IH1; exact Hr' | exact IH2].
Qed.

Lemma unobserved_receives_nothing_witness :
  received 1%nat
    (calls_ (run [EvRevealUI; EvOnAddressBarFocused; EvSetEnabled false]
               (RemoveObserver 1%nat observed_controller)))
  = received 1%nat (calls_ (RemoveObserver 1%nat observed_controller)).
Proof.
  assert (Hr : reachable (RemoveObserver 1%nat observed_controller)).
  { apply (reachable_handle (EvRemoveObserver 1%nat)), observed_controller_reachable. }
  assert (Hn : ~ In 1%nat (observers_ (RemoveObserver 1%nat observed_controller))).
  { vm_compute. tauto. }
  destruct (unobserved_receives_nothing
              [EvRevealUI; EvOnAddressBarFocused; EvSetEnabled false]
              (RemoveObserver 1%nat observed_controller) 1%nat Hr Hn eq_refl)
    as [H _].
  exact H.
Defined.

(** * Further properties of the page handler *)

Section HandlerProperties.
Import EventHandler.

(** *** The class list *)

Arguments classList_add : simpl never.
Arguments classList_remove : simpl never.
Arguments remove_reveal_classes : simpl never.
Arguments String.append : simpl never.

Ltac page_fields b :=
  destruct b as [[en vis mt lp tes aht ahd] [cls hab aba tmo nid dsp con] br].

Ltac break_handler b H :=
  let J1 := fresh "J1" in let J2 := fresh "J2" in let J3 := fresh "J3" in
  let J4 := fresh "J4" in let J5 := fresh "J5" in let J6 := fresh "J6" in
  destruct H as [J1 J2 J3 J4 J5 J6]; page_fields b; cbn in J1, J2, J3, J4, J5, J6.

Lemma reveal_class_not_state (reason : string) :
  "immersive-fullscreen-enabled" <> "immersive-reveal-" +:+ reason /\
  "immersive-ui-hidden" <> "immersive-reveal-" +:+ reason /\
  "immersive-ui-revealed" <> "immersive-reveal-" +:+ reason.
Proof. repeat split; intros H; cbv in H; discriminate H. Qed.

Ltac class_membership :=
  repeat first
    [ rewrite In_classList_add
    | rewrite In_classList_remove
    | rewrite In_remove_reveal_classes by reflexivity ].

Lemma cancelAutoHide_consistent (b : Browser) :
  handler_consistent b -> handler_consistent (cancelAutoHide b).
Proof.
  intros H. break_handler b H. unfold cancelAutoHide. cbn.
  destruct aht as [id|]; [|split; cbn; assumption].
  split; cbn; try assumption; try reflexivity.
  destruct J3 as [->|(id' & d & -> & Heq)]; [left; reflexivity|].
  injection Heq as ->. cbn. rewrite Pos.eqb_refl. left. reflexivity.
Qed.

Lemma scheduleAutoHide_consistent (b : Browser) :
  isEnabled (handler b) = true ->
  handler_consistent b -> handler_consistent (scheduleAutoHide b).
Proof.
  intros He H. apply cancelAutoHide_consistent in H.
  assert (He' : isEnabled (handler (cancelAutoHide b)) = true).
  { unfold cancelAutoHide. destruct (autoHideTimer (handler b)); exact He. }
  assert (Hn : autoHideTimer (handler (cancelAutoHide b)) = None).
  { unfold cancelAutoHide. destruct (autoHideTimer (handler b)) eqn:E;
      [reflexivity | exact E]. }
  unfold scheduleAutoHide. generalize dependent (cancelAutoHide b). clear b He.
  intros b H He Hn. break_handler b H. cbn in He, Hn. subst en aht.
  destruct J3 as [->|(id' & d & _ & Heq)]; [|discriminate Heq].
  split; cbn; try assumption; try discriminate.
  right. eauto.
Qed.

Ltac handler_fields := split; cbn; class_membership.

Ltac one_timeout_after J3 :=
  destruct J3 as [->|(id' & d & -> & Heq)];
  [ left; reflexivity
  | first [ discriminate Heq
          | injection Heq as ->; cbn; rewrite ?Pos.eqb_refl; cbn;
            first [ left; reflexivity | right; eauto ] ] ].

Lemma revealUI_consistent (reason : string) (b : Browser) :
  handler_consistent b -> handler_consistent (revealUI reason b).
Proof.
  intros H. unfold revealUI.
  destruct (negb (isEnabled (handler b)) || isUIVisible (handler b)) eqn:Hg;
    [exact H|].
  apply orb_false_iff in Hg. destruct Hg as [He Hv].
  apply negb_false_iff in He.
  break_handler b H. cbn in He, Hv. subst en vis.
  destruct (reveal_class_not_state reason) as (N1 & N2 & N3).
  unfold cancelAutoHide. destruct aht as [id|]; cbn.
  all: handler_fields; try discriminate; try reflexivity.
  all: try (rewrite <- ?J4, <- ?J5, <- ?J6; intuition congruence).
  all: try (one_timeout_after J3).
Qed.

Lemma revealUI_isEnabled (reason : string) (b : Browser) :
  isEnabled (handler (revealUI reason b)) = isEnabled (handler b).
Proof.
  page_fields b. unfold revealUI, cancelAutoHide.
  destruct en, vis, aht; reflexivity.
Qed.

Lemma hideUI_consistent (reason : string) (b : Browser) :
  handler_consistent b -> handler_consistent (hideUI reason b).
Proof.
  intros H. unfold hideUI.
  destruct (negb (isEnabled (handler b)) || negb (isUIVisible (handler b))) eqn:Hg;
    [exact H|].
  destruct (isAddressBarFocused b); [exact H|].
  apply orb_false_iff in Hg. destruct Hg as [He Hv].
  apply negb_false_iff in He. apply negb_false_iff in Hv.
  break_handler b H. cbn in He, Hv. subst en vis.
  handler_fields; try discriminate; try assumption.
  all: rewrite <- ?J4, <- ?J5, <- ?J6; intuition congruence.
Qed.

Lemma enableImmersiveMode_consistent (b : Browser) :
  handler_consistent b -> handler_consistent (enableImmersiveMode b).
Proof.
  intros H. unfold enableImmersiveMode.
  destruct (isEnabled (handler b)) eqn:He; [exact H|].
  set (b1 := body_add "immersive-ui-hidden"
               (body_add "immersive-fullscreen-enabled"
                  (with_handler
                     (set_isUIVisible false (set_isEnabled true (handler b))) b))).
  assert (H1 : handler_consistent b1).
  { subst b1. break_handler b H. cbn in He. subst en.
    specialize (J1 eq_refl). specialize (J2 eq_refl). subst vis aht.
    handler_fields; try discriminate; try assumption.
    all: rewrite <- ?J4, <- ?J5, <- ?J6; intuition congruence. }
  assert (H2 : forall b2, handler_consistent b2 ->
                 handler_consistent
                   (dispatchModeToggleEvent true
                      (console_debug "Immersive fullscreen mode enabled" b2))).
  { clear. intros b H. break_handler b H. split; cbn; assumption. }
  apply H2. destruct (isAddressBarFocused b1 || _); [|exact H1].
  apply revealUI_consistent, H1.
Qed.

Lemma disableImmersiveMode_consistent (b : Browser) :
  handler_consistent b -> handler_consistent (disableImmersiveMode b).
Proof.
  intros H. unfold disableImmersiveMode.
  destruct (negb (isEnabled (handler b))) eqn:He; [exact H|].
  apply negb_false_iff in He.
  break_handler b H. cbn in He. subst en.
  unfold cancelAutoHide. destruct aht as [id|]; cbn.
  all: handler_fields; try discriminate; try reflexivity.
  all: try (rewrite <- ?J4, <- ?J5, <- ?J6; intuition congruence).
  all: try (one_timeout_after J3).
Qed.

Lemma with_bridge_consistent (m : Method) (b : Browser) :
  handler_consistent b -> handler_consistent (with_bridge m b).
Proof. intros []. split; assumption. Qed.

Lemma dispatch_consistent (e : PageEvent) (b : Browser) :
  handler_consistent b -> handler_consistent (dispatch e b).
Proof.
  intros H. destruct e; cbn [dispatch].
  - (* mouse move *)
    unfold handleMouseMove. destruct (isEnabled (handler b)) eqn:He; [|exact H].
    cbn [negb]. apply with_bridge_consistent.
    set (b1 := with_handler _ b).
    assert (H1 : handler_consistent b1).
    { subst b1. break_handler b H. split; cbn; assumption. }
    assert (He1 : isEnabled (handler b1) = true) by exact He.
    destruct (isMouseInTopEdge b1 (clientY event) && _).
    + apply revealUI_consistent, H1.
    + destruct (_ && _); [|exact H1].
      apply scheduleAutoHide_consistent; assumption.
  - (* key down *)
    unfold handleKeyDown. destruct (isEnabled (handler b)) eqn:He; [|exact H].
    cbn [negb]. apply with_bridge_consistent.
    destruct (shouldReveal event); [apply revealUI_consistent|]; exact H.
  - unfold handleAddressBarFocus.
    destruct (isEnabled (handler b)) eqn:He; [|exact H].
    cbn [negb]. apply with_bridge_consistent, cancelAutoHide_consistent,
      revealUI_consistent, H.
  - unfold handleAddressBarBlur.
    destruct (isEnabled (handler b)) eqn:He; [|exact H].
    cbn [negb]. apply with_bridge_consistent.
    destruct (negb _); [|exact H].
    apply scheduleAutoHide_consistent; assumption.
  - unfold handleFullscreenChange. apply with_bridge_consistent.
    destruct isFullscreen;
      [apply enableImmersiveMode_consistent | apply disableImmersiveMode_consistent];
      exact H.
  - unfold handleWindowResize, updateTopEdgeBounds.
    destruct (isEnabled (handler b)) eqn:He; [|exact H].
    cbn [negb]. apply scheduleAutoHide_consistent.
    + rewrite revealUI_isEnabled. exact He.
    + apply revealUI_consistent, H.
  - unfold tabActivated.
    destruct (isEnabled (handler b)) eqn:He; [|exact H].
    apply scheduleAutoHide_consistent.
    + rewrite revealUI_isEnabled. exact He.
    + apply revealUI_consistent, H.
  - (* a timeout expires *)
    unfold timeoutFired.
    destruct (existsb _ (timeouts (page b))) eqn:Hex; [|exact H].
    apply hideUI_consistent.
    break_handler b H. cbn in Hex.
    destruct J3 as [->|(id' & d & -> & Heq)]; [discriminate Hex|].
    cbn in Hex. rewrite orb_false_r in Hex.
    split; cbn; try assumption. rewrite Hex. cbn. left. reflexivity.
  - unfold updateConfig. break_handler b H. split; cbn; assumption.
  - unfold destroy.
    apply disableImmersiveMode_consistent, cancelAutoHide_consistent, H.
  - unfold setActiveElement. break_handler b H. split; cbn; assumption.
Qed.

Lemma constructor_consistent (p : Page) (native : option Controller) :
  clean_page p -> handler_consistent (constructor p native).
Proof.
  intros (Ht & N1 & N2 & N3). split; cbn; try reflexivity; try discriminate.
  - left. exact Ht.
  - split; [tauto | discriminate].
  - split; [tauto | intros [H _]; discriminate H].
  - split; [tauto | intros [H _]; discriminate H].
Qed.

Lemma dispatch_all_consistent (es : list PageEvent) (b : Browser) :
  handler_consistent b -> handler_consistent (dispatch_all es b).
Proof.
  revert b. induction es as [|e es IH]; intros b H; [exact H|].
  apply IH, dispatch_consistent, H.
Qed.

(** ** What holds of the handler after any run *)

(** X16. Whatever events reach a handler created on a clean page, at most one
    timeout is pending, a pending timeout is the auto-hide timer of the
    handler and the handler is enabled, and a disabled handler shows the UI
    and has no timeout pending. *)
Theorem handler_timeouts (p : Page) (native : option Controller)
    (es : list PageEvent) :
  clean_page p ->
  let b := dispatch_all es (constructor p native) in
  (List.length (timeouts (page b)) <= 1)%nat /\
  (timeouts (page b) <> [] ->
   autoHidePending b = true /\ isEnabled (handler b) = true) /\
  (isEnabled (handler b) = false ->
   isUIVisible (handler b) = true /\ timeouts (page b) = []).
Proof.
  intros Hp b.
  assert (H : handler_consistent b)
    by apply dispatch_all_consistent, constructor_consistent, Hp.
  clearbody b. break_handler b H. unfold autoHidePending. cbn.
  destruct J3 as [->|(id & d & -> & ->)]; cbn.
  - split; [lia|]. split; [congruence|]. auto.
  - split; [lia|]. rewrite Pos.eqb_refl. split.
    + intros _. split; [reflexivity|].
      destruct en; [reflexivity|]. specialize (J2 eq_refl). discriminate J2.
    + intros He. specialize (J2 He). discriminate J2.
Qed.

Lemma clean_test_page : clean_page test_page.
Proof. repeat split; cbn; tauto. Qed.

Lemma handler_timeouts_witness :
  autoHidePending
    (dispatch_all [PeFullscreenChange true; PeMouseMove (mouse_at 600 100)]
       (constructor test_page None)) = true.
Proof.
  destruct (handler_timeouts test_page None
              [PeFullscreenChange true; PeMouseMove (mouse_at 600 100)]
              clean_test_page) as (_ & H & _).
  apply H. discriminate.
Defined.

(** X17. Whatever events reach a handler created on a clean page, the three
    state classes of the body mirror its two flags: the enabled class is
    present exactly while it is enabled, the hidden class exactly while it
    is enabled with the UI hidden, the revealed class exactly while it is
    enabled with the UI visible. *)
Theorem handler_classes (p : Page) (native : option Controller)
    (es : list PageEvent) :
  clean_page p ->
  let b := dispatch_all es (constructor p native) in
  (In "immersive-fullscreen-enabled" (classList (page b))
   <-> isEnabled (handler b) = true) /\
  (In "immersive-ui-hidden" (classList (page b))
   <-> isEnabled (handler b) = true /\ isUIVisible (handler b) = false) /\
  (In "immersive-ui-revealed" (classList (page b))
   <-> isEnabled (handler b) = true /\ isUIVisible (handler b) = true).
Proof.
  intros Hp b.
  assert (H : handler_consistent b)
    by apply dispatch_all_consistent, constructor_consistent, Hp.
  destruct H as [_ _ _ J4 J5 J6]. auto.
Qed.

Lemma handler_classes_witness :
  In "immersive-ui-revealed"
    (classList (page (dispatch_all [PeFullscreenChange true]
                        (constructor test_page None)))).
Proof.
  destruct (handler_classes test_page None [PeFullscreenChange true]
              clean_test_page) as (_ & _ & H).
  apply H. split; reflexivity.
Defined.

(** ** Entering and leaving *)

(** X18. enableImmersiveMode does nothing to an enabled handler.  A disabled
    one becomes enabled, and its UI ends up visible exactly when the address
    bar has the focus or the last recorded mouse position lies in the top
    edge; in that case a visibility event precedes the mode event, and the
    auto-hide timer is not armed. *)
Theorem enableImmersiveMode_spec (b : Browser) :
  (isEnabled (handler b) = true -> enableImmersiveMode b = b) /\
  (isEnabled (handler b) = false ->
   let b' := enableImmersiveMode b in
   let reveal := isAddressBarFocused b
                 || isMouseInTopEdge b (snd (lastMousePosition (handler b))) in
   isEnabled (handler b') = true /\
   isUIVisible (handler b') = reveal /\
   autoHideTimer (handler b')
   = (if reveal then None else autoHideTimer (handler b)) /\
   dispatched (page b')
   = dispatched (page b)
     ++ (if reveal then [immersive_ui_visibility_changed true "initial_state"]
         else [])
     ++ [immersive_mode_toggled true] /\
   bridge b' = bridge b).
Proof.
  split; intros He; unfold enableImmersiveMode; rewrite He; [reflexivity|].
  page_fields b. cbn in He. subst en.
  unfold isAddressBarFocused, isMouseInTopEdge. cbn.
  destruct (hab && aba || (lp.2 <=? tes)); cbn.
  - unfold revealUI, cancelAutoHide; cbn. destruct aht; cbn;
      rewrite <- ?app_assoc; repeat split.
  - repeat split.
Qed.

Lemma never_enabled_dispatch (e : PageEvent) (b : Browser) :
  keeps_disabled e = true -> never_enabled b -> never_enabled (dispatch e b).
Proof.
  intros Hk (He & Hv & Hl & Ht & Hs). page_fields b. cbn in He, Hv, Hl, Ht, Hs.
  subst en vis lp aht.
  destruct e as [ev|ev| | |[]| | |id|s d| |a]; try discriminate Hk;
    cbn; unfold never_enabled; cbn; auto.
  - (* a timeout expires *)
    unfold timeoutFired; cbn. destruct (existsb _ tmo); cbn; auto.
  - destruct s as [s|]; cbn in Hk |- *; [apply Z.leb_le in Hk|]; auto.
Qed.

Lemma never_enabled_dispatch_all (es : list PageEvent) (b : Browser) :
  forallb keeps_disabled es = true -> never_enabled b ->
  never_enabled (dispatch_all es b).
Proof.
  revert b. induction es as [|e es IH]; intros b Hk H; [exact H|].
  cbn in Hk. apply andb_true_iff in Hk. destruct Hk as [Hk Hks].
  apply (IH _ Hks), never_enabled_dispatch; assumption.
Qed.

(** X19. The first time fullscreen is entered the handler reveals the UI at
    once, wherever the pointer is, and arms no timer: mouse moves are not
    recorded while the handler is disabled, so the recorded position is still
    the initial (0, 0), which lies in the top edge. *)
Theorem first_fullscreen_reveals (p : Page) (native : option Controller)
    (es : list PageEvent) :
  forallb keeps_disabled es = true ->
  let b := dispatch (PeFullscreenChange true)
             (dispatch_all es (constructor p native)) in
  isEnabled (handler b) = true /\ isUIVisible (handler b) = true /\
  autoHideTimer (handler b) = None.
Proof.
  intros Hk.
  assert (H : never_enabled (dispatch_all es (constructor p native))).
  { apply never_enabled_dispatch_all; [exact Hk|].
    unfold never_enabled; cbn. repeat split. lia. }
  generalize dependent (dispatch_all es (constructor p native)). intros b H.
  destruct H as (He & Hv & Hl & Ht & Hs). page_fields b.
  cbn in He, Hv, Hl, Ht, Hs. subst en vis lp aht.
  cbn. unfold enableImmersiveMode, isAddressBarFocused, isMouseInTopEdge; cbn.
  apply Z.leb_le in Hs. rewrite Hs, orb_true_r. repeat split.
Qed.

Lemma first_fullscreen_reveals_witness :
  isUIVisible
    (handler (dispatch (PeFullscreenChange true)
                (dispatch_all [PeMouseMove (mouse_at 600 400); PeWindowResize]
                   (constructor test_page None)))) = true.
Proof.
  destruct (first_fullscreen_reveals test_page None
              [PeMouseMove (mouse_at 600 400); PeWindowResize] eq_refl)
    as (_ & H & _).
  exact H.
Defined.

Lemma enableImmersiveMode_bridge (b : Browser) :
  bridge (enableImmersiveMode b) = bridge b.
Proof.
  page_fields b. unfold enableImmersiveMode; cbn. destruct en; [reflexivity|].
  unfold isAddressBarFocused, isMouseInTopEdge; cbn.
  destruct (_ || _); [|reflexivity].
  unfold revealUI, cancelAutoHide; cbn. destruct aht; reflexivity.
Qed.

Lemma enableImmersiveMode_isEnabled (b : Browser) :
  isEnabled (handler (enableImmersiveMode b)) = true.
Proof.
  page_fields b. unfold enableImmersiveMode; cbn. destruct en; [reflexivity|].
  unfold isAddressBarFocused, isMouseInTopEdge; cbn.
  destruct (_ || _); [|reflexivity].
  unfold revealUI, cancelAutoHide; cbn. destruct aht; reflexivity.
Qed.

Lemma disableImmersiveMode_bridge (b : Browser) :
  bridge (disableImmersiveMode b) = bridge b.
Proof.
  page_fields b. unfold disableImmersiveMode, cancelAutoHide.
  destruct en, aht; reflexivity.
Qed.

Lemma disableImmersiveMode_isEnabled (b : Browser) :
  isEnabled (handler (disableImmersiveMode b)) = false.
Proof.
  page_fields b. unfold disableImmersiveMode, cancelAutoHide.
  destruct en, aht; reflexivity.
Qed.

(** X20. On a fullscreen change the handler follows the page and the controller
    behind the bridge follows its preference.  Leaving fullscreen disables
    both.  Entering it always enables the handler, while a disabled
    controller whose preference is off is left as it is: the two then
    disagree on whether immersive mode is on. *)
Theorem handleFullscreenChange_bridge (b : Browser) (c : Controller) :
  bridge b = Some c ->
  (isEnabled (handler (handleFullscreenChange false b)) = false /\
   exists c', bridge (handleFullscreenChange false b) = Some c' /\
              IsEnabled c' = false) /\
  isEnabled (handler (handleFullscreenChange true b)) = true /\
  bridge (handleFullscreenChange true b) = Some (OnFullscreenStateChanged true c) /\
  (IsEnabled c = false ->
   GetBoolean (pref_service_ c) prefs.kImmersiveFullscreenEnabled = false ->
   exists c', bridge (handleFullscreenChange true b) = Some c' /\
              IsEnabled c' = false).
Proof.
  intros Hb. unfold handleFullscreenChange, with_bridge. cbn [handler bridge].
  rewrite enableImmersiveMode_bridge, disableImmersiveMode_bridge, Hb,
    enableImmersiveMode_isEnabled, disableImmersiveMode_isEnabled.
  split; [split; [reflexivity|]|split; [reflexivity|split; [reflexivity|]]].
  - eexists. split; [reflexivity|].
    control_fields c. destruct st, an; unfold OnFullscreenStateChanged, SetEnabled;
      eval_methods; rewrite ?SetAllUIElementsVisible_eq; reflexivity.
  - intros He Hp. exists c. split; [|exact He].
    unfold OnFullscreenStateChanged. rewrite Hp. reflexivity.
Qed.

Lemma handleFullscreenChange_bridge_witness :
  isEnabled (handler (handleFullscreenChange true
                        (constructor test_page (Some pref_off_controller)))) = true /\
  option_map IsEnabled
    (bridge (handleFullscreenChange true
               (constructor test_page (Some pref_off_controller)))) = Some false.
Proof.
  destruct (handleFullscreenChange_bridge
              (constructor test_page (Some pref_off_controller))
              pref_off_controller eq_refl) as (_ & H1 & H2 & _).
  split; [exact H1|]. rewrite H2. reflexivity.
Defined.

(** ** The pointer and the timeout *)

(** X21. A mouse move into the top edge while the UI is visible leaves a
    pending auto-hide timeout in place: when it expires the handler hides the
    UI although the pointer is in the top edge (the controller cancels its
    timer in this situation). *)
Theorem handleMouseMove_keeps_timeout (event : MouseEvent) (id : positive)
    (b : Browser) :
  isEnabled (handler b) = true -> isUIVisible (handler b) = true ->
  autoHideTimer (handler b) = Some id ->
  In id (map fst (timeouts (page b))) ->
  isAddressBarFocused b = false ->
  isMouseInTopEdge b (clientY event) = true ->
  let b' := handleMouseMove event b in
  timeouts (page b') = timeouts (page b) /\
  autoHidePending b' = true /\
  isUIVisible (handler b') = true /\
  isUIVisible (handler (timeoutFired id b')) = false.
Proof.
  intros He Hv Ht Hin Hf Hm.
  assert (Hex : existsb (fun t => Pos.eqb (fst t) id) (timeouts (page b)) = true).
  { apply existsb_exists. apply in_map_iff in Hin.
    destruct Hin as (t & <- & Hin'). exists t. split; [exact Hin'|].
    apply Pos.eqb_refl. }
  page_fields b. unfold isAddressBarFocused in Hf. unfold isMouseInTopEdge in Hm.
  cbn in He, Hv, Ht, Hf, Hm, Hex. subst en vis aht.
  unfold handleMouseMove, isMouseInTopEdge, isAddressBarFocused, autoHidePending,
    timeoutFired, hideUI. cbn. rewrite Hm. cbn. rewrite Hex. cbn.
  unfold isAddressBarFocused. cbn. rewrite Hf. repeat split.
Qed.

Lemma handleMouseMove_keeps_timeout_witness :
  isUIVisible
    (handler (timeoutFired 1 (handleMouseMove (mouse_at 600 2) armed_browser)))
  = false.
Proof.
  assert (He : isEnabled (handler armed_browser) = true)
    by (vm_compute; reflexivity).
  assert (Hv : isUIVisible (handler armed_browser) = true)
    by (vm_compute; reflexivity).
  assert (Ht : autoHideTimer (handler armed_browser) = Some 1%positive)
    by (vm_compute; reflexivity).
  assert (Hin : In 1%positive (map fst (timeouts (page armed_browser))))
    by (vm_compute; left; reflexivity).
  assert (Hf : isAddressBarFocused armed_browser = false)
    by (vm_compute; reflexivity).
  assert (Hm : isMouseInTopEdge armed_browser (clientY (mouse_at 600 2)) = true)
    by (vm_compute; reflexivity).
  destruct (handleMouseMove_keeps_timeout (mouse_at 600 2) 1 armed_browser
              He Hv Ht Hin Hf Hm) as (_ & _ & _ & H).
  exact H.
Defined.

(** ** Tear-down *)

(** X22. destroy leaves a handler created on a clean page, whatever happened
    to it, disabled with the UI visible, no timeout pending and none of the
    three state classes on the body; destroying it again changes nothing. *)
Theorem destroy_spec (p : Page) (native : option Controller)
    (es : list PageEvent) :
  clean_page p ->
  let b := destroy (dispatch_all es (constructor p native)) in
  isEnabled (handler b) = false /\ isUIVisible (handler b) = true /\
  autoHideTimer (handler b) = None /\ timeouts (page b) = [] /\
  ~ In "immersive-fullscreen-enabled" (classList (page b)) /\
  ~ In "immersive-ui-hidden" (classList (page b)) /\
  ~ In "immersive-ui-revealed" (classList (page b)) /\
  destroy b = b.
Proof.
  intros Hp b.
  assert (H : handler_consistent b).
  { apply (dispatch_consistent PeDestroy), dispatch_all_consistent,
      constructor_consistent, Hp. }
  assert (He : isEnabled (handler b) = false).
  { subst b. unfold destroy. apply disableImmersiveMode_isEnabled. }
  clearbody b. break_handler b H. cbn in He. subst en.
  specialize (J1 eq_refl). specialize (J2 eq_refl). subst vis aht. cbn.
  destruct J3 as [->|(? & ? & _ & Heq)]; [|discriminate Heq].
  do 4 (split; [reflexivity|]).
  split; [rewrite J4; discriminate|].
  split; [rewrite J5; intros [E _]; discriminate E|].
  split; [rewrite J6; intros [E _]; discriminate E|].
  reflexivity.
Qed.

Lemma destroy_spec_witness :
  timeouts (page (destroy (dispatch_all
                             [PeFullscreenChange true; PeMouseMove (mouse_at 600 100)]
                             (constructor test_page None)))) = [].
Proof.
  destruct (destroy_spec test_page None
              [PeFullscreenChange true; PeMouseMove (mouse_at 600 100)]
              clean_test_page) as (_ & _ & _ & H & _).
  exact H.
Defined.

End HandlerProperties.

(** * Properties of the tab classifier *)

Section ClassifierProperties.
Import TabFocus.

(** ** Sanitizing *)

Arguments starts_sensitive : simpl never.

Lemma delete_sensitive_skipping_head (s : string) :
  delete_sensitive true s = "" \/
  exists rest, delete_sensitive true s = String "&" rest.
Proof.
  induction s as [|c s IH]; [left; reflexivity|].
  cbn [delete_sensitive]. destruct (Ascii.eqb_spec c "&") as [->|Hne]; cbn.
  - destruct (starts_sensitive s); [exact IH | right; eauto].
  - exact IH.
Qed.

(** A word without '&' that leads the output leads the input. *)
Lemma prefix_delete_sensitive (w s : string) :
  (forall c, In c (list_ascii_of_string w) -> c <> "&"%char) ->
  String.prefix w (delete_sensitive false s) = true -> String.prefix w s = true.
Proof.
  revert s. induction w as [|a w IH]; intros s Hw Hp; [destruct s; reflexivity|].
  destruct s as [|c s]; [discriminate Hp|].
  cbn [delete_sensitive] in Hp. cbn [andb] in Hp.
  destruct (is_separator c && starts_sensitive s) eqn:Hm.
  - destruct (delete_sensitive_skipping_head s) as [E|[rest E]]; rewrite E in Hp.
    + discriminate Hp.
    + cbn in Hp. destruct (Ascii.eqb_spec a "&") as [->|Hne].
      * exfalso. apply (Hw "&"%char); [left|]; reflexivity.
      * destruct (ascii_dec a "&"); [contradiction | discriminate Hp].
  - cbn [String.prefix] in Hp |- *.
    destruct (ascii_dec a c); [|discriminate Hp].
    apply IH; [|exact Hp]. intros x Hx. apply Hw. right. exact Hx.
Qed.

Lemma starts_sensitive_delete (s : string) :
  starts_sensitive (delete_sensitive false s) = true -> starts_sensitive s = true.
Proof.
  unfold starts_sensitive, sensitive_words. cbn [existsb].
  rewrite !orb_true_iff.
  intros H.
  repeat match type of H with
         | _ \/ _ => destruct H as [H|H]
         end;
    try discriminate H;
    apply prefix_delete_sensitive in H;
    try (rewrite H; rewrite ?orb_true_r; tauto);
    try (cbn; intros c Hc; intuition (subst; discriminate)).
  all: tauto.
Qed.

Lemma delete_sensitive_clean (skipping : bool) (s : string) :
  has_sensitive_param (delete_sensitive skipping s) = false.
Proof.
  revert skipping. induction s as [|c s IH]; intros skipping; [reflexivity|].
  cbn [delete_sensitive].
  destruct (skipping && negb (Ascii.eqb c "&")); [apply IH|].
  destruct (is_separator c && starts_sensitive s) eqn:Hm; [apply IH|].
  cbn [has_sensitive_param]. rewrite IH, orb_false_r.
  destruct (is_separator c); [|reflexivity]. cbn in Hm |- *.
  destruct (starts_sensitive (delete_sensitive false s)) eqn:E; [|reflexivity].
  apply starts_sensitive_delete in E. congruence.
Qed.

Lemma delete_sensitive_id (s : string) :
  has_sensitive_param s = false -> delete_sensitive false s = s.
Proof.
  induction s as [|c s IH]; intros H; [reflexivity|].
  cbn [has_sensitive_param] in H. apply orb_false_iff in H. destruct H as [Hm Hs].
  cbn [delete_sensitive andb]. rewrite Hm, IH by exact Hs. reflexivity.
Qed.

Lemma delete_sensitive_length (skipping : bool) (s : string) :
  (String.length (delete_sensitive skipping s) <= String.length s)%nat.
Proof.
  revert skipping. induction s as [|c s IH]; intros skipping; [reflexivity|].
  cbn [delete_sensitive String.length].
  destruct (skipping && negb (Ascii.eqb c "&")); [specialize (IH true); lia|].
  destruct (is_separator c && starts_sensitive s); [specialize (IH true); lia|].
  cbn [String.length]. specialize (IH false). lia.
Qed.

(** X23. SanitizeUrl leaves no sensitive parameter behind (deleting one never
    brings two pieces together that form another), keeps a URL that has none
    as it is, never lengthens a URL, and is idempotent. *)
Theorem SanitizeUrl_spec (url : string) :
  has_sensitive_param (SanitizeUrl url) = false /\
  (has_sensitive_param url = false -> SanitizeUrl url = url) /\
  (String.length (SanitizeUrl url) <= String.length url)%nat /\
  SanitizeUrl (SanitizeUrl url) = SanitizeUrl url.
Proof.
  unfold SanitizeUrl. split; [apply delete_sensitive_clean|].
  split; [apply delete_sensitive_id|].
  split; [apply delete_sensitive_length|].
  apply delete_sensitive_id, delete_sensitive_clean.
Qed.

(** ** Titles *)

Lemma substring_length (n : nat) (s : string) :
  (n <= String.length s)%nat -> String.length (String.substring 0 n s) = n.
Proof.
  revert s. induction n as [|n IH]; intros s H.
  - destruct s; reflexivity.
  - destruct s as [|c s]; [cbn in H; lia|].
    cbn. rewrite IH; [reflexivity | cbn in H; lia].
Qed.

Lemma substring_append (n : nat) (s t : string) :
  String.length s = n -> String.substring 0 n (s ++ t)%string = s.
Proof.
  revert s. induction n as [|n IH]; intros s H.
  - destruct s; [|discriminate H]. destruct t; reflexivity.
  - destruct s as [|c s]; [discriminate H|].
    change (String c s +:+ t) with (String c (s +:+ t)).
    cbn [String.substring]. rewrite IH; [reflexivity | cbn in H; lia].
Qed.

Lemma append_length (s t : string) :
  String.length (s ++ t)%string = (String.length s + String.length t)%nat.
Proof.
  induction s as [|c s IH]; [reflexivity|].
  change (String c s +:+ t) with (String c (s +:+ t)).
  cbn [String.length]. rewrite IH. reflexivity.
Qed.

Lemma SanitizeTabInfo_eq (tab : TabInfo) :
  SanitizeTabInfo tab
  = {| title := if (200 <? String.length (title tab))%nat
                then (String.substring 0 200 (title tab) ++ "...")%string
                else title tab;
       domain := domain tab; url := SanitizeUrl (url tab); tab_id := tab_id tab |}.
Proof.
  destruct tab as [t d u i]. unfold SanitizeTabInfo. cbn [url title domain tab_id].
  destruct (String.eqb_spec u "") as [->|Hu]; cbn [negb url title domain tab_id];
    destruct (200 <? String.length t)%nat; reflexivity.
Qed.

(** X24. SanitizeTabInfo keeps the domain and the tab id and sanitizes the URL;
    it keeps a title of at most 200 characters and cuts a longer one to its
    first 200 characters followed by three dots, so that a title never
    exceeds 203 characters; and it is idempotent. *)
Theorem SanitizeTabInfo_spec (tab : TabInfo) :
  domain (SanitizeTabInfo tab) = domain tab /\
  tab_id (SanitizeTabInfo tab) = tab_id tab /\
  url (SanitizeTabInfo tab) = SanitizeUrl (url tab) /\
  (String.length (title (SanitizeTabInfo tab)) <= 203)%nat /\
  ((String.length (title tab) <= 200)%nat ->
   title (SanitizeTabInfo tab) = title tab) /\
  ((200 < String.length (title tab))%nat ->
   title (SanitizeTabInfo tab) = (String.substring 0 200 (title tab) ++ "...")%string) /\
  SanitizeTabInfo (SanitizeTabInfo tab) = SanitizeTabInfo tab.
Proof.
  rewrite (SanitizeTabInfo_eq (SanitizeTabInfo tab)), !(SanitizeTabInfo_eq tab).
  cbn [url title domain tab_id].
  assert (Hu : SanitizeUrl (SanitizeUrl (url tab)) = SanitizeUrl (url tab))
    by apply delete_sensitive_id, delete_sensitive_clean.
  rewrite Hu.
  destruct (Nat.ltb_spec 200 (String.length (title tab))) as [Hl|Hl].
  - assert (Hlen : String.length (String.substring 0 200 (title tab) ++ "...")%string
                   = 203%nat).
    { rewrite append_length, substring_length by lia. reflexivity. }
    rewrite Hlen. change (200 <? 203)%nat with true. cbv iota.
    rewrite substring_append by (apply substring_length; lia).
    repeat split; try reflexivity; lia.
  - destruct (Nat.ltb_spec 200 (String.length (title tab))); [lia|].
    repeat split; try reflexivity; lia.
Qed.

(** ** Requests *)

Lemma tab_lines_view (i : nat) (tabs tabs' : list TabInfo) :
  map prompt_view tabs = map prompt_view tabs' ->
  tab_lines i (map SanitizeTabInfo tabs) = tab_lines i (map SanitizeTabInfo tabs').
Proof.
  revert i tabs'. induction tabs as [|t tabs IH]; intros i [|t' tabs'] H;
    try discriminate H; [reflexivity|].
  cbn [map] in H. unfold prompt_view at 1 3 in H.
  injection H as Htitle Hdomain Hrest.
  cbn [map tab_lines]. rewrite (IH (S i) tabs' Hrest).
  rewrite (SanitizeTabInfo_eq t), (SanitizeTabInfo_eq t').
  cbn [title domain]. rewrite Htitle, Hdomain. reflexivity.
Qed.

Lemma tabs_to_process_firstn (tabs : list TabInfo) :
  (if (kMaxTabsPerRequest <? List.length tabs)%nat
   then firstn kMaxTabsPerRequest tabs else tabs)
  = firstn kMaxTabsPerRequest tabs.
Proof.
  destruct (Nat.ltb_spec kMaxTabsPerRequest (List.length tabs)); [reflexivity|].
  symmetry. apply firstn_all2. assumption.
Qed.

(** X25. Only the titles and the domains of the first twenty tabs decide what
    ClassifyTabs does: URLs, tab ids and every tab beyond the twentieth have
    no influence on the callback result or on the prompt sent to the model. *)
Theorem ClassifyTabs_request (model_service : option ModelService)
    (tabs tabs' : list TabInfo) :
  map prompt_view (firstn kMaxTabsPerRequest tabs)
  = map prompt_view (firstn kMaxTabsPerRequest tabs') ->
  ClassifyTabs model_service tabs = ClassifyTabs model_service tabs'.
Proof.
  intros H. unfold ClassifyTabs.
  destruct (negb (IsReady model_service)); [reflexivity|].
  rewrite !tabs_to_process_firstn.
  assert (He : Nat.eqb (List.length tabs) 0 = Nat.eqb (List.length tabs') 0).
  { destruct tabs, tabs'; try reflexivity; discriminate H. }
  rewrite He. destruct (Nat.eqb (List.length tabs') 0); [reflexivity|].
  unfold BuildClassificationPrompt. rewrite (tab_lines_view 0 _ _ H). reflexivity.
Qed.

Lemma ClassifyTabs_request_witness :
  ClassifyTabs ready_service [tab_a] = ClassifyTabs ready_service [tab_b].
Proof. apply (ClassifyTabs_request ready_service [tab_a] [tab_b]). reflexivity. Defined.

(** ** Responses *)

Lemma tab_ids_of_sound (tab_numbers : list Value) (original_tabs : list TabInfo)
    (id : Z) :
  In id (tab_ids_of tab_numbers original_tabs) ->
  exists tab, In tab original_tabs /\ tab_id tab = id.
Proof.
  induction tab_numbers as [|v l IH]; intros H; [contradiction|].
  cbn [tab_ids_of] in H. destruct v; auto.
  destruct ((0 <? n) && (Z.to_nat n <=? List.length original_tabs)%nat); auto.
  destruct (nth_error original_tabs (Z.to_nat n - 1)) as [tab|] eqn:E; auto.
  destruct H as [H|H]; auto.
  exists tab. split; [|exact H]. eapply nth_error_In. exact E.
Qed.

Lemma tab_ids_of_no_tabs (tab_numbers : list Value) :
  tab_ids_of tab_numbers [] = [].
Proof.
  induction tab_numbers as [|v l IH]; [reflexivity|].
  cbn [tab_ids_of]. destruct v; auto.
  destruct ((0 <? n) && (Z.to_nat n <=? List.length (@nil TabInfo))%nat); auto.
  destruct (Z.to_nat n - 1)%nat; cbn; exact IH.
Qed.

Lemma groups_of_sound (groups_list : list Value) (original_tabs : list TabInfo)
    (g : TabGroup) :
  In g (groups_of groups_list original_tabs) ->
  tab_ids g <> [] /\
  forall id, In id (tab_ids g) -> exists tab, In tab original_tabs /\ tab_id tab = id.
Proof.
  induction groups_list as [|v l IH]; intros H; [contradiction|].
  cbn [groups_of] in H. destruct v; auto.
  destruct (FindString "name" d) as [nm|]; auto.
  destruct (FindList "tab_numbers" d) as [nums|]; auto.
  cbn [tab_ids] in H.
  destruct (tab_ids_of nums original_tabs) as [|i ids] eqn:E; cbn in H; auto.
  destruct H as [<-|H]; auto. cbn [tab_ids]. split; [discriminate|].
  intros id Hid. apply (tab_ids_of_sound nums). rewrite E. exact Hid.
Qed.

Lemma groups_of_length (groups_list : list Value) (original_tabs : list TabInfo) :
  (List.length (groups_of groups_list original_tabs) <= List.length groups_list)%nat.
Proof.
  induction groups_list as [|v l IH]; [reflexivity|].
  cbn [groups_of List.length]. destruct v; try lia.
  destruct (FindString "name" d); try lia.
  destruct (FindList "tab_numbers" d); try lia.
  destruct (negb _); cbn [List.length]; lia.
Qed.

Lemma groups_of_no_tabs (groups_list : list Value) :
  groups_of groups_list [] = [].
Proof.
  induction groups_list as [|v l IH]; [reflexivity|].
  cbn [groups_of]. destruct v; auto.
  destruct (FindString "name" d); auto.
  destruct (FindList "tab_numbers" d); auto.
  cbn [tab_ids]. rewrite tab_ids_of_no_tabs. exact IH.
Qed.

(** X26. ParseClassificationResponse succeeds exactly when the response reads as
    a dictionary with a list under the key groups; a failure carries no group
    and an error message; and every group returned has at least one tab id,
    each of them the id of one of the original tabs, with no more groups than
    the response lists. *)
Theorem ParseClassificationResponse_sound (JSONReader_Read : string -> option Value)
    (response : string) (original_tabs : list TabInfo) :
  let r := ParseClassificationResponse JSONReader_Read response original_tabs in
  (IsSuccess r = true <->
   exists root groups_list,
     JSONReader_Read response = Some (DictValue root) /\
     FindList "groups" root = Some groups_list /\
     (List.length (groups r) <= List.length groups_list)%nat) /\
  (IsSuccess r = false -> groups r = [] /\ error_message r <> "") /\
  (forall g, In g (groups r) ->
     tab_ids g <> [] /\
     forall id, In id (tab_ids g) ->
       exists tab, In tab original_tabs /\ tab_id tab = id).
Proof.
  unfold ParseClassificationResponse.
  destruct (JSONReader_Read response) as [[| | | | | |root]|] eqn:Eread;
    try (cbn; repeat split; try discriminate; try contradiction;
         intros (? & ? & ? & _); discriminate).
  destruct (FindList "groups" root) as [groups_list|] eqn:Egroups; cbn.
  - split; [split; [intros _|reflexivity]|split; [discriminate|]].
    + exists root, groups_list. repeat split; [exact Egroups|].
      apply groups_of_length.
    + intros g Hg. apply (groups_of_sound groups_list original_tabs g Hg).
  - split; [split; [discriminate|]|split; [intros _; split; [reflexivity|discriminate]|]].
    + intros (? & ? & E & E' & _). injection E as <-. congruence.
    + contradiction.
Qed.

(** X27. OnModelResponse hands ParseClassificationResponse an empty list of
    original tabs, so whatever the model answers the callback receives no
    group: no tab number of a response can be resolved to a tab id. *)
Theorem OnModelResponse_no_groups (JSONReader_Read : string -> option Value)
    (response : string) :
  groups (OnModelResponse JSONReader_Read response) = [].
Proof.
  unfold OnModelResponse, ParseClassificationResponse.
  destruct (String.eqb response ""); [reflexivity|].
  destruct (JSONReader_Read response) as [[| | | | | |root]|]; try reflexivity.
  destruct (FindList "groups" root); [|reflexivity].
  cbn [CreateSuccess groups]. apply groups_of_no_tabs.
Qed.

End ClassifierProperties.
